(** * The ReAct agent loop of [language_models/agent/agent.py]

    A shallow embedding of [num_tokens_from_messages], [Agent._trim_conversation],
    [Agent._parse_output], [Agent.invoke] and [Agent.create], and the properties
    of the agent loop stated over it.

    Python objects mutated in place ([self.chat]) are threaded explicitly; the
    collaborators (language model, output parser, tools) act on an abstract
    world [W], so that they may answer differently from one call to the next. *)

From Stdlib Require Import ZArith List String Ascii Bool Lia.
Import ListNotations.
Local Open Scope string_scope.
Local Open Scope Z_scope.

Set Implicit Arguments.
Set Warnings "-register-all".

(** ** Python values, exceptions and results *)

(** The values that flow through the loop as [Any]: tool inputs, final
    answers, prompt variables.  [PModel cls fields] is an instance of a
    pydantic model class, [PClass cls] the class itself. *)
Inductive PyVal : Type :=
| PNone
| PBool (b : bool)
| PInt (z : Z)
| PStr (s : string)
| PList (items : list PyVal)
| PDict (entries : list (string * PyVal))
| PModel (cls : string) (fields : list (string * PyVal))
| PClass (cls : string).

(** The class of an exception, as an [except] clause sees it: an instance of a
    subclass of [ValueError] has kind [ValueError], and likewise for the other
    builtin classes.  [OtherException cls] is any class that derives from none
    of the five named here. *)
Inductive ExceptionKind : Type :=
| ValueError
| TypeError
| KeyError
| IndexError
| AttributeError
| OtherException (cls : string).

(** An exception object; [exc_str] is what [str(error)] gives. *)
Record PyException : Type := mkException {
  exc_kind : ExceptionKind;
  exc_str : string
}.

(** What a call to a collaborator gives back: collaborators are taken to
    answer, with a value or with an exception. *)
Inductive outcome (A : Type) : Type :=
| Returns (a : A)
| Raises (e : PyException).
Arguments Returns {A} a.
Arguments Raises {A} e.

(** The outcome of running a piece of the agent's own code: a value, a raised
    exception, or a loop of the model that ran out of fuel. *)
Inductive result (A : Type) : Type :=
| Ok (a : A)
| Raise (e : PyException)
| Diverge.
Arguments Ok {A} a.
Arguments Raise {A} e.
Arguments Diverge {A}.

Definition lift {A : Type} (o : outcome A) : result A :=
  match o with
  | Returns a => Ok a
  | Raises e => Raise e
  end.

Definition newline : string := String (ascii_of_nat 10) EmptyString.

(** [sep.join(items)] *)
Fixpoint join (sep : string) (items : list string) : string :=
  match items with
  | [] => ""
  | [s] => s
  | s :: rest => s ++ sep ++ join sep rest
  end.

(** ** Python dicts: insertion-ordered, one entry per key *)

Definition dict (V : Type) : Type := list (string * V).

(** [d.get(key)] *)
Fixpoint dict_get {V : Type} (key : string) (d : dict V) : option V :=
  match d with
  | [] => None
  | (k, v) :: rest => if String.eqb key k then Some v else dict_get key rest
  end.

(** [d[key] = value]: an existing key keeps its position, a new one goes last. *)
Fixpoint dict_set {V : Type} (key : string) (value : V) (d : dict V) : dict V :=
  match d with
  | [] => [(key, value)]
  | (k, v) :: rest =>
      if String.eqb key k then (k, value) :: rest
      else (k, v) :: dict_set key value rest
  end.

(** [list(d.keys())] *)
Definition dict_keys {V : Type} (d : dict V) : list string := map fst d.

(** [{key_of(x): value_of(x) for x in xs}] *)
Definition dict_comprehension {A V : Type}
    (key_of : A -> string) (value_of : A -> V) (xs : list A) : dict V :=
  fold_left (fun d x => dict_set (key_of x) (value_of x) d) xs [].

(** [del l[i]]; [None] stands for the [IndexError] of an index out of range. *)
Fixpoint list_del {A : Type} (i : nat) (l : list A) : option (list A) :=
  match i, l with
  | _, [] => None
  | O, _ :: rest => Some rest
  | S i', x :: rest =>
      match list_del i' rest with
      | Some rest' => Some (x :: rest')
      | None => None
      end
  end.

(** ** Chat messages and the conversation state *)

Inductive ChatMessageRole : Type := SYSTEM | USER | ASSISTANT.

(** Modelled from the spec: the values of the [ChatMessageRole] string enum
    (declared in [models/llm.py]) are the role names {system, user, assistant}. *)
Definition role_value (r : ChatMessageRole) : string :=
  match r with
  | SYSTEM => "system"
  | USER => "user"
  | ASSISTANT => "assistant"
  end.

(** Modelled from the spec: [ChatMessage] (declared in [models/llm.py]) is
    {role, content}. *)
Module ChatMessage.
Record t : Type := mk {
  role : ChatMessageRole;
  content : string
}.

(** [message.model_dump().items()] *)
Definition model_dump (m : t) : list (string * string) :=
  [("role", role_value (role m)); ("content", content m)].
End ChatMessage.

Inductive ReasoningStepName : Type := PROMPT | THOUGHT | TOOL | FINAL_ANSWER.

Module ReasoningStepTool.
Record t : Type := mk {
  tool : string;
  tool_input : PyVal;
  tool_response : string
}.
End ReasoningStepTool.

(** The [content] of a reasoning step is a text or a [ReasoningStepTool]. *)
Inductive StepContent : Type :=
| Text (s : string)
| ToolContent (c : ReasoningStepTool.t).

Module ReasoningStep.
Record t : Type := mk {
  name : ReasoningStepName;
  content : StepContent
}.
End ReasoningStep.

Module Chat.
Record t : Type := mk {
  messages : list ChatMessage.t;
  chain_of_thought : list ReasoningStep.t;
  steps : list string
}.

Definition set_messages (c : t) (ms : list ChatMessage.t) : t :=
  mk ms (chain_of_thought c) (steps c).
Definition set_chain_of_thought (c : t) (cot : list ReasoningStep.t) : t :=
  mk (messages c) cot (steps c).
Definition set_steps (c : t) (ss : list string) : t :=
  mk (messages c) (chain_of_thought c) ss.
End Chat.

(** ** Token counting *)

Definition _MODEL_TOKEN_LIMIT : dict Z :=
  [("gpt-4", 8192); ("gpt-4-32k", 32768); ("gpt-35-turbo", 4096);
   ("gpt-35-turbo-16k", 16385)].

Section Tokens.
(** [tiktoken.get_encoding("cl100k_base").encode], which raises (a
    [ValueError]) on a text that holds a special token, and [repr] of a
    [str]. *)
Variable encode : string -> outcome (list Z).
Variable py_repr : string -> string.

(** The inner loop of [num_tokens_from_messages], over the items of one
    message; an error of the encoder leaves the function. *)
Fixpoint count_items (items : list (string * string)) (num_tokens : Z) : result Z :=
  match items with
  | [] => Ok num_tokens
  | (key, value) :: rest =>
      match encode value with
      | Raises e => Raise e
      | Returns tokens =>
          let num_tokens := num_tokens + Z.of_nat (List.length tokens) in
          let num_tokens :=
            if String.eqb key "name" then num_tokens + -1 else num_tokens in
          count_items rest num_tokens
      end
  end.

Fixpoint count_messages (messages : list ChatMessage.t) (num_tokens : Z) : result Z :=
  match messages with
  | [] => Ok num_tokens
  | message :: rest =>
      let num_tokens := num_tokens + 4 in
      match count_items (ChatMessage.model_dump message) num_tokens with
      | Ok num_tokens => count_messages rest num_tokens
      | Raise e => Raise e
      | Diverge => Diverge
      end
  end.

Definition num_tokens_from_messages (messages : list ChatMessage.t) : result Z :=
  match count_messages messages 0 with
  | Ok num_tokens => Ok (num_tokens + 2)
  | Raise e => Raise e
  | Diverge => Diverge
  end.

(** ** Trimming *)

(** The condition of the [while] of [_trim_conversation] on a log; [None]
    when it has no value there: the tokens of the log cannot be counted, or
    the model is not in [_MODEL_TOKEN_LIMIT]. *)
Definition over_budget (model : string) (max_tokens : Z)
    (messages : list ChatMessage.t) : option bool :=
  match num_tokens_from_messages messages, dict_get model _MODEL_TOKEN_LIMIT with
  | Ok num_tokens, Some limit => Some (num_tokens + max_tokens >=? limit)
  | _, _ => None
  end.

(** [KeyError(key)] for a [str] key: its [str()] is the [repr] of the key. *)
Definition key_error (key : string) : PyException :=
  mkException KeyError (py_repr key).

Definition del_index_error : PyException :=
  mkException IndexError "list assignment index out of range".

(** The [while] of [_trim_conversation] on the message list it mutates, with
    the count of the list in [num_tokens]: the list as the loop leaves it,
    and how the loop ends. *)
Fixpoint trim_loop (fuel : nat) (model : string) (max_tokens : Z)
    (messages : list ChatMessage.t) (num_tokens : Z)
    : list ChatMessage.t * result unit :=
  match fuel with
  | O => (messages, Diverge)
  | S fuel' =>
      match dict_get model _MODEL_TOKEN_LIMIT with
      | None => (messages, Raise (key_error model))
      | Some limit =>
          if num_tokens + max_tokens >=? limit then
            match list_del 1 messages with
            | None => (messages, Raise del_index_error)
            | Some messages' =>
                match num_tokens_from_messages messages' with
                | Ok num_tokens => trim_loop fuel' model max_tokens messages' num_tokens
                | Raise e => (messages', Raise e)
                | Diverge => (messages', Diverge)
                end
            end
          else (messages, Ok tt)
      end
  end.

(** [_trim_conversation] on the message list: the tokens are counted, then
    the loop runs.  Each pass of the loop that goes on deletes a message, so
    one more pass than there are messages is enough. *)
Definition trim (model : string) (max_tokens : Z)
    (messages : list ChatMessage.t) : list ChatMessage.t * result unit :=
  match num_tokens_from_messages messages with
  | Ok num_tokens =>
      trim_loop (S (List.length messages)) model max_tokens messages num_tokens
  | Raise e => (messages, Raise e)
  | Diverge => (messages, Diverge)
  end.
End Tokens.

(** ** The collaborators and the agent *)

(** Modelled from the spec: a [Tool] (declared in [tools/tool.py]) is
    {name, invoke: input -> text}; the call may raise and may change the
    world. *)
Module Tool.
Record t (W : Type) : Type := mk {
  name : string;
  invoke : PyVal -> W -> W * outcome string
}.
End Tool.

(** Modelled from the spec: the model-completion collaborator
    [OpenAILanguageModel] (declared in [models/llm.py]), with the model
    identifier and the maximum number of output tokens. *)
Module OpenAILanguageModel.
Record t (W : Type) : Type := mk {
  model : string;
  max_tokens : Z;
  get_completion : list ChatMessage.t -> W -> W * outcome string
}.
End OpenAILanguageModel.

(** Modelled from the spec: [OutputType] is declared in [output_parser.py];
    [agent.py] names six of its members, and [PLAIN] stands for each of the
    others (string, number and so on). *)
Inductive OutputType : Type :=
| STRUCT
| ARRAY_STRUCT
| OBJECT
| ARRAY_OBJECT
| DATE
| TIMESTAMP
| PLAIN (name : string).

(** An entry of [cls.__annotations__]: an object that has a union with
    [None] (a class, a generic alias, a union), or the text of the annotation
    when it is kept as a string (a quoted annotation, or any annotation of a
    module under [from __future__ import annotations]). *)
Inductive Annotation : Type :=
| TypeObject (name : string)
| StringAnnotation (text : string).

(** A pydantic model class, as far as the agent looks into it:
    [cls.__name__], [cls.__annotations__] and
    [cls.model_json_schema()["properties"]]. *)
Module BaseModelClass.
Record t : Type := mk {
  __name__ : string;
  __annotations__ : dict Annotation;
  properties : dict PyVal
}.
End BaseModelClass.

(** [output_schema: type[BaseModel] | str | None] *)
Inductive OutputSchema : Type :=
| SchemaClass (cls : BaseModelClass.t)
| SchemaStr (s : string).

(** Modelled from the spec: [ParsedOutput] is a tool-use request or a final
    answer ([LLMToolUse] and [LLMFinalAnswer] of [output_parser.py]). *)
Inductive ParsedOutput : Type :=
| LLMToolUse (thought : string) (tool : string) (tool_input : PyVal)
| LLMFinalAnswer (thought : string) (final_answer : PyVal).

Definition thought (output : ParsedOutput) : string :=
  match output with
  | LLMToolUse th _ _ => th
  | LLMFinalAnswer th _ => th
  end.

(** Modelled from the spec: the parser collaborator [AgentOutputParser]
    (declared in [output_parser.py]), with the attributes that [agent.py]
    reads and [parse], which may raise. *)
Module AgentOutputParser.
Record t (W : Type) : Type := mk {
  output_type : OutputType;
  output_schema : option OutputSchema;
  object_schema : option BaseModelClass.t;
  tool_use : bool;
  parse : string -> W -> W * outcome ParsedOutput
}.
End AgentOutputParser.

Inductive PromptingStrategy : Type := SINGLE_COMPLETION | CHAIN_OF_THOUGHT.

Module AgentOutput.
Record t : Type := mk {
  prompt : string;
  final_answer : PyVal;
  chain_of_thought : list ReasoningStep.t
}.
End AgentOutput.

Module Agent.
Record t (W : Type) : Type := mk {
  llm : OpenAILanguageModel.t W;
  tools : option (dict (Tool.t W));
  prompt : string;
  prompt_variables : list string;
  output_parser : AgentOutputParser.t W;
  chat : Chat.t;
  prompting_strategy : PromptingStrategy;
  iterations : Z
}.

Definition set_chat {W : Type} (self : t W) (c : Chat.t) : t W :=
  mk (llm self) (tools self) (prompt self) (prompt_variables self)
     (output_parser self) c (prompting_strategy self) (iterations self).
End Agent.

(** The calls made to the collaborators and what each gave back, in order:
    the instrumentation that the statements about calls are read from. *)
Inductive Event : Type :=
| CompletionCall (messages : list ChatMessage.t) (answer : outcome string)
| ParseCall (output : string) (answer : outcome ParsedOutput)
| ToolCall (tool : string) (tool_input : PyVal) (answer : outcome string).

Definition is_completion (ev : Event) : bool :=
  match ev with CompletionCall _ _ => true | _ => false end.

Definition is_tool_call (ev : Event) : bool :=
  match ev with ToolCall _ _ _ => true | _ => false end.

(** The number of model-completion calls in a log of events. *)
Definition completion_calls (evs : list Event) : nat :=
  List.length (filter is_completion evs).

Definition tool_calls (evs : list Event) : list Event :=
  filter is_tool_call evs.

(** What [invoke] runs on: the agent object, the world of the collaborators
    and the calls made so far. *)
Record Machine (W : Type) : Type := mkMachine {
  self : Agent.t W;
  world : W;
  events : list Event
}.

(** ** The monad of the agent's methods

    A method runs on a machine and leaves a machine, with a value, a raised
    exception or an exhausted fuel; the state is kept when an exception is
    raised, as the mutations of [self.chat] are in Python. *)

Definition M (W A : Type) : Type := Machine W -> Machine W * result A.

Definition ret {W A : Type} (a : A) : M W A := fun m => (m, Ok a).

Definition bind {W A B : Type} (c : M W A) (k : A -> M W B) : M W B :=
  fun m =>
    match c m with
    | (m', Ok a) => k a m'
    | (m', Raise e) => (m', Raise e)
    | (m', Diverge) => (m', Diverge)
    end.

Declare Scope agent_scope.
Delimit Scope agent_scope with agent.
Notation "x <- c ;; k" := (bind c (fun x => k))
  (at level 61, c at next level, right associativity) : agent_scope.
Notation "c ;; k" := (bind c (fun _ => k))
  (at level 61, right associativity) : agent_scope.
Local Open Scope agent_scope.

Definition get_self {W : Type} : M W (Agent.t W) := fun m => (m, Ok (self m)).

Definition get_chat {W : Type} : M W Chat.t :=
  fun m => (m, Ok (Agent.chat (self m))).

Definition put_chat {W : Type} (c : Chat.t) : M W unit :=
  fun m => (mkMachine (Agent.set_chat (self m) c) (world m) (events m), Ok tt).

(** A call to a collaborator: it is logged, it may change the world, and what
    it raises is raised in the caller. *)
Definition call {W A : Type} (ev : outcome A -> Event) (f : W -> W * outcome A)
    : M W A :=
  fun m =>
    let (w, o) := f (world m) in
    (mkMachine (self m) w (events m ++ [ev o]), lift o).

(** The four in-place updates of [self.chat] that [invoke] makes. *)
Definition append_message {W : Type} (msg : ChatMessage.t) : M W unit :=
  c <- get_chat ;; put_chat (Chat.set_messages c (Chat.messages c ++ [msg])).

Definition append_chain_of_thought {W : Type} (step : ReasoningStep.t) : M W unit :=
  c <- get_chat ;;
  put_chat (Chat.set_chain_of_thought c (Chat.chain_of_thought c ++ [step])).

Definition append_step {W : Type} (s : string) : M W unit :=
  c <- get_chat ;; put_chat (Chat.set_steps c (Chat.steps c ++ [s])).

(** What the variable [observation] of [invoke] holds: [None], the error
    caught by [_parse_output], or a text. *)
Inductive Observation : Type :=
| ObsNone
| ObsError (error : PyException)
| ObsStr (s : string).

(** [f"{observation}"] *)
Definition format_observation (observation : Observation) : string :=
  match observation with
  | ObsNone => "None"
  | ObsError error => exc_str error
  | ObsStr s => s
  end.

(** How a pass of the [while] of [invoke] ends: on to the next pass, or out of
    [invoke] by the [return] inside the loop. *)
Inductive Flow : Type :=
| Next
| Return (output : AgentOutput.t).

Definition attribute_error (attr : string) : PyException :=
  mkException AttributeError
    ("'NoneType' object has no attribute '" ++ attr ++ "'").

Section AgentLoop.
Variable W : Type.

(** [tiktoken]'s encoder, [repr] of a [str], [str()] of a value as f-strings
    and [str] apply it, and [str.format] with keyword arguments, which may
    raise. *)
Variable encode : string -> outcome (list Z).
Variable py_repr : string -> string.
Variable py_str : PyVal -> string.
Variable str_format : string -> dict PyVal -> outcome string.

(** What pydantic does with a value for the field [final_answer] of
    [AgentOutput] that is not, as it is, of one of the types of the field: a
    value coerced to one of them (as [True] to 1) or a [ValidationError]. *)
Variable coerce : PyVal -> outcome PyVal.

(** [create_model(name, **optional_fields)] of pydantic, with the names of
    the fields, followed by the call of the model it gives; it may raise. *)
Variable create_model : string -> list string -> outcome unit.

(** The content of the user turn that [Chat.update] builds from the prompt
    and the step summaries. *)
Variable user_turn : string -> list string -> string.

(** Modelled from the spec: [Chat.update] (declared in [chat.py]) appends a
    user-turn message rebuilt from the accumulated step summaries. *)
Definition chat_update (prompt : string) : M W unit :=
  c <- get_chat ;;
  append_message (ChatMessage.mk USER (user_turn prompt (Chat.steps c))).

Definition _trim_conversation : M W unit :=
  fun m =>
    let c := Agent.chat (self m) in
    let llm := Agent.llm (self m) in
    let (messages, r) :=
      trim encode py_repr (OpenAILanguageModel.model llm)
        (OpenAILanguageModel.max_tokens llm) (Chat.messages c) in
    (mkMachine (Agent.set_chat (self m) (Chat.set_messages c messages))
       (world m) (events m), r).

(** [except ValueError] and [except TypeError] *)
Definition caught (e : PyException) : bool :=
  match exc_kind e with
  | ValueError | TypeError => true
  | _ => false
  end.

Definition _parse_output (output : string)
    : M W (option ParsedOutput * Observation) :=
  fun m =>
    match call (ParseCall output)
            (AgentOutputParser.parse (Agent.output_parser (self m)) output) m with
    | (m', Ok output) => (m', Ok (Some output, ObsNone))
    | (m', Raise error) =>
        if caught error then (m', Ok (None, ObsError error))
        else (m', Raise error)
    | (m', Diverge) => (m', Diverge)
    end.

(** The [else] branch of [isinstance(output, LLMFinalAnswer)]: the tool
    dispatch, which gives the observation of the turn. *)
Definition dispatch (tool : string) (tool_input : PyVal)
    (observation : Observation) : M W Observation :=
  self <- get_self ;;
  match Agent.tools self with
  | Some tools =>
      match dict_get tool tools with
      | Some the_tool =>
          tool_response <-
            call (ToolCall tool tool_input) (Tool.invoke the_tool tool_input) ;;
          let observation := ("Tool Response:" ++ newline ++ tool_response)%string in
          append_step ("Tool: " ++ Tool.name the_tool) ;;
          append_step ("Tool Input: " ++ py_str tool_input) ;;
          append_chain_of_thought
            (ReasoningStep.mk TOOL
               (ToolContent (ReasoningStepTool.mk tool tool_input tool_response))) ;;
          ret (ObsStr observation)
      | None =>
          let tool_names := join ", " (dict_keys tools) in
          ret (ObsStr (tool ++ " tool doesn't exist. Try one of these tools: "
                         ++ tool_names))
      end
  | None => ret observation
  end.

(** The last three statements of the body of the [while]. *)
Definition end_of_turn (prompt : string) (observation : Observation) : M W Flow :=
  append_step ("Observation: " ++ format_observation observation) ;;
  chat_update prompt ;;
  ret Next.

(** [final_answer] is, as it is, of one of the types of the field
    [final_answer] of [AgentOutput]: [None], a [str], an [int], a dict, a
    model instance, or a list of only [str]s, only [int]s, only dicts or only
    model instances ([bool] and [float] values are not among the [PInt]). *)
Definition exact_member (final_answer : PyVal) : bool :=
  let is_str v := match v with PStr _ => true | _ => false end in
  let is_int v := match v with PInt _ => true | _ => false end in
  let is_dict v := match v with PDict _ => true | _ => false end in
  let is_model v := match v with PModel _ _ => true | _ => false end in
  match final_answer with
  | PNone | PStr _ | PInt _ | PDict _ | PModel _ _ => true
  | PList items =>
      forallb is_str items || forallb is_int items
      || forallb is_dict items || forallb is_model items
  | PBool _ | PClass _ => false
  end.

(** The validation of the field [final_answer] when an [AgentOutput] is
    built: a value of one of the types of the field is kept, any other goes
    through pydantic's coercion. *)
Definition validate_final_answer (final_answer : PyVal) : outcome PyVal :=
  if exact_member final_answer then Returns final_answer else coerce final_answer.

(** [AgentOutput(prompt=..., final_answer=..., chain_of_thought=...)] *)
Definition new_agent_output (prompt : string) (final_answer : PyVal)
    (chain_of_thought : list ReasoningStep.t) : M W AgentOutput.t :=
  fun m =>
    (m, match validate_final_answer final_answer with
        | Returns final_answer =>
            Ok (AgentOutput.mk prompt final_answer chain_of_thought)
        | Raises e => Raise e
        end).

(** The body of the [while] from [if output is not None] on: what is done
    with the parsed output and the observation. *)
Definition act (prompt : string) (output : option ParsedOutput)
    (observation : Observation) : M W Flow :=
  match output with
  | Some output =>
      append_step ("Thought: " ++ thought output) ;;
      append_chain_of_thought (ReasoningStep.mk THOUGHT (Text (thought output))) ;;
      match output with
      | LLMFinalAnswer _ final_answer =>
          append_chain_of_thought
            (ReasoningStep.mk FINAL_ANSWER (Text (py_str final_answer))) ;;
          append_message (ChatMessage.mk ASSISTANT (py_str final_answer)) ;;
          c <- get_chat ;;
          output <- new_agent_output prompt final_answer (Chat.chain_of_thought c) ;;
          ret (Return output)
      | LLMToolUse _ tool tool_input =>
          observation <- dispatch tool tool_input observation ;;
          end_of_turn prompt observation
      end
  | None => end_of_turn prompt observation
  end.

(** [self.llm.get_completion(self.chat.messages)] *)
Definition get_completion : M W string :=
  self <- get_self ;;
  let messages := Chat.messages (Agent.chat self) in
  call (CompletionCall messages)
    (OpenAILanguageModel.get_completion (Agent.llm self) messages).

(** The body of the [while] of [invoke]. *)
Definition loop_body (prompt : string) : M W Flow :=
  _trim_conversation ;;
  output <- get_completion ;;
  parsed <- _parse_output output ;;
  let (output, observation) := parsed in
  act prompt output observation.

(** [while iteration <= self.iterations: ...; iteration += 1]; [None] when
    the condition fails, [Some] when the body returns. *)
Fixpoint while_loop (fuel : nat) (prompt : string) (iteration : Z)
    : M W (option AgentOutput.t) :=
  match fuel with
  | O => fun m => (m, Diverge)
  | S fuel' =>
      self <- get_self ;;
      if iteration <=? Agent.iterations self then
        flow <- loop_body prompt ;;
        match flow with
        | Return output => ret (Some output)
        | Next => while_loop fuel' prompt (iteration + 1)
        end
      else ret None
  end.

(** [{key: None for key in keys}] *)
Definition null_filled (keys : list string) : dict PyVal :=
  dict_comprehension (fun key => key) (fun _ => PNone) keys.

(** [data_type | None] on an annotation that is kept as a string. *)
Definition union_type_error : PyException :=
  mkException TypeError "unsupported operand type(s) for |: 'str' and 'NoneType'".

(** [{field: (data_type | None, None) for field, data_type in fields.items()}]:
    the names of the fields, or the [TypeError] of the first annotation that
    is a string. *)
Fixpoint optional_fields (fields : dict Annotation) : result (list string) :=
  match fields with
  | [] => Ok []
  | (field, TypeObject _) :: rest =>
      match optional_fields rest with
      | Ok names => Ok (field :: names)
      | Raise e => Raise e
      | Diverge => Diverge
      end
  | (_, StringAnnotation _) :: _ => Raise union_type_error
  end.

(** [model()] for the model that [create_model] gives for the schema class
    with every field optional: an instance with [None] in every field. *)
Definition fallback_model (cls : BaseModelClass.t) : result PyVal :=
  match optional_fields (BaseModelClass.__annotations__ cls) with
  | Ok names =>
      match create_model (BaseModelClass.__name__ cls) names with
      | Returns _ => Ok (PModel (BaseModelClass.__name__ cls) (null_filled names))
      | Raises e => Raise e
      end
  | Raise e => Raise e
  | Diverge => Diverge
  end.

(** The value built after the loop, when it ends without a final answer.
    An attribute read on [None] or on a [str] raises [AttributeError]. *)
Definition fallback_answer (parser : AgentOutputParser.t W) : result PyVal :=
  match AgentOutputParser.output_type parser with
  | STRUCT =>
      match AgentOutputParser.object_schema parser with
      | Some schema =>
          Ok (PDict (null_filled (dict_keys (BaseModelClass.properties schema))))
      | None => Raise (attribute_error "model_json_schema")
      end
  | ARRAY_STRUCT =>
      match AgentOutputParser.object_schema parser with
      | Some schema =>
          Ok (PList [PDict (null_filled (dict_keys (BaseModelClass.properties schema)))])
      | None => Raise (attribute_error "model_json_schema")
      end
  | OBJECT =>
      match AgentOutputParser.output_schema parser with
      | Some (SchemaClass cls) => fallback_model cls
      | Some (SchemaStr _) =>
          Raise (mkException AttributeError
                   "'str' object has no attribute '__annotations__'")
      | None => Raise (attribute_error "__annotations__")
      end
  | ARRAY_OBJECT =>
      match AgentOutputParser.output_schema parser with
      | Some (SchemaClass cls) =>
          match fallback_model cls with
          | Ok instance => Ok (PList [instance])
          | Raise e => Raise e
          | Diverge => Diverge
          end
      | Some (SchemaStr _) =>
          Raise (mkException AttributeError
                   "'str' object has no attribute '__annotations__'")
      | None => Raise (attribute_error "__annotations__")
      end
  | DATE | TIMESTAMP | PLAIN _ => Ok PNone
  end.

(** [{variable: prompt.get(variable) for variable in self.prompt_variables}] *)
Definition prompt_arguments (variables : list string) (prompt : dict PyVal)
    : dict PyVal :=
  dict_comprehension (fun variable => variable)
    (fun variable =>
       match dict_get variable prompt with
       | Some value => value
       | None => PNone
       end)
    variables.

(** The statements of [invoke] before the loop: the prompt is formatted, the
    user message appended, the chain of thought and the steps replaced. *)
Definition invoke_start (prompt : dict PyVal) : M W string :=
  self <- get_self ;;
  prompt <-
    (fun m => (m, lift (str_format (Agent.prompt self)
                          (prompt_arguments (Agent.prompt_variables self) prompt)))) ;;
  append_message (ChatMessage.mk USER prompt) ;;
  c <- get_chat ;;
  put_chat (Chat.set_chain_of_thought c [ReasoningStep.mk PROMPT (Text prompt)]) ;;
  c <- get_chat ;;
  put_chat (Chat.set_steps c []) ;;
  ret prompt.

(** The statements of [invoke] after the loop. *)
Definition invoke_fallback (prompt : string) : M W AgentOutput.t :=
  self <- get_self ;;
  final_answer <- (fun m => (m, fallback_answer (Agent.output_parser self))) ;;
  c <- get_chat ;;
  new_agent_output prompt final_answer (Chat.chain_of_thought c).

(** [Agent.invoke], with the fuel given to its loop. *)
Definition invoke_with (fuel : nat) (prompt : dict PyVal) : M W AgentOutput.t :=
  prompt <- invoke_start prompt ;;
  returned <- while_loop fuel prompt 0 ;;
  match returned with
  | Some output => ret output
  | None => invoke_fallback prompt
  end.

(** The loop is entered for [iteration] = 0, ..., [iterations], and its
    condition is evaluated once more. *)
Definition invoke_fuel (iterations : Z) : nat := S (Z.to_nat (iterations + 1)).

Definition invoke (prompt : dict PyVal) : M W AgentOutput.t :=
  fun m => invoke_with (invoke_fuel (Agent.iterations (self m))) prompt m.

(** *** Runs of the loop and of successive calls *)

(** The agent after [invoke] has been called with each of [prompts] in
    turn, whatever each call gave. *)
Definition invoke_all (prompts : list (dict PyVal)) (m : Machine W) : Machine W :=
  fold_left (fun m prompt => fst (invoke prompt m)) prompts m.

(** [reaches prompt iteration m iteration' m']: the [while] of [invoke],
    entered with [iteration] on the machine [m], gets to the test of its
    condition with [iteration'] on the machine [m']. *)
Inductive reaches (prompt : string) : Z -> Machine W -> Z -> Machine W -> Prop :=
| reaches_here : forall iteration m, reaches prompt iteration m iteration m
| reaches_next : forall iteration m m1 iteration' m',
    iteration <= Agent.iterations (self m) ->
    loop_body prompt m = (m1, Ok Next) ->
    reaches prompt (iteration + 1) m1 iteration' m' ->
    reaches prompt iteration m iteration' m'.
End AgentLoop.

(** ** Notions the properties are stated with *)

(** The number of tokens of a text that the encoder accepts (0 for one that
    it refuses), and whether it accepts the text. *)
Definition tokens_of (encode : string -> outcome (list Z)) (value : string) : Z :=
  match encode value with
  | Returns tokens => Z.of_nat (List.length tokens)
  | Raises _ => 0
  end.

Definition accepted (encode : string -> outcome (list Z)) (value : string) : bool :=
  match encode value with
  | Returns _ => true
  | Raises _ => false
  end.

(** [k] successive [del messages[1]]. *)
Fixpoint del_second (k : nat) (messages : list ChatMessage.t)
    : option (list ChatMessage.t) :=
  match k with
  | O => Some messages
  | S k' =>
      match list_del 1 messages with
      | Some messages' => del_second k' messages'
      | None => None
      end
  end.

(** The message log after [n] successive calls of [_trim_conversation]. *)
Definition trims (encode : string -> outcome (list Z)) (py_repr : string -> string)
    (model : string) (max_tokens : Z)
    (n : nat) (messages : list ChatMessage.t) : list ChatMessage.t :=
  Nat.iter n (fun messages => fst (trim encode py_repr model max_tokens messages))
    messages.

(** The two ways the message log changes: a message is appended, or the
    message at index 1 is deleted. *)
Inductive log_step : list ChatMessage.t -> list ChatMessage.t -> Prop :=
| log_append : forall messages message, log_step messages (messages ++ [message])
| log_trim : forall messages messages',
    list_del 1 messages = Some messages' -> log_step messages messages'.

Inductive log_evolves : list ChatMessage.t -> list ChatMessage.t -> Prop :=
| log_same : forall messages, log_evolves messages messages
| log_then : forall messages messages' messages'',
    log_step messages messages' -> log_evolves messages' messages'' ->
    log_evolves messages messages''.

(** The agent without its conversation: what [invoke] never assigns. *)
Definition config {W : Type} (self : Agent.t W) : Agent.t W :=
  Agent.set_chat self (Chat.mk [] [] []).

(** The chat of the agent of a machine. *)
Definition chat_of {W : Type} (m : Machine W) : Chat.t := Agent.chat (self m).

(** The machine after the model has answered [output] on the machine [m] and
    the parser, called on that output, has given [parsed] and left the world
    [w]. *)
Definition parsed_machine {W : Type} (m : Machine W) (output : string) (w : W)
    (parsed : outcome ParsedOutput) : Machine W :=
  mkMachine (self m) w
    (events m ++ [CompletionCall (Chat.messages (chat_of m)) (Returns output);
                  ParseCall output parsed]).

(** [extends m m']: the machine [m'] has the configuration of [m], its chain
    of thought continues that of [m], and its log comes from that of [m] by
    appends and deletions at index 1. *)
Definition extends {W : Type} (m m' : Machine W) : Prop :=
  config (self m') = config (self m) /\
  (exists added,
      Chat.chain_of_thought (chat_of m')
      = (Chat.chain_of_thought (chat_of m) ++ added)%list) /\
  log_evolves (Chat.messages (chat_of m)) (Chat.messages (chat_of m')).

(** [within n c]: the computation [c] ends, extends the machine it runs on,
    and makes at most [n] model-completion calls. *)
Definition within {W A : Type} (n : nat) (c : M W A) : Prop :=
  forall m,
    snd (c m) <> Diverge /\
    extends m (fst (c m)) /\
    (completion_calls (events (fst (c m))) <= completion_calls (events m) + n)%nat.

(** The tool step that a pass of the loop records for a tool-use output:
    one step when the tool is registered and answers, none otherwise. *)
Definition tool_steps {W : Type} (tools : option (dict (Tool.t W)))
    (tool : string) (tool_input : PyVal) (w : W) : list ReasoningStep.t :=
  match tools with
  | Some tools =>
      match dict_get tool tools with
      | Some the_tool =>
          match snd (Tool.invoke the_tool tool_input w) with
          | Returns tool_response =>
              [ReasoningStep.mk TOOL
                 (ToolContent (ReasoningStepTool.mk tool tool_input tool_response))]
          | Raises _ => []
          end
      | None => []
      end
  | None => []
  end.

(** ** A small agent to run the definitions on

    The world counts the completions made so far; the tokenizer gives one
    token per character. *)
Module Demo.
Definition special_token : string := "<|endoftext|>".

Definition disallowed_special : PyException :=
  mkException ValueError "Encountered text corresponding to disallowed special token".

(** One token per character; a text that holds the special token is refused,
    as the encoder of [tiktoken] refuses it. *)
Definition encode (s : string) : outcome (list Z) :=
  match index 0 special_token s with
  | Some _ => Raises disallowed_special
  | None => Returns (map (fun a => Z.of_nat (nat_of_ascii a)) (list_ascii_of_string s))
  end.

(** [repr] of a text that holds no quote, backslash or control character. *)
Definition py_repr (s : string) : string := "'" ++ s ++ "'".

Definition validation_error : PyException :=
  mkException ValueError "1 validation error for AgentOutput".

(** The coercion to the field [final_answer]: a [bool] becomes an [int], and
    anything else that is not of the types of the field is refused with a
    [ValidationError], which is a [ValueError]. *)
Definition coerce (v : PyVal) : outcome PyVal :=
  match v with
  | PBool true => Returns (PInt 1)
  | PBool false => Returns (PInt 0)
  | _ => Raises validation_error
  end.

Definition create_model (name : string) (fields : list string) : outcome unit :=
  Returns tt.

Definition py_str (v : PyVal) : string :=
  match v with
  | PNone => "None"
  | PBool true => "True"
  | PBool false => "False"
  | PStr s => s
  | _ => "..."
  end.

Definition str_format (template : string) (kwargs : dict PyVal) : outcome string :=
  match dict_get "question" kwargs with
  | Some v => Returns (template ++ py_str v)
  | None => Raises (key_error py_repr "question")
  end.

Definition user_turn (prompt : string) (steps : list string) : string :=
  join (newline ++ newline) (prompt :: steps).

(** [s] with every occurrence of [old] replaced by [new]; [skip] counts the
    characters of an occurrence that are still to be passed over. *)
Fixpoint substitute (old new : string) (skip : nat) (s : string) : string :=
  match s with
  | EmptyString => EmptyString
  | String c rest =>
      match skip with
      | S skip' => substitute old new skip' rest
      | O =>
          if prefix old s
          then new ++ substitute old new (String.length old - 1) rest
          else String c (substitute old new O rest)
      end
  end.

(** [template.format] with keyword arguments, for a template that holds
    replacement fields of the form {name} only. *)
Definition format_template (template : string) (kwargs : dict PyVal) : string :=
  fold_left
    (fun text '(key, value) => substitute ("{" ++ key ++ "}") (py_str value) O text)
    kwargs template.

(** The model asks for the scripted outputs in turn. *)
Definition llm (model : string) (max_tokens : Z) (script : list string)
    : OpenAILanguageModel.t nat :=
  OpenAILanguageModel.mk model max_tokens
    (fun _ w => (S w, Returns (nth w script "Final Answer: 42"))).

Definition parse (output : string) (w : nat) : nat * outcome ParsedOutput :=
  if String.eqb output "Final Answer: 42" then
    (w, Returns (LLMFinalAnswer "I know the answer" (PStr "42")))
  else if String.eqb output "Tool: search" then
    (w, Returns (LLMToolUse "I should search" "search" (PStr "rocq")))
  else if String.eqb output "Tool: browse" then
    (w, Returns (LLMToolUse "I should browse" "browse" (PStr "rocq")))
  else if String.eqb output "Final Answer: mixed" then
    (w, Returns (LLMFinalAnswer "I have two answers" (PList [PStr "a"; PInt 1])))
  else if String.eqb output "Final Answer: True" then
    (w, Returns (LLMFinalAnswer "It holds" (PBool true)))
  else if String.eqb output "crash" then
    (w, Raises (mkException (OtherException "RuntimeError") "parser crashed"))
  else (w, Raises (mkException ValueError "Invalid output format")).

Definition parser (output_type : OutputType) (schema : option BaseModelClass.t)
    : AgentOutputParser.t nat :=
  AgentOutputParser.mk output_type None schema true parse.

Definition search : Tool.t nat :=
  Tool.mk "search" (fun _ w => (w, Returns "3 results")).

Definition calculator : Tool.t nat :=
  Tool.mk "calculator" (fun _ w => (w, Returns "4")).

Definition system : ChatMessage.t := ChatMessage.mk SYSTEM "You are an agent.".

Definition question : dict PyVal := [("question", PStr "What is 6 * 7?")].

Definition schema : BaseModelClass.t :=
  BaseModelClass.mk "Answer" [("a", TypeObject "int"); ("b", TypeObject "str")]
    [("a", PDict [("type", PStr "integer")]); ("b", PDict [("type", PStr "string")])].

Definition agent (script : list string) (tools : option (dict (Tool.t nat)))
    (output_type : OutputType) (iterations : Z) : Agent.t nat :=
  Agent.mk (llm "gpt-4" 256 script) tools "Question: " ["question"]
    (parser output_type (Some schema)) (Chat.mk [system] [] [])
    CHAIN_OF_THOUGHT iterations.

Definition tools : option (dict (Tool.t nat)) :=
  Some [("search", search); ("calculator", calculator)].

Definition machine (script : list string) (tools : option (dict (Tool.t nat)))
    (output_type : OutputType) (iterations : Z) : Machine nat :=
  mkMachine (agent script tools output_type iterations) O [].

Definition invoke :=
  @invoke nat encode py_repr py_str str_format coerce create_model user_turn.
Definition loop_body := @loop_body nat encode py_repr py_str coerce user_turn.

(** The machine after the statements of [invoke] before the loop, after a
    trim, and after a pass of the loop. *)
Definition asked : string := "Question: What is 6 * 7?".
Definition started (m : Machine nat) : Machine nat :=
  fst (invoke_start str_format question m).
Definition trimmed (m : Machine nat) : Machine nat :=
  fst (_trim_conversation encode py_repr m).
Definition passed (m : Machine nat) : Machine nat := fst (loop_body asked m).
End Demo.

(** ** Construction *)

Section AgentCreate.
Variable W : Type.

(** The constants of [prompt.py] and [output_parser.py] that [create] reads.
    [FINAL_ANSWER_INSTRUCTIONS] is a dict keyed by output type: the template
    under a key, or the [KeyError] of a key that it does not hold. *)
Variable INSTRUCTIONS_WITHOUT_TOOLS : string.
Variable INSTRUCTIONS_WITH_TOOLS : string.
Variable FINAL_ANSWER_INSTRUCTIONS : OutputType -> outcome string.

(** [template.format] on these constants, with the keyword arguments that
    [create] passes. *)
Variable format_template : string -> dict PyVal -> string.

(** [str(tool)], [f"{output_type}"], [get_example_from_schema] and the
    constructor of [AgentOutputParser], which may raise. *)
Variable tool_str : Tool.t W -> string.
Variable output_type_str : OutputType -> string.
Variable get_example_from_schema : dict PyVal -> outcome PyVal.
Variable new_parser :
  OutputType -> option OutputSchema -> bool -> outcome (AgentOutputParser.t W).

(** [output_type in (OutputType.OBJECT, OutputType.ARRAY_OBJECT)] *)
Definition object_like (output_type : OutputType) : bool :=
  match output_type with
  | OBJECT | ARRAY_OBJECT => true
  | _ => false
  end.

Definition date_like (output_type : OutputType) : bool :=
  match output_type with
  | DATE | TIMESTAMP => true
  | _ => false
  end.

Definition schema_required (output_type : OutputType) : PyException :=
  mkException ValueError
    ("When using " ++ output_type_str output_type
       ++ " as the output type a schema must be provided.").

(** [output_schema] as a keyword argument of [format]. *)
Definition schema_value (output_schema : option OutputSchema) : PyVal :=
  match output_schema with
  | None => PNone
  | Some (SchemaStr s) => PStr s
  | Some (SchemaClass cls) => PClass (BaseModelClass.__name__ cls)
  end.

(** [FINAL_ANSWER_INSTRUCTIONS[output_type]] *)
Definition instructions_for (output_type : OutputType) : result string :=
  lift (FINAL_ANSWER_INSTRUCTIONS output_type).

Definition and_then {A B : Type} (r : result A) (k : A -> result B) : result B :=
  match r with
  | Ok a => k a
  | Raise e => Raise e
  | Diverge => Diverge
  end.

(** The second [if] of [create]: the final-answer instructions. *)
Definition final_answer_instructions (output_type : OutputType)
    (output_schema : option OutputSchema) : result string :=
  if object_like output_type then
    match output_schema with
    | None => Raise (schema_required output_type)
    | Some (SchemaStr _) =>
        Raise (mkException AttributeError
                 "'str' object has no attribute 'model_json_schema'")
    | Some (SchemaClass cls) =>
        let args := BaseModelClass.properties cls in
        and_then (instructions_for output_type) (fun template =>
        and_then (lift (get_example_from_schema args)) (fun example =>
        Ok (format_template template
              [("output_schema", PDict args); ("example", example)])))
    end
  else if date_like output_type then
    and_then (instructions_for output_type) (fun template =>
    Ok (format_template template [("output_schema", schema_value output_schema)]))
  else instructions_for output_type.

(** [Agent.create]; [iterations] and [prompting_strategy] have defaults in
    Python (10 and chain-of-thought) and are explicit here. *)
Definition create (llm : OpenAILanguageModel.t W) (system_prompt prompt : string)
    (prompt_variables : list string) (output_type : OutputType)
    (output_schema : option OutputSchema) (tools : option (list (Tool.t W)))
    (prompting_strategy : PromptingStrategy) (iterations : Z)
    : result (Agent.t W) :=
  let '(instructions, tool_use, tools) :=
    match tools with
    | None => (INSTRUCTIONS_WITHOUT_TOOLS, false, None)
    | Some tools =>
        (format_template INSTRUCTIONS_WITH_TOOLS
           [("tools", PStr (join (newline ++ newline) (map tool_str tools)))],
         true,
         Some (dict_comprehension (@Tool.name W) (fun tool => tool) tools))
    end in
  and_then (final_answer_instructions output_type output_schema)
    (fun final_answer_instructions =>
  let chat :=
    Chat.mk
      [ChatMessage.mk SYSTEM
         (join (newline ++ newline)
            [system_prompt; instructions; final_answer_instructions])]
      [] [] in
  and_then (lift (new_parser output_type output_schema tool_use))
    (fun output_parser =>
  Ok (Agent.mk llm tools prompt prompt_variables output_parser chat
        prompting_strategy iterations))).
End AgentCreate.

(** [Agent.create] on constants to run it with. *)
Definition demo_create (output_type : OutputType) (output_schema : option OutputSchema)
    (tools : option (list (Tool.t nat))) : result (Agent.t nat) :=
  create "You have no tools." "You have these tools: {tools}"
    (fun _ => Returns "Give the final answer as {output_schema}.")
    Demo.format_template
    (@Tool.name nat)
    (fun output_type =>
       match output_type with
       | OBJECT => "OutputType.OBJECT"
       | ARRAY_OBJECT => "OutputType.ARRAY_OBJECT"
       | _ => "OutputType"
       end)
    (fun _ => Returns PNone)
    (fun output_type output_schema tool_use =>
       Returns (AgentOutputParser.mk output_type output_schema None tool_use
                  Demo.parse))
    (Demo.llm "gpt-4" 256 []) "You are an agent." "Question: " ["question"]
    output_type output_schema tools CHAIN_OF_THOUGHT 10.

(** ** Notions for the further properties *)

(** The sum of a list of integers. *)
Definition total (zs : list Z) : Z := fold_right Z.add 0 zs.

(** What one item of a dumped message adds to the count: the tokens of its
    value, one less under the key "name". *)
Definition item_tokens (encode : string -> outcome (list Z))
    (item : string * string) : Z :=
  tokens_of encode (snd item)
  + (if String.eqb (fst item) "name" then -1 else 0).

(** What one message adds to the count: 4, and the tokens of its role and of
    its content. *)
Definition message_tokens (encode : string -> outcome (list Z))
    (message : ChatMessage.t) : Z :=
  4 + tokens_of encode (role_value (ChatMessage.role message))
    + tokens_of encode (ChatMessage.content message).

(** The exception of the first of [values] that the encoder refuses. *)
Fixpoint first_refusal (encode : string -> outcome (list Z)) (values : list string)
    : option PyException :=
  match values with
  | [] => None
  | value :: rest =>
      match encode value with
      | Raises e => Some e
      | Returns _ => first_refusal encode rest
      end
  end.

(** The values of a dumped message, in the order of its items. *)
Definition dumped_values (message : ChatMessage.t) : list string :=
  map snd (ChatMessage.model_dump message).

(** The encoder accepts the role and the content of every message. *)
Definition encodable (encode : string -> outcome (list Z))
    (messages : list ChatMessage.t) : bool :=
  forallb (fun message =>
             accepted encode (role_value (ChatMessage.role message))
             && accepted encode (ChatMessage.content message)) messages.

(** A model-completion call made on a log that is under the token limit of
    [model] with [max_tokens] output tokens; the other calls are left alone. *)
Definition sent_within_budget (encode : string -> outcome (list Z)) (model : string)
    (max_tokens : Z) (ev : Event) : Prop :=
  match ev with
  | CompletionCall messages _ =>
      over_budget encode model max_tokens messages = Some false
  | _ => True
  end.

(** The annotation has a union with [None]. *)
Definition typed (annotation : Annotation) : bool :=
  match annotation with
  | TypeObject _ => true
  | StringAnnotation _ => false
  end.

Definition is_parse (ev : Event) : bool :=
  match ev with ParseCall _ _ => true | _ => false end.

(** The number of parser calls in a log of events. *)
Definition parse_calls (evs : list Event) : nat :=
  List.length (filter is_parse evs).

(** Agents for the edges: a model that is not in the table of limits, a model
    whose call fails, a tool that fails. *)
Module Edge.
Definition unknown_model : Machine nat :=
  mkMachine
    (Agent.mk (Demo.llm "gpt-5" 256 []) Demo.tools "Question: " ["question"]
       (Demo.parser (PLAIN "string") None) (Chat.mk [Demo.system] [] [])
       CHAIN_OF_THOUGHT 10)
    O [].

(** The template names a variable that is not among the declared ones. *)
Definition undeclared : Machine nat :=
  mkMachine
    (Agent.mk (Demo.llm "gpt-4" 256 []) Demo.tools "Question: " []
       (Demo.parser (PLAIN "string") None) (Chat.mk [Demo.system] [] [])
       CHAIN_OF_THOUGHT 10)
    O [].

Definition timeout : PyException :=
  mkException (OtherException "APITimeoutError") "Request timed out.".

Definition failing_llm : OpenAILanguageModel.t nat :=
  OpenAILanguageModel.mk "gpt-4" 256 (fun _ w => (S w, Raises timeout)).

Definition offline : Machine nat :=
  mkMachine
    (Agent.mk failing_llm Demo.tools "Question: " ["question"]
       (Demo.parser (PLAIN "string") None) (Chat.mk [Demo.system] [] [])
       CHAIN_OF_THOUGHT 10)
    O [].

Definition bad_input : PyException :=
  mkException ValueError "invalid literal for int()".

Definition broken_search : Tool.t nat :=
  Tool.mk "search" (fun _ w => (w, Raises bad_input)).

(** A second tool under the name of [Demo.search]. *)
Definition second_search : Tool.t nat :=
  Tool.mk "search" (fun _ w => (w, Returns "7 results")).

Definition broken_tools : Machine nat :=
  Demo.machine ["Tool: search"] (Some [("search", broken_search)])
    (PLAIN "string") 10.

(** A model class of a module under [from __future__ import annotations]:
    its annotations are kept as strings. *)
Definition postponed : BaseModelClass.t :=
  BaseModelClass.mk "Answer"
    [("a", StringAnnotation "int"); ("b", StringAnnotation "str")]
    [("a", PDict [("type", PStr "integer")]); ("b", PDict [("type", PStr "string")])].

(** An agent that answers with an instance of the model class [cls], and
    whose model is never parsable. *)
Definition object_machine (cls : BaseModelClass.t) (iterations : Z) : Machine nat :=
  mkMachine
    (Agent.mk (Demo.llm "gpt-4" 256 ["garbage"]) Demo.tools "Question: " ["question"]
       (AgentOutputParser.mk OBJECT (Some (SchemaClass cls)) None true Demo.parse)
       (Chat.mk [Demo.system] [] []) CHAIN_OF_THOUGHT iterations)
    O [].
End Edge.

Example demo_final_answer :
  snd (Demo.invoke Demo.question (Demo.machine [] Demo.tools (PLAIN "string") 10))
  = Ok (AgentOutput.mk "Question: What is 6 * 7?" (PStr "42")
          [ReasoningStep.mk PROMPT (Text "Question: What is 6 * 7?");
           ReasoningStep.mk THOUGHT (Text "I know the answer");
           ReasoningStep.mk FINAL_ANSWER (Text "42")]).
Proof. vm_compute. reflexivity. Qed.

(** ** Trimming: termination, budget and the system message *)

Section TrimFacts.
Variable encode : string -> outcome (list Z).
Variable py_repr : string -> string.

Lemma list_del_second : forall (A : Type) (x y : A) (rest : list A),
  list_del 1 (x :: y :: rest) = Some (x :: rest).
Proof. reflexivity. Qed.

Lemma list_del_length : forall (A : Type) (i : nat) (l l' : list A),
  list_del i l = Some l' -> List.length l = S (List.length l').
Proof.
  intros A i; induction i as [|i IH]; intros [|x l] l' H; simpl in H;
    try discriminate.
  - injection H as <-. reflexivity.
  - destruct (list_del i l) as [l0|] eqn:E; [|discriminate].
    injection H as <-. simpl. f_equal. now apply IH.
Qed.

Lemma del_second_head : forall k system rest messages,
  del_second k (system :: rest) = Some messages ->
  messages = system :: skipn k rest.
Proof.
  induction k as [|k IH]; intros system rest messages H; simpl in H.
  - injection H as <-. reflexivity.
  - destruct rest as [|y rest]; [discriminate|]. simpl. now apply IH.
Qed.

Lemma del_second_add : forall j k messages messages' messages'',
  del_second j messages = Some messages' ->
  del_second k messages' = Some messages'' ->
  del_second (j + k) messages = Some messages''.
Proof.
  induction j as [|j IH]; intros k messages messages' messages'' H1 H2.
  - injection H1 as <-. exact H2.
  - cbn [Nat.add del_second] in *.
    destruct (list_del 1 messages) as [l|]; [|discriminate]. eauto.
Qed.

(** The count of a log: defined exactly when the encoder accepts every role
    and content, and then 2 more than what the messages add. *)
Lemma tokens_of_nonneg : forall value, 0 <= tokens_of encode value.
Proof. intros. unfold tokens_of. destruct (encode value); lia. Qed.

Lemma message_tokens_lower : forall message, 4 <= message_tokens encode message.
Proof.
  intros. unfold message_tokens.
  pose proof (tokens_of_nonneg (role_value (ChatMessage.role message))).
  pose proof (tokens_of_nonneg (ChatMessage.content message)). lia.
Qed.

Lemma count_items_ends : forall items n, count_items encode items n <> Diverge.
Proof.
  induction items as [|[key value] items IH]; intros n; cbn [count_items].
  - discriminate.
  - destruct (encode value); [apply IH | discriminate].
Qed.

Lemma count_items_dump : forall message n,
  accepted encode (role_value (ChatMessage.role message))
  && accepted encode (ChatMessage.content message) = true ->
  count_items encode (ChatMessage.model_dump message) n
  = Ok (n + tokens_of encode (role_value (ChatMessage.role message))
          + tokens_of encode (ChatMessage.content message)).
Proof.
  intros message n H. unfold ChatMessage.model_dump, accepted, tokens_of in *.
  cbn [count_items].
  destruct (encode (role_value (ChatMessage.role message))); [|discriminate].
  destruct (encode (ChatMessage.content message)); [|discriminate].
  reflexivity.
Qed.

Lemma count_items_dump_inv : forall message n r,
  count_items encode (ChatMessage.model_dump message) n = Ok r ->
  accepted encode (role_value (ChatMessage.role message))
  && accepted encode (ChatMessage.content message) = true.
Proof.
  intros message n r H. unfold ChatMessage.model_dump, accepted in *.
  cbn [count_items] in H.
  destruct (encode (role_value (ChatMessage.role message))); [|discriminate].
  destruct (encode (ChatMessage.content message)); [|discriminate].
  reflexivity.
Qed.

Lemma count_messages_ends : forall messages n,
  count_messages encode messages n <> Diverge.
Proof.
  induction messages as [|message messages IH]; intros n; cbn [count_messages].
  - discriminate.
  - destruct (count_items encode (ChatMessage.model_dump message) (n + 4))
      as [r|e|] eqn:E; [apply IH | discriminate |].
    now apply count_items_ends in E.
Qed.

Lemma count_messages_ok : forall messages n,
  encodable encode messages = true ->
  count_messages encode messages n
  = Ok (n + total (map (message_tokens encode) messages)).
Proof.
  induction messages as [|message messages IH]; intros n H;
    cbn [count_messages map total fold_right].
  - f_equal. lia.
  - cbn [encodable forallb] in H. apply andb_prop in H as [Hm Hrest].
    rewrite (count_items_dump _ _ Hm). rewrite (IH _ Hrest).
    f_equal. unfold message_tokens, total. lia.
Qed.

Lemma count_messages_inv : forall messages n r,
  count_messages encode messages n = Ok r -> encodable encode messages = true.
Proof.
  induction messages as [|message messages IH]; intros n r H;
    cbn [count_messages] in H; [reflexivity|].
  destruct (count_items encode (ChatMessage.model_dump message) (n + 4))
    as [r'|e|] eqn:E; try discriminate.
  cbn [encodable forallb]. rewrite (count_items_dump_inv _ _ E).
  exact (IH _ _ H).
Qed.

Lemma num_tokens_ends : forall messages,
  num_tokens_from_messages encode messages <> Diverge.
Proof.
  intros messages. unfold num_tokens_from_messages.
  destruct (count_messages encode messages 0) as [r|e|] eqn:E;
    try discriminate. now apply count_messages_ends in E.
Qed.

Lemma num_tokens_ok : forall messages,
  encodable encode messages = true ->
  num_tokens_from_messages encode messages
  = Ok (total (map (message_tokens encode) messages) + 2).
Proof.
  intros messages H. unfold num_tokens_from_messages.
  now rewrite (count_messages_ok _ 0 H).
Qed.

Lemma num_tokens_inv : forall messages r,
  num_tokens_from_messages encode messages = Ok r ->
  encodable encode messages = true /\
  r = total (map (message_tokens encode) messages) + 2.
Proof.
  intros messages r H.
  assert (He : encodable encode messages = true).
  { unfold num_tokens_from_messages in H.
    destruct (count_messages encode messages 0) as [r'|e|] eqn:E;
      try discriminate. exact (count_messages_inv _ _ E). }
  split; [exact He|]. rewrite (num_tokens_ok _ He) in H. now injection H.
Qed.

Lemma encodable_del : forall messages messages',
  list_del 1 messages = Some messages' ->
  encodable encode messages = true -> encodable encode messages' = true.
Proof.
  intros [|x [|y rest]] messages' Hdel H; try discriminate.
  rewrite list_del_second in Hdel. injection Hdel as <-.
  cbn [encodable forallb] in *.
  apply andb_prop in H as [Hx H]. apply andb_prop in H as [_ H].
  now rewrite Hx.
Qed.

Lemma total_nonneg : forall messages,
  0 <= total (map (message_tokens encode) messages).
Proof.
  induction messages as [|message messages IH]; cbn [map total fold_right].
  - lia.
  - pose proof (message_tokens_lower message). unfold total in IH. lia.
Qed.

(** What a run of the loop of [_trim_conversation] does: some deletions at
    index 1, never an exhausted fuel, and a normal end only under the
    limit. *)
Lemma trim_loop_run : forall fuel model max_tokens messages num_tokens,
  (List.length messages < fuel)%nat ->
  num_tokens_from_messages encode messages = Ok num_tokens ->
  exists k,
    del_second k messages
    = Some (fst (trim_loop encode py_repr fuel model max_tokens messages num_tokens)) /\
    snd (trim_loop encode py_repr fuel model max_tokens messages num_tokens) <> Diverge /\
    (snd (trim_loop encode py_repr fuel model max_tokens messages num_tokens) = Ok tt ->
     over_budget encode model max_tokens
       (fst (trim_loop encode py_repr fuel model max_tokens messages num_tokens))
     = Some false).
Proof.
  induction fuel as [|fuel IH]; intros model max_tokens messages n Hlen Hn; [lia|].
  cbn [trim_loop].
  destruct (dict_get model _MODEL_TOKEN_LIMIT) as [limit|] eqn:Hlimit.
  - destruct (n + max_tokens >=? limit) eqn:Hover.
    + destruct (list_del 1 messages) as [messages'|] eqn:Hdel.
      * pose proof (list_del_length _ _ Hdel) as Hl.
        destruct (num_tokens_from_messages encode messages') as [n'|e|] eqn:Hn'.
        -- destruct (IH model max_tokens messages' n') as (k & Hk & Hd & Hok);
             [lia | exact Hn' |].
           exists (S k). split; [|split]; auto.
           cbn [del_second]. rewrite Hdel. exact Hk.
        -- exists 1%nat. cbn [del_second fst snd]. rewrite Hdel.
           repeat split; discriminate.
        -- now apply num_tokens_ends in Hn'.
      * exists O. simpl. repeat split; discriminate.
    + exists O. cbn [del_second fst snd]. repeat split; [discriminate|].
      intros _. unfold over_budget. now rewrite Hn, Hlimit, Hover.
  - exists O. simpl. repeat split; discriminate.
Qed.

Lemma trim_run : forall model max_tokens messages,
  exists k,
    del_second k messages = Some (fst (trim encode py_repr model max_tokens messages)) /\
    snd (trim encode py_repr model max_tokens messages) <> Diverge /\
    (snd (trim encode py_repr model max_tokens messages) = Ok tt ->
     over_budget encode model max_tokens
       (fst (trim encode py_repr model max_tokens messages)) = Some false).
Proof.
  intros. unfold trim.
  destruct (num_tokens_from_messages encode messages) as [n|e|] eqn:Hn.
  - apply trim_loop_run; [lia | exact Hn].
  - exists O. simpl. repeat split; discriminate.
  - now apply num_tokens_ends in Hn.
Qed.

(** Token counts only grow with the log. *)
Lemma over_budget_head : forall model max_tokens system rest,
  encodable encode (system :: rest) = true ->
  over_budget encode model max_tokens [system] = Some true ->
  over_budget encode model max_tokens (system :: rest) = Some true.
Proof.
  unfold over_budget. intros model max_tokens system rest He H.
  rewrite (num_tokens_ok _ He).
  destruct (num_tokens_from_messages encode [system]) as [n|e|] eqn:Hn;
    try discriminate.
  apply num_tokens_inv in Hn as [_ ->].
  destruct (dict_get model _MODEL_TOKEN_LIMIT) as [limit|]; [|discriminate].
  injection H as H. f_equal. rewrite Z.geb_leb in *. apply Z.leb_le in H.
  apply Z.leb_le. cbn [map total fold_right] in *.
  pose proof (total_nonneg rest). unfold total in *. lia.
Qed.

Lemma trim_loop_oversized : forall rest fuel model max_tokens system num_tokens,
  (List.length rest < fuel)%nat ->
  num_tokens_from_messages encode (system :: rest) = Ok num_tokens ->
  over_budget encode model max_tokens [system] = Some true ->
  trim_loop encode py_repr fuel model max_tokens (system :: rest) num_tokens
  = ([system], Raise del_index_error).
Proof.
  induction rest as [|y rest IH]; intros fuel model max_tokens system n Hlen Hn Hover;
    (destruct fuel as [|fuel]; [simpl in Hlen; lia|]); cbn [trim_loop].
  - unfold over_budget in Hover. rewrite Hn in Hover.
    destruct (dict_get model _MODEL_TOKEN_LIMIT) as [limit|]; [|discriminate].
    injection Hover as ->. reflexivity.
  - pose proof (proj1 (num_tokens_inv _ Hn)) as He.
    pose proof (over_budget_head _ _ _ _ He Hover) as Hfull.
    unfold over_budget in Hfull. rewrite Hn in Hfull.
    destruct (dict_get model _MODEL_TOKEN_LIMIT) as [limit|]; [|discriminate].
    injection Hfull as ->. rewrite list_del_second.
    assert (He' : encodable encode (system :: rest) = true)
      by (eapply encodable_del; [apply list_del_second | exact He]).
    rewrite (num_tokens_ok _ He').
    apply IH; [simpl in Hlen; lia | now apply num_tokens_ok | exact Hover].
Qed.

Lemma trim_oversized : forall model max_tokens system rest,
  encodable encode (system :: rest) = true ->
  over_budget encode model max_tokens [system] = Some true ->
  trim encode py_repr model max_tokens (system :: rest)
  = ([system], Raise del_index_error).
Proof.
  intros model max_tokens system rest He Hover. unfold trim.
  rewrite (num_tokens_ok _ He).
  apply trim_loop_oversized; [simpl; lia | now apply num_tokens_ok | exact Hover].
Qed.

Lemma trim_ok_encodable : forall model max_tokens messages messages',
  trim encode py_repr model max_tokens messages = (messages', Ok tt) ->
  encodable encode messages = true.
Proof.
  intros model max_tokens messages messages' H. unfold trim in H.
  destruct (num_tokens_from_messages encode messages) as [n|e|] eqn:Hn;
    try discriminate.
  exact (proj1 (num_tokens_inv _ Hn)).
Qed.
End TrimFacts.

(** C2, as the spec states it, fails: with the system message alone over the
    limit, the log is trimmed down to it and the next [del messages[1]]
    raises [IndexError]; [_trim_conversation] does not return. *)
Lemma trim_fails_on_oversized_system_message :
  over_budget Demo.encode "gpt-35-turbo" 4090 [Demo.system] = Some true /\
  trim Demo.encode Demo.py_repr "gpt-35-turbo" 4090
    [Demo.system; ChatMessage.mk USER "hi"]
  = ([Demo.system], Raise del_index_error).
Proof. split; vm_compute; reflexivity. Qed.

(** C2 (amended): when [_trim_conversation] returns, the estimated tokens plus
    the maximum output tokens are under the model's limit, and the log is the
    system message followed by a suffix of the other messages; so it never
    returns with the system message alone still over the limit. *)
Theorem trim_returns_within_budget :
  forall encode py_repr model max_tokens system rest messages',
    trim encode py_repr model max_tokens (system :: rest) = (messages', Ok tt) ->
    (exists limit num_tokens,
        dict_get model _MODEL_TOKEN_LIMIT = Some limit /\
        num_tokens_from_messages encode messages' = Ok num_tokens /\
        num_tokens + max_tokens < limit) /\
    (exists k, messages' = system :: skipn k rest) /\
    over_budget encode model max_tokens [system] = Some false.
Proof.
  intros encode py_repr model max_tokens system rest messages' H.
  destruct (trim_run encode py_repr model max_tokens (system :: rest))
    as (k & Hk & _ & Hok).
  rewrite H in Hk, Hok. cbn [fst snd] in Hk, Hok.
  specialize (Hok eq_refl).
  pose proof (trim_ok_encodable _ _ _ _ _ H) as He.
  assert (Hlimit : exists limit num_tokens,
             dict_get model _MODEL_TOKEN_LIMIT = Some limit /\
             num_tokens_from_messages encode messages' = Ok num_tokens /\
             num_tokens + max_tokens < limit).
  { unfold over_budget in Hok.
    destruct (num_tokens_from_messages encode messages') as [n|e|]; try discriminate.
    destruct (dict_get model _MODEL_TOKEN_LIMIT) as [limit|]; [|discriminate].
    exists limit, n. split; [reflexivity|]. split; [reflexivity|].
    injection Hok as Hok.
    rewrite Z.geb_leb in Hok. apply Z.leb_gt in Hok. exact Hok. }
  split; [exact Hlimit|]. split.
  - exists k. now apply del_second_head.
  - destruct Hlimit as (limit & _ & Hl & _).
    assert (He1 : encodable encode [system] = true).
    { cbn [encodable forallb] in *. apply andb_prop in He as [-> _]. reflexivity. }
    destruct (over_budget encode model max_tokens [system]) as [[|]|] eqn:Hover.
    + rewrite (trim_oversized _ py_repr _ _ _ _ He Hover) in H. discriminate.
    + reflexivity.
    + unfold over_budget in Hover.
      rewrite (num_tokens_ok _ _ He1), Hl in Hover. discriminate.
Qed.

Lemma trim_returns_within_budget_witness :
  (exists limit num_tokens,
      dict_get "gpt-4" _MODEL_TOKEN_LIMIT = Some limit /\
      num_tokens_from_messages Demo.encode
        [Demo.system; ChatMessage.mk USER "hi"] = Ok num_tokens /\
      num_tokens + 256 < limit) /\
  (exists k, [Demo.system; ChatMessage.mk USER "hi"]
             = Demo.system :: skipn k [ChatMessage.mk USER "hi"]) /\
  over_budget Demo.encode "gpt-4" 256 [Demo.system] = Some false.
Proof.
  apply (@trim_returns_within_budget Demo.encode Demo.py_repr "gpt-4" 256
           Demo.system [ChatMessage.mk USER "hi"]).
  vm_compute. reflexivity.
Defined.

(** C3: a log that has the system message at index 0 still has it there after
    any number of trims, and what the trims remove is each time the message
    at index 1. *)
Theorem trim_keeps_system_message :
  forall encode py_repr model max_tokens n system messages,
    nth_error messages 0 = Some system ->
    nth_error (trims encode py_repr model max_tokens n messages) 0 = Some system /\
    exists k,
      del_second k messages = Some (trims encode py_repr model max_tokens n messages).
Proof.
  intros encode py_repr model max_tokens n system messages Hhead.
  assert (Hdel : exists k,
             del_second k messages
             = Some (trims encode py_repr model max_tokens n messages)).
  { induction n as [|n IH].
    - exists O. reflexivity.
    - destruct IH as (j & Hj).
      destruct (trim_run encode py_repr model max_tokens
                  (trims encode py_repr model max_tokens n messages)) as (k & Hk & _).
      exists (j + k)%nat. unfold trims in *. cbn [Nat.iter].
      eapply del_second_add; eassumption. }
  split; [|exact Hdel].
  destruct Hdel as (k & Hk). destruct messages as [|first rest]; [discriminate|].
  simpl in Hhead. injection Hhead as ->.
  apply del_second_head in Hk. rewrite Hk. reflexivity.
Qed.

Lemma trim_keeps_system_message_witness :
  nth_error
    (trims Demo.encode Demo.py_repr "gpt-35-turbo" 4050 3
       [Demo.system; ChatMessage.mk USER "first question";
        ChatMessage.mk ASSISTANT "first answer"]) 0 = Some Demo.system /\
  exists k,
    del_second k
      [Demo.system; ChatMessage.mk USER "first question";
       ChatMessage.mk ASSISTANT "first answer"]
    = Some (trims Demo.encode Demo.py_repr "gpt-35-turbo" 4050 3
              [Demo.system; ChatMessage.mk USER "first question";
               ChatMessage.mk ASSISTANT "first answer"]).
Proof.
  apply (@trim_keeps_system_message Demo.encode Demo.py_repr "gpt-35-turbo" 4050 3
           Demo.system).
  reflexivity.
Defined.

(** ** The loop: what every pass preserves *)

Lemma log_evolves_trans : forall l1 l2 l3,
  log_evolves l1 l2 -> log_evolves l2 l3 -> log_evolves l1 l3.
Proof.
  intros l1 l2 l3 H; induction H; intros H'; [assumption|].
  eapply log_then; eauto.
Qed.

Lemma log_evolves_append : forall l message, log_evolves l (l ++ [message]).
Proof. intros. eapply log_then; [apply log_append | apply log_same]. Qed.

Lemma del_second_evolves : forall k l l',
  del_second k l = Some l' -> log_evolves l l'.
Proof.
  induction k as [|k IH]; intros l l' H; cbn [del_second] in H.
  - injection H as <-. apply log_same.
  - destruct (list_del 1 l) as [l1|] eqn:E; [|discriminate].
    eapply log_then; [apply log_trim; exact E | now apply IH].
Qed.

Lemma completion_calls_app : forall evs evs',
  completion_calls (evs ++ evs') = (completion_calls evs + completion_calls evs')%nat.
Proof. intros. unfold completion_calls. now rewrite filter_app, length_app. Qed.

Section LoopFacts.
Variable W : Type.
Variable encode : string -> outcome (list Z).
Variable py_repr : string -> string.
Variable py_str : PyVal -> string.
Variable str_format : string -> dict PyVal -> outcome string.
Variable coerce : PyVal -> outcome PyVal.
Variable create_model : string -> list string -> outcome unit.
Variable user_turn : string -> list string -> string.

Lemma extends_refl : forall m : Machine W, extends m m.
Proof.
  intros m. repeat split; [exists []; now rewrite app_nil_r | apply log_same].
Qed.

Lemma extends_same_self : forall m m' : Machine W,
  self m' = self m -> extends m m'.
Proof.
  intros m m' H. unfold extends, chat_of. rewrite H.
  repeat split; [exists []; now rewrite app_nil_r | apply log_same].
Qed.

Lemma extends_trans : forall m1 m2 m3 : Machine W,
  extends m1 m2 -> extends m2 m3 -> extends m1 m3.
Proof.
  intros m1 m2 m3 (Hc & (a & Ha) & Hl) (Hc' & (a' & Ha') & Hl').
  repeat split.
  - congruence.
  - exists (a ++ a')%list. rewrite Ha', Ha. now rewrite app_assoc.
  - eapply log_evolves_trans; eassumption.
Qed.

Lemma extends_iterations : forall m m' : Machine W,
  extends m m' -> Agent.iterations (self m') = Agent.iterations (self m).
Proof. intros m m' (Hc & _). exact (f_equal (@Agent.iterations W) Hc). Qed.

Lemma extends_parser : forall m m' : Machine W,
  extends m m' -> Agent.output_parser (self m') = Agent.output_parser (self m).
Proof. intros m m' (Hc & _). exact (f_equal (@Agent.output_parser W) Hc). Qed.

Lemma within_ret : forall (A : Type) (a : A), within 0 (@ret W A a).
Proof.
  intros A a m. cbn. split; [discriminate|]. split; [apply extends_refl | lia].
Qed.

Lemma within_weaken : forall (A : Type) (n n' : nat) (c : M W A),
  within n c -> (n <= n')%nat -> within n' c.
Proof.
  intros A n n' c H Hle m. destruct (H m) as (H1 & H2 & H3).
  repeat split; auto; try apply H2. lia.
Qed.

Lemma within_bind : forall (A B : Type) (n k : nat) (c : M W A) (f : A -> M W B),
  within n c -> (forall a, within k (f a)) -> within (n + k) (bind c f).
Proof.
  intros A B n k c f Hc Hf m. unfold bind.
  destruct (Hc m) as (H1 & H2 & H3).
  destruct (c m) as [m1 [a|e|]]; cbn [fst snd] in *.
  - destruct (Hf a m1) as (G1 & G2 & G3).
    split; [assumption|]. split; [eapply extends_trans; eassumption | lia].
  - split; [discriminate|]. split; [assumption | lia].
  - congruence.
Qed.

Lemma within_get_self : within 0 (@get_self W).
Proof.
  intros m. cbn. split; [discriminate|]. split; [apply extends_refl | lia].
Qed.

Lemma within_get_chat : within 0 (@get_chat W).
Proof.
  intros m. cbn. split; [discriminate|]. split; [apply extends_refl | lia].
Qed.

Lemma within_append_message : forall msg, within 0 (@append_message W msg).
Proof.
  intros msg m. cbn. split; [discriminate|]. split; [|unfold completion_calls; cbn; lia].
  repeat split; [exists []; now rewrite app_nil_r | apply log_evolves_append].
Qed.

Lemma within_append_chain_of_thought : forall step,
  within 0 (@append_chain_of_thought W step).
Proof.
  intros step m. cbn. split; [discriminate|]. split; [|unfold completion_calls; cbn; lia].
  repeat split; [now exists [step] | apply log_same].
Qed.

Lemma within_append_step : forall s, within 0 (@append_step W s).
Proof.
  intros s m. cbn. split; [discriminate|]. split; [|unfold completion_calls; cbn; lia].
  repeat split; [exists []; now rewrite app_nil_r | apply log_same].
Qed.

Lemma within_call : forall (A : Type) (ev : outcome A -> Event)
    (f : W -> W * outcome A) (b : bool),
  (forall o, is_completion (ev o) = b) ->
  within (if b then 1 else 0) (call ev f).
Proof.
  intros A ev f b Hev m. unfold call. destruct (f (world m)) as [w o].
  cbn [fst snd].
  split; [destruct o; discriminate|].
  split; [now apply extends_same_self|].
  cbn [events]. rewrite completion_calls_app.
  assert (completion_calls [ev o] = if b then 1 else 0)%nat as ->
    by (unfold completion_calls; cbn; rewrite Hev; now destruct b).
  lia.
Qed.

Lemma within_trim : within 0 (@_trim_conversation W encode py_repr).
Proof.
  intros m. unfold _trim_conversation.
  destruct (trim_run encode py_repr
              (OpenAILanguageModel.model (Agent.llm (self m)))
              (OpenAILanguageModel.max_tokens (Agent.llm (self m)))
              (Chat.messages (Agent.chat (self m)))) as (k & Hk & Hd & _).
  destruct (trim encode py_repr _ _ _) as [messages r]. cbn [fst snd] in *.
  split; [assumption|]. split; [|cbn [events]; lia].
  repeat split; [exists []; now rewrite app_nil_r|].
  cbn. eapply del_second_evolves; eassumption.
Qed.

Lemma within_parse_output : forall output, within 0 (@_parse_output W output).
Proof.
  intros output m. unfold _parse_output.
  pose proof (@within_call _ (ParseCall output)
                (AgentOutputParser.parse (Agent.output_parser (self m)) output)
                false (fun _ => eq_refl) m)
    as (H1 & H2 & H3).
  destruct (call _ _ m) as [m' [o|e|]]; cbn [fst snd is_completion] in *.
  - repeat split; try apply H2; [discriminate | lia].
  - destruct (caught e); cbn [fst snd];
      (repeat split; try apply H2; [discriminate | lia]).
  - congruence.
Qed.

Lemma within_chat_update : forall prompt, within 0 (@chat_update W user_turn prompt).
Proof.
  intros prompt. unfold chat_update.
  apply (within_bind (n := 0) (k := 0)); [apply within_get_chat|].
  intros c. apply within_append_message.
Qed.

Lemma within_end_of_turn : forall prompt observation,
  within 0 (@end_of_turn W user_turn prompt observation).
Proof.
  intros. unfold end_of_turn.
  apply (within_bind (n := 0) (k := 0)); [apply within_append_step|]. intros _.
  apply (within_bind (n := 0) (k := 0)); [apply within_chat_update|]. intros _.
  apply within_ret.
Qed.

Lemma within_dispatch : forall tool tool_input observation,
  within 0 (@dispatch W py_str tool tool_input observation).
Proof.
  intros. unfold dispatch.
  apply (within_bind (n := 0) (k := 0)); [apply within_get_self|]. intros self.
  destruct (Agent.tools self) as [tools|]; [|apply within_ret].
  destruct (dict_get tool tools) as [the_tool|]; [|apply within_ret].
  apply (within_bind (n := 0) (k := 0));
    [now apply (@within_call _ (ToolCall tool tool_input) _ false)|].
  intros tool_response.
  apply (within_bind (n := 0) (k := 0)); [apply within_append_step|]. intros _.
  apply (within_bind (n := 0) (k := 0)); [apply within_append_step|]. intros _.
  apply (within_bind (n := 0) (k := 0));
    [apply within_append_chain_of_thought|]. intros _.
  apply within_ret.
Qed.

Lemma within_new_agent_output : forall prompt final_answer chain_of_thought,
  within 0 (@new_agent_output W coerce prompt final_answer chain_of_thought).
Proof.
  intros prompt final_answer chain_of_thought m. unfold new_agent_output.
  cbn [fst snd].
  split; [destruct (validate_final_answer coerce final_answer); discriminate|].
  split; [apply extends_refl | lia].
Qed.

Lemma within_act : forall prompt output observation,
  within 0 (@act W py_str coerce user_turn prompt output observation).
Proof.
  intros prompt [output|] observation; unfold act; [|apply within_end_of_turn].
  apply (within_bind (n := 0) (k := 0)); [apply within_append_step|]. intros _.
  apply (within_bind (n := 0) (k := 0));
    [apply within_append_chain_of_thought|]. intros _.
  destruct output as [th tool tool_input | th final_answer].
  - apply (within_bind (n := 0) (k := 0)); [apply within_dispatch|]. intros obs.
    apply within_end_of_turn.
  - apply (within_bind (n := 0) (k := 0));
      [apply within_append_chain_of_thought|]. intros _.
    apply (within_bind (n := 0) (k := 0)); [apply within_append_message|]. intros _.
    apply (within_bind (n := 0) (k := 0)); [apply within_get_chat|]. intros c.
    apply (within_bind (n := 0) (k := 0)); [apply within_new_agent_output|].
    intros output. apply within_ret.
Qed.

Lemma within_get_completion : within 1 (@get_completion W).
Proof.
  unfold get_completion.
  apply (within_bind (n := 0) (k := 1)); [apply within_get_self|]. intros self.
  now apply (@within_call _ (CompletionCall (Chat.messages (Agent.chat self)))
               _ true).
Qed.

(** A pass of the loop ends, keeps the configuration, continues the chain
    of thought and the log, and calls the model at most once. *)
Lemma within_loop_body : forall prompt,
  within 1 (@loop_body W encode py_repr py_str coerce user_turn prompt).
Proof.
  intros prompt. unfold loop_body.
  apply (within_bind (n := 0) (k := 1)); [apply within_trim|]. intros _.
  apply (within_bind (n := 1) (k := 0)); [apply within_get_completion|].
  intros output.
  apply (within_bind (n := 0) (k := 0)); [apply within_parse_output|].
  intros [parsed observation]. apply within_act.
Qed.
End LoopFacts.

(** ** The loop: pass by pass *)

Ltac run_agent :=
  unfold act, end_of_turn, dispatch, chat_update, append_step,
    append_chain_of_thought, append_message, get_completion, get_chat, put_chat,
    get_self, bind, ret, call;
  cbn [fst snd self world events lift Agent.chat Agent.set_chat Agent.tools
       Agent.llm Agent.output_parser Agent.iterations Agent.prompt
       Agent.prompt_variables Chat.messages Chat.chain_of_thought Chat.steps
       Chat.set_messages Chat.set_chain_of_thought Chat.set_steps thought].

Section Passes.
Variable W : Type.
Variable encode : string -> outcome (list Z).
Variable py_repr : string -> string.
Variable py_str : PyVal -> string.
Variable str_format : string -> dict PyVal -> outcome string.
Variable coerce : PyVal -> outcome PyVal.
Variable create_model : string -> list string -> outcome unit.
Variable user_turn : string -> list string -> string.


(** The pass up to the parse, when the trim returns and the model answers. *)
Lemma loop_body_parsed : forall prompt (m m1 : Machine W) w2 output w3 parsed,
  _trim_conversation encode py_repr m = (m1, Ok tt) ->
  OpenAILanguageModel.get_completion (Agent.llm (self m1))
    (Chat.messages (chat_of m1)) (world m1) = (w2, Returns output) ->
  AgentOutputParser.parse (Agent.output_parser (self m1)) output w2 = (w3, parsed) ->
  loop_body encode py_repr py_str coerce user_turn prompt m
  = match parsed with
    | Returns parsed_output =>
        act
            py_str coerce user_turn prompt (Some parsed_output) ObsNone (parsed_machine m1
            output w3 parsed)
    | Raises error =>
        if caught error
        then act
            py_str coerce user_turn prompt None (ObsError error) (parsed_machine m1 output w3
            parsed)
        else (parsed_machine m1 output w3 parsed, Raise error)
    end.
Proof.
  intros prompt m m1 w2 output w3 parsed Htrim Hllm Hparse.
  unfold loop_body. unfold bind at 1. rewrite Htrim.
  unfold bind at 1. unfold get_completion, bind, get_self, call.
  unfold chat_of in Hllm. rewrite Hllm. cbn [lift fst snd self world events].
  unfold _parse_output, call. cbn [self world events]. rewrite Hparse.
  unfold parsed_machine, chat_of. rewrite <- app_assoc. cbn [app].
  destruct parsed as [parsed_output|error]; cbn [lift]; [reflexivity|].
  destruct (caught error); reflexivity.
Qed.

(** What the rest of the pass does for a final answer. *)
Lemma act_final_answer : forall prompt th final_answer observation (m : Machine W),
  act py_str coerce user_turn prompt (Some (LLMFinalAnswer th final_answer)) observation m
  = (mkMachine
       (Agent.set_chat (self m)
          (Chat.mk
             (Chat.messages (chat_of m)
                ++ [ChatMessage.mk ASSISTANT (py_str final_answer)])
             ((Chat.chain_of_thought (chat_of m)
                 ++ [ReasoningStep.mk THOUGHT (Text th)])
                ++ [ReasoningStep.mk FINAL_ANSWER (Text (py_str final_answer))])
             (Chat.steps (chat_of m) ++ ["Thought: " ++ th])))
       (world m) (events m),
     match validate_final_answer coerce final_answer with
     | Returns validated =>
         Ok (Return
               (AgentOutput.mk prompt validated
                  ((Chat.chain_of_thought (chat_of m)
                      ++ [ReasoningStep.mk THOUGHT (Text th)])
                     ++ [ReasoningStep.mk FINAL_ANSWER
                           (Text (py_str final_answer))])))
     | Raises e => Raise e
     end).
Proof.
  intros. run_agent. unfold new_agent_output. cbn [self Agent.chat Agent.set_chat
    Chat.chain_of_thought chat_of].
  destruct (validate_final_answer coerce final_answer); reflexivity.
Qed.

(** What the end of a turn does. *)
Lemma end_of_turn_next : forall prompt observation (m : Machine W),
  end_of_turn user_turn prompt observation m
  = (mkMachine
       (Agent.set_chat (self m)
          (Chat.mk
             (Chat.messages (chat_of m)
                ++ [ChatMessage.mk USER
                      (user_turn prompt
                         (Chat.steps (chat_of m)
                            ++ ["Observation: " ++ format_observation observation]))])
             (Chat.chain_of_thought (chat_of m))
             (Chat.steps (chat_of m)
                ++ ["Observation: " ++ format_observation observation])))
       (world m) (events m),
     Ok Next).
Proof. intros. reflexivity. Qed.

(** A tool-use output never makes the pass return. *)
Lemma act_tool_use_flow : forall prompt th tool tool_input observation
    (m m' : Machine W) flow,
  act
      py_str coerce user_turn prompt (Some (LLMToolUse th tool tool_input)) observation m =
      (m', Ok flow) ->
  flow = Next.
Proof.
  intros prompt th tool tool_input observation m m' flow. run_agent.
  destruct (Agent.tools (self m)) as [tools|]; cbn.
  - destruct (dict_get tool tools) as [the_tool|]; cbn.
    + destruct (Tool.invoke the_tool tool_input (world m)) as [w [r|e]]; cbn;
        congruence.
    + congruence.
  - congruence.
Qed.

Lemma act_return : forall prompt output observation (m m' : Machine W) out,
  act py_str coerce user_turn prompt output observation m = (m', Ok (Return out)) ->
  events m' = events m /\
  AgentOutput.prompt out = prompt /\
  AgentOutput.chain_of_thought out = Chat.chain_of_thought (chat_of m') /\
  exists th final_answer,
    output = Some (LLMFinalAnswer th final_answer) /\
    validate_final_answer coerce final_answer
    = Returns (AgentOutput.final_answer out).
Proof.
  intros prompt [[th tool tool_input|th final_answer]|] observation m m' out H.
  - apply act_tool_use_flow in H. discriminate.
  - rewrite act_final_answer in H.
    destruct (validate_final_answer coerce final_answer) as [validated|e] eqn:Hv;
      [|discriminate].
    injection H as <- <-. cbn.
    repeat split. exists th, final_answer. now split.
  - unfold act in H. rewrite end_of_turn_next in H. discriminate.
Qed.

(** The pass returns only on a final answer given by the parser. *)
Lemma loop_body_return : forall prompt (m m' : Machine W) out,
  loop_body encode py_repr py_str coerce user_turn prompt m = (m', Ok (Return out)) ->
  AgentOutput.prompt out = prompt /\
  AgentOutput.chain_of_thought out = Chat.chain_of_thought (chat_of m') /\
  exists evs output th final_answer,
    events m'
    = (evs ++ [ParseCall output (Returns (LLMFinalAnswer th final_answer))])%list /\
    validate_final_answer coerce final_answer
    = Returns (AgentOutput.final_answer out).
Proof.
  intros prompt m m' out. unfold loop_body. unfold bind at 1.
  destruct (_trim_conversation encode py_repr m) as [m1 [[]|e|]]; try discriminate.
  unfold bind at 1.
  destruct (get_completion m1) as [m2 [output|e|]]; try discriminate.
  unfold bind at 1. unfold _parse_output, call.
  destruct (AgentOutputParser.parse _ output (world m2)) as [w3 [parsed|error]];
    cbn [lift].
  - intros H. apply act_return in H.
    destruct H as (Hev & Hp & Hc & th & final_answer & Hout & Hv).
    repeat split; auto. injection Hout as ->.
    cbn [events] in Hev. eauto 8.
  - destruct (caught error); [|discriminate].
    intros H. apply act_return in H. destruct H as (_ & _ & _ & th & fa & Hout & _).
    discriminate.
Qed.
End Passes.

(** ** The loop as a whole, and [invoke] *)

Section Runs.
Variable W : Type.
Variable encode : string -> outcome (list Z).
Variable py_repr : string -> string.
Variable py_str : PyVal -> string.
Variable str_format : string -> dict PyVal -> outcome string.
Variable coerce : PyVal -> outcome PyVal.
Variable create_model : string -> list string -> outcome unit.
Variable user_turn : string -> list string -> string.

Lemma while_loop_enter : forall fuel prompt iteration (m : Machine W),
  iteration <= Agent.iterations (self m) ->
  while_loop encode py_repr py_str coerce user_turn (S fuel) prompt iteration m
  = match loop_body encode py_repr py_str coerce user_turn prompt m with
    | (m', Ok Next) =>
        while_loop encode py_repr py_str coerce user_turn fuel prompt (iteration + 1) m'
    | (m', Ok (Return output)) => (m', Ok (Some output))
    | (m', Raise e) => (m', Raise e)
    | (m', Diverge) => (m', Diverge)
    end.
Proof.
  intros fuel prompt iteration m H. cbn [while_loop].
  unfold bind at 1, get_self. apply Z.leb_le in H. rewrite H. unfold bind at 1.
  destruct (loop_body encode py_repr py_str coerce user_turn prompt m) as [m' [[|output]|e|]];
    reflexivity.
Qed.

Lemma while_loop_leave : forall fuel prompt iteration (m : Machine W),
  Agent.iterations (self m) < iteration ->
  while_loop encode py_repr py_str coerce user_turn (S fuel) prompt iteration m = (m, Ok None).
Proof.
  intros fuel prompt iteration m H. cbn [while_loop].
  unfold bind at 1, get_self. apply Z.leb_gt in H. rewrite H. reflexivity.
Qed.

(** With more fuel than passes left, the loop ends, calls the model at most
    once per pass left, and returns only on a final answer of the parser. *)
Lemma while_loop_within : forall fuel prompt iteration (m : Machine W),
  (Z.to_nat (Agent.iterations (self m) + 1 - iteration) < fuel)%nat ->
  snd (while_loop encode py_repr py_str coerce user_turn fuel prompt iteration m) <> Diverge /\
  extends m (fst (while_loop encode py_repr py_str coerce user_turn fuel prompt iteration m)) /\
  (completion_calls
     (events (fst (while_loop encode py_repr py_str coerce user_turn fuel prompt iteration m)))
   <= completion_calls (events m)
      + Z.to_nat (Agent.iterations (self m) + 1 - iteration))%nat /\
  forall out,
    snd (while_loop encode py_repr
        py_str coerce user_turn fuel prompt iteration m) = Ok (Some out) ->
    AgentOutput.prompt out = prompt /\
    AgentOutput.chain_of_thought out
    = Chat.chain_of_thought
        (chat_of (fst (while_loop encode py_repr
            py_str coerce user_turn fuel prompt iteration m))) /\
    exists evs output th final_answer,
      events (fst (while_loop encode py_repr py_str coerce user_turn fuel prompt iteration m))
      = (evs ++ [ParseCall output (Returns (LLMFinalAnswer th final_answer))])%list /\
      validate_final_answer coerce final_answer
      = Returns (AgentOutput.final_answer out).
Proof.
  induction fuel as [|fuel IH]; intros prompt iteration m Hfuel; [lia|].
  destruct (Z.leb_spec iteration (Agent.iterations (self m))) as [Hle|Hgt].
  - rewrite (@while_loop_enter fuel prompt iteration m Hle).
    destruct (within_loop_body encode py_repr
        py_str coerce user_turn prompt m) as (Hd & He & Hc).
    pose proof (@loop_body_return W encode py_repr py_str coerce user_turn prompt m) as Hret.
    destruct (loop_body encode py_repr py_str coerce user_turn prompt m) as [m1 [[|output]|e|]];
      cbn [fst snd] in *.
    + pose proof (extends_iterations He) as Hit.
      destruct (IH prompt (iteration + 1) m1) as (G1 & G2 & G3 & G4);
        [rewrite Hit; lia|].
      split; [assumption|]. split; [eapply extends_trans; eassumption|].
      split; [rewrite Hit in G3; lia | exact G4].
    + split; [discriminate|]. split; [assumption|]. split; [lia|].
      intros out Hout. injection Hout as <-. now apply Hret.
    + split; [discriminate|]. split; [assumption|]. split; [lia|]. discriminate.
    + congruence.
  - rewrite (@while_loop_leave fuel prompt iteration m Hgt). cbn [fst snd].
    split; [discriminate|]. split; [apply extends_refl|]. split; [lia|].
    discriminate.
Qed.

(** The statements before the loop, in one step. *)
Lemma invoke_start_eq : forall args (m : Machine W),
  invoke_start str_format args m
  = match str_format (Agent.prompt (self m))
            (prompt_arguments (Agent.prompt_variables (self m)) args) with
    | Returns prompt =>
        (mkMachine
           (Agent.set_chat (self m)
              (Chat.mk
                 (Chat.messages (chat_of m) ++ [ChatMessage.mk USER prompt])
                 [ReasoningStep.mk PROMPT (Text prompt)] []))
           (world m) (events m),
         Ok prompt)
    | Raises e => (m, Raise e)
    end.
Proof.
  intros args m. unfold invoke_start. unfold bind at 1, get_self.
  unfold bind at 1.
  destruct (str_format _ _) as [prompt|e]; reflexivity.
Qed.

Lemma invoke_start_config : forall args (m m' : Machine W) r,
  invoke_start str_format args m = (m', r) ->
  config (self m') = config (self m) /\ events m' = events m /\
  world m' = world m.
Proof.
  intros args m m' r. rewrite invoke_start_eq.
  destruct (str_format _ _); intros H; injection H as <- _; repeat split.
Qed.

(** The fallback model is an instance, never an exhausted fuel. *)
Lemma optional_fields_ends : forall fields, optional_fields fields <> Diverge.
Proof.
  induction fields as [|[field [name|text]] fields IH]; cbn [optional_fields];
    try discriminate.
  destruct (optional_fields fields); [discriminate | discriminate | congruence].
Qed.

Lemma fallback_model_ends : forall cls, fallback_model create_model cls <> Diverge.
Proof.
  intros cls. unfold fallback_model.
  pose proof (optional_fields_ends (BaseModelClass.__annotations__ cls)) as H.
  destruct (optional_fields _); [|discriminate|congruence].
  destruct (create_model _ _); discriminate.
Qed.

Lemma fallback_model_instance : forall cls instance,
  fallback_model create_model cls = Ok instance ->
  exists fields, instance = PModel (BaseModelClass.__name__ cls) fields.
Proof.
  intros cls instance. unfold fallback_model.
  destruct (optional_fields _) as [names|e|]; try discriminate.
  destruct (create_model _ _); [|discriminate].
  intros H. injection H as <-. eauto.
Qed.

(** The fallback value is, as it is, of one of the types of the field
    [final_answer]: the validation keeps it. *)
Lemma fallback_answer_exact : forall (parser : AgentOutputParser.t W) final_answer,
  fallback_answer create_model parser = Ok final_answer ->
  validate_final_answer coerce final_answer = Returns final_answer.
Proof.
  intros parser final_answer. unfold fallback_answer, validate_final_answer.
  destruct (AgentOutputParser.output_type parser);
    try destruct (AgentOutputParser.object_schema parser);
    try destruct (AgentOutputParser.output_schema parser) as [[cls|]|];
    try discriminate;
    try (intros H; injection H as <-; reflexivity).
  all: try (intros H; apply fallback_model_instance in H as [fields ->];
            reflexivity).
  all: destruct (fallback_model create_model cls) as [instance|e|] eqn:E;
    try discriminate;
    apply fallback_model_instance in E as [fields ->];
    intros H; injection H as <-; reflexivity.
Qed.

(** The statements after the loop, in one step. *)
Lemma invoke_fallback_eq : forall prompt (m : Machine W),
  invoke_fallback coerce create_model prompt m
  = match fallback_answer create_model (Agent.output_parser (self m)) with
    | Ok final_answer =>
        (m, Ok (AgentOutput.mk prompt final_answer
                  (Chat.chain_of_thought (chat_of m))))
    | Raise e => (m, Raise e)
    | Diverge => (m, Diverge)
    end.
Proof.
  intros prompt m.
  unfold invoke_fallback, bind, get_self, get_chat, ret, new_agent_output.
  destruct (fallback_answer _ _) as [final_answer|e|] eqn:E; try reflexivity.
  now rewrite (fallback_answer_exact _ E).
Qed.

(** [invoke], stage by stage. *)
Lemma invoke_eq : forall args (m : Machine W),
  invoke encode py_repr py_str str_format coerce create_model user_turn args m
  = match invoke_start str_format args m with
    | (ms, Ok prompt) =>
        match while_loop encode py_repr py_str coerce user_turn
                (invoke_fuel (Agent.iterations (self m))) prompt 0 ms with
        | (m', Ok (Some output)) => (m', Ok output)
        | (m', Ok None) => invoke_fallback coerce create_model prompt m'
        | (m', Raise e) => (m', Raise e)
        | (m', Diverge) => (m', Diverge)
        end
    | (ms, Raise e) => (ms, Raise e)
    | (ms, Diverge) => (ms, Diverge)
    end.
Proof.
  intros args m. unfold invoke, invoke_with. unfold bind at 1.
  destruct (invoke_start str_format args m) as [ms [prompt|e|]]; try reflexivity.
  unfold bind at 1.
  destruct (while_loop encode py_repr py_str coerce user_turn _ prompt 0 ms)
    as [m' [[output|]|e|]]; reflexivity.
Qed.

Lemma fallback_answer_ends : forall parser : AgentOutputParser.t W,
  fallback_answer create_model parser <> Diverge.
Proof.
  intros parser. unfold fallback_answer.
  destruct (AgentOutputParser.output_type parser);
    try destruct (AgentOutputParser.object_schema parser);
    try destruct (AgentOutputParser.output_schema parser) as [[cls|]|];
    try discriminate; try apply fallback_model_ends.
  all: pose proof (fallback_model_ends cls) as H;
    destruct (fallback_model create_model cls);
    [discriminate | discriminate | congruence].
Qed.
End Runs.

(** C1, as the spec states it, fails: an error of the parser that is neither a
    [ValueError] nor a [TypeError] leaves [invoke] as an exception, and no
    [AgentOutput] is returned; and with [iterations] below -1 the number of
    calls, zero, is above [iterations + 1]. *)
Lemma invoke_raises_on_fatal_parser_error :
  snd (Demo.invoke Demo.question
         (Demo.machine ["crash"] Demo.tools (PLAIN "string") 10))
  = Raise (mkException (OtherException "RuntimeError") "parser crashed") /\
  -3 + 1
  < Z.of_nat
      (completion_calls
         (events (fst (Demo.invoke Demo.question
                         (Demo.machine [] Demo.tools (PLAIN "string") (-3)))))).
Proof. split; vm_compute; reflexivity. Qed.

(** C1 (amended): whatever the model, the parser and the tools do, [invoke]
    ends, with at most max(0, iterations + 1) model-completion calls (at most
    11 for the default 10); it ends by returning an [AgentOutput] or by
    raising an exception, and the [final_answer] of a returned [AgentOutput]
    is the validated final answer that the parser gave last, or the fallback
    built after the loop. *)
Theorem invoke_terminates_within_budget :
  forall (W : Type) encode py_repr py_str str_format coerce create_model user_turn
      args (m : Machine W),
    ((exists out,
         snd (invoke encode py_repr py_str str_format coerce create_model user_turn
                args m) = Ok out) \/
     (exists e,
         snd (invoke encode py_repr py_str str_format coerce create_model user_turn
                args m) = Raise e)) /\
    (completion_calls (events (fst (invoke encode py_repr py_str str_format
        coerce create_model user_turn args m)))
     <= completion_calls (events m) + Z.to_nat (Agent.iterations (self m) + 1))%nat /\
    (Agent.iterations (self m) = 10 ->
     (completion_calls (events (fst (invoke encode py_repr py_str str_format
         coerce create_model user_turn args m)))
      <= completion_calls (events m) + 11)%nat) /\
    forall out,
      snd (invoke encode py_repr py_str str_format
          coerce create_model user_turn args m) = Ok out ->
      (exists evs output th final_answer,
          events (fst (invoke encode py_repr py_str str_format
              coerce create_model user_turn args m))
          = (evs ++ [ParseCall output (Returns (LLMFinalAnswer th final_answer))])%list /\
          validate_final_answer coerce final_answer
          = Returns (AgentOutput.final_answer out))
      \/ fallback_answer create_model (Agent.output_parser (self m))
         = Ok (AgentOutput.final_answer out).
Proof.
  intros W encode py_repr py_str str_format coerce create_model user_turn args m.
  assert (Hmain :
    snd (invoke encode py_repr py_str str_format
        coerce create_model user_turn args m) <> Diverge /\
    (completion_calls (events (fst (invoke encode py_repr py_str str_format
        coerce create_model user_turn args m)))
     <= completion_calls (events m) + Z.to_nat (Agent.iterations (self m) + 1))%nat /\
    forall out,
      snd (invoke encode py_repr py_str str_format
          coerce create_model user_turn args m) = Ok out ->
      (exists evs output th final_answer,
          events (fst (invoke encode py_repr py_str str_format
              coerce create_model user_turn args m))
          = (evs ++ [ParseCall output (Returns (LLMFinalAnswer th final_answer))])%list /\
          validate_final_answer coerce final_answer
          = Returns (AgentOutput.final_answer out))
      \/ fallback_answer create_model (Agent.output_parser (self m))
         = Ok (AgentOutput.final_answer out)).
  { rewrite invoke_eq, invoke_start_eq.
    destruct (str_format _ _) as [prompt|e].
    2:{ cbn [fst snd]. split; [discriminate|]. split; [lia | discriminate]. }
    set (ms := mkMachine _ (world m) (events m)).
    destruct (@while_loop_within W encode py_repr py_str coerce user_turn
                (invoke_fuel (Agent.iterations (self m))) prompt 0 ms)
      as (Hd & He & Hc & Hout).
    { unfold invoke_fuel. cbn. rewrite Z.sub_0_r. lia. }
    change (Agent.iterations (self ms)) with (Agent.iterations (self m)) in Hc.
    change (events ms) with (events m) in Hc.
    rewrite Z.sub_0_r in Hc.
    destruct (while_loop encode py_repr py_str coerce user_turn _ prompt 0 ms)
      as [m' [[out|]|e|]]; cbn [fst snd] in *.
    - split; [discriminate|]. split; [exact Hc|].
      intros out' H. injection H as <-. left.
      destruct (Hout out eq_refl) as (_ & _ & Hev). exact Hev.
    - rewrite invoke_fallback_eq.
      pose proof (extends_parser He) as Hp. cbn in Hp. rewrite Hp.
      pose proof (@fallback_answer_ends W create_model
                    (Agent.output_parser (self m))) as Hf.
      destruct (fallback_answer create_model (Agent.output_parser (self m)))
        as [fa|e|]; cbn [fst snd]; [| |congruence].
      + split; [discriminate|]. split; [exact Hc|].
        intros out' H. injection H as <-. now right.
      + split; [discriminate|]. split; [exact Hc | discriminate].
    - split; [discriminate|]. split; [exact Hc | discriminate].
    - congruence. }
  destruct Hmain as (H1 & H2 & H3). split; [|split; [exact H2|split; [|exact H3]]].
  - destruct (snd (invoke encode py_repr py_str str_format coerce create_model
                     user_turn args m)) as [out|e|];
      [left; eauto | right; eauto | congruence].
  - intros Hit. rewrite Hit in H2. exact H2.
Qed.

(** ** Passes inside a call of [invoke] *)

Lemma tool_calls_app : forall evs evs',
  tool_calls (evs ++ evs') = (tool_calls evs ++ tool_calls evs')%list.
Proof. intros. apply filter_app. Qed.

Section Reach.
Variable W : Type.
Variable encode : string -> outcome (list Z).
Variable py_repr : string -> string.
Variable py_str : PyVal -> string.
Variable str_format : string -> dict PyVal -> outcome string.
Variable coerce : PyVal -> outcome PyVal.
Variable create_model : string -> list string -> outcome unit.
Variable user_turn : string -> list string -> string.

(** The trim touches the message log only. *)
Lemma trim_conversation_frame : forall (m m1 : Machine W) r,
  _trim_conversation encode py_repr m = (m1, r) ->
  world m1 = world m /\ events m1 = events m /\
  config (self m1) = config (self m) /\
  Chat.chain_of_thought (chat_of m1) = Chat.chain_of_thought (chat_of m) /\
  Chat.steps (chat_of m1) = Chat.steps (chat_of m) /\
  Agent.tools (self m1) = Agent.tools (self m).
Proof.
  intros m m1 r. unfold _trim_conversation.
  destruct (trim encode py_repr _ _ _) as [messages r']. intros H.
  injection H as <- _. repeat split.
Qed.

Lemma loop_body_extends : forall prompt (m m' : Machine W) r,
  loop_body encode py_repr py_str coerce user_turn prompt m = (m', r) -> extends m m'.
Proof.
  intros prompt m m' r H.
  destruct (within_loop_body encode py_repr py_str coerce user_turn prompt m) as (_ & He & _).
  rewrite H in He. exact He.
Qed.

Lemma reaches_extends : forall prompt iteration (m : Machine W) iteration' m',
  reaches encode py_repr py_str coerce user_turn prompt iteration m iteration' m' ->
  extends m m'.
Proof.
  induction 1 as [|iteration m m1 iteration' m' Hle Hbody _ IH].
  - apply extends_refl.
  - eapply extends_trans; [eapply loop_body_extends; eassumption | exact IH].
Qed.

(** After a pass that goes on, the loop is at the next test of its
    condition. *)
Lemma reaches_snoc : forall prompt iteration (m : Machine W) iteration' m' m'',
  reaches encode py_repr py_str coerce user_turn prompt iteration m iteration' m' ->
  iteration' <= Agent.iterations (self m') ->
  loop_body encode py_repr py_str coerce user_turn prompt m' = (m'', Ok Next) ->
  reaches encode py_repr py_str coerce user_turn prompt iteration m (iteration' + 1) m''.
Proof.
  induction 1 as [iteration m|iteration m m1 iteration' m' Hle Hbody _ IH];
    intros Hle' Hbody'.
  - eapply reaches_next; [eassumption | eassumption | apply reaches_here].
  - eapply reaches_next; [eassumption | eassumption | now apply IH].
Qed.

Lemma reaches_while_loop : forall prompt iteration (m : Machine W) iteration' m',
  reaches encode py_repr py_str coerce user_turn prompt iteration m iteration' m' ->
  forall fuel,
    (Z.to_nat (Agent.iterations (self m) + 1 - iteration) < fuel)%nat ->
    exists fuel',
      (Z.to_nat (Agent.iterations (self m') + 1 - iteration') < fuel')%nat /\
      while_loop encode py_repr py_str coerce user_turn fuel prompt iteration m
      = while_loop encode py_repr py_str coerce user_turn fuel' prompt iteration' m'.
Proof.
  induction 1 as [iteration m|iteration m m1 iteration' m' Hle Hbody _ IH];
    intros fuel Hfuel.
  - exists fuel. split; [assumption | reflexivity].
  - destruct fuel as [|fuel]; [lia|].
    rewrite (@while_loop_enter W encode py_repr
        py_str coerce user_turn fuel prompt iteration m Hle).
    rewrite Hbody. apply IH.
    rewrite (extends_iterations (loop_body_extends _ _ Hbody)). lia.
Qed.

(** The loop of [invoke], brought to the pass that [reaches] names. *)
Lemma invoke_at_pass : forall args (m0 ms m : Machine W) prompt iteration,
  invoke_start str_format args m0 = (ms, Ok prompt) ->
  reaches encode py_repr py_str coerce user_turn prompt 0 ms iteration m ->
  iteration <= Agent.iterations (self m) ->
  exists fuel,
    invoke encode py_repr py_str str_format coerce create_model user_turn args m0
    = match loop_body encode py_repr py_str coerce user_turn prompt m with
      | (m', Ok (Return output)) => (m', Ok output)
      | (m', Ok Next) =>
          match while_loop encode py_repr
              py_str coerce user_turn fuel prompt (iteration + 1) m' with
          | (m'', Ok (Some output)) => (m'', Ok output)
          | (m'', Ok None) => invoke_fallback coerce create_model prompt m''
          | (m'', Raise e) => (m'', Raise e)
          | (m'', Diverge) => (m'', Diverge)
          end
      | (m', Raise e) => (m', Raise e)
      | (m', Diverge) => (m', Diverge)
      end.
Proof.
  intros args m0 ms m prompt iteration Hstart Hreach Hle.
  rewrite invoke_eq, Hstart.
  destruct (invoke_start_config _ _ _ Hstart) as (Hc & _).
  pose proof (f_equal (@Agent.iterations W) Hc) as Hit. cbn in Hit.
  destruct (reaches_while_loop Hreach
              (fuel := invoke_fuel (Agent.iterations (self m0))))
    as (fuel' & Hfuel' & ->).
  { rewrite Hit. unfold invoke_fuel. rewrite Z.sub_0_r. lia. }
  destruct fuel' as [|fuel']; [lia|]. exists fuel'.
  rewrite (@while_loop_enter W encode py_repr
      py_str coerce user_turn fuel' prompt iteration m Hle).
  destruct (loop_body encode py_repr py_str coerce user_turn prompt m) as [m' [[|output]|e|]];
    reflexivity.
Qed.

Lemma invoke_pass_raises : forall args (m0 ms m m' : Machine W) prompt iteration e,
  invoke_start str_format args m0 = (ms, Ok prompt) ->
  reaches encode py_repr py_str coerce user_turn prompt 0 ms iteration m ->
  iteration <= Agent.iterations (self m) ->
  loop_body encode py_repr py_str coerce user_turn prompt m = (m', Raise e) ->
  invoke encode py_repr py_str str_format coerce create_model user_turn args m0 = (m', Raise e).
Proof.
  intros args m0 ms m m' prompt iteration e Hstart Hreach Hle Hbody.
  destruct (@invoke_at_pass args m0 ms m prompt iteration Hstart Hreach Hle)
    as (fuel & ->).
  now rewrite Hbody.
Qed.

Lemma invoke_pass_returns : forall args (m0 ms m m' : Machine W) prompt iteration out,
  invoke_start str_format args m0 = (ms, Ok prompt) ->
  reaches encode py_repr py_str coerce user_turn prompt 0 ms iteration m ->
  iteration <= Agent.iterations (self m) ->
  loop_body encode py_repr py_str coerce user_turn prompt m = (m', Ok (Return out)) ->
  invoke encode py_repr py_str str_format coerce create_model user_turn args m0 = (m', Ok out).
Proof.
  intros args m0 ms m m' prompt iteration out Hstart Hreach Hle Hbody.
  destruct (@invoke_at_pass args m0 ms m prompt iteration Hstart Hreach Hle)
    as (fuel & ->).
  now rewrite Hbody.
Qed.
End Reach.

(** ** The tool dispatch of a pass *)

Section Dispatch.
Variable W : Type.
Variable py_str : PyVal -> string.
Variable coerce : PyVal -> outcome PyVal.
Variable user_turn : string -> list string -> string.

(** The registered tool answers. *)
Lemma act_tool_found : forall prompt th tool tool_input observation
    (m : Machine W) tools the_tool w tool_response,
  Agent.tools (self m) = Some tools ->
  dict_get tool tools = Some the_tool ->
  Tool.invoke the_tool tool_input (world m) = (w, Returns tool_response) ->
  exists m',
    act py_str coerce user_turn prompt (Some (LLMToolUse th tool tool_input)) observation m
    = (m', Ok Next) /\
    config (self m') = config (self m) /\
    world m' = w /\
    events m' = (events m ++ [ToolCall tool tool_input (Returns tool_response)])%list /\
    Chat.steps (chat_of m')
    = (Chat.steps (chat_of m)
         ++ [("Thought: " ++ th)%string; ("Tool: " ++ Tool.name the_tool)%string;
             ("Tool Input: " ++ py_str tool_input)%string;
             ("Observation: " ++ ("Tool Response:" ++ newline ++ tool_response))%string])%list /\
    Chat.chain_of_thought (chat_of m')
    = (Chat.chain_of_thought (chat_of m)
         ++ [ReasoningStep.mk THOUGHT (Text th);
             ReasoningStep.mk TOOL
               (ToolContent (ReasoningStepTool.mk tool tool_input tool_response))])%list /\
    Chat.messages (chat_of m')
    = (Chat.messages (chat_of m)
         ++ [ChatMessage.mk USER (user_turn prompt (Chat.steps (chat_of m')))])%list.
Proof.
  intros prompt th tool tool_input observation m tools the_tool w tool_response
    Htools Hget Hinvoke.
  eexists. split.
  - run_agent. rewrite Htools, Hget. run_agent. rewrite Hinvoke. run_agent.
    reflexivity.
  - unfold chat_of. cbn. rewrite <- !app_assoc. cbn. repeat split.
Qed.

(** The registered tool raises: the exception leaves the pass. *)
Lemma act_tool_raises : forall prompt th tool tool_input observation
    (m : Machine W) tools the_tool w e,
  Agent.tools (self m) = Some tools ->
  dict_get tool tools = Some the_tool ->
  Tool.invoke the_tool tool_input (world m) = (w, Raises e) ->
  exists m',
    act py_str coerce user_turn prompt (Some (LLMToolUse th tool tool_input)) observation m
    = (m', Raise e) /\
    Chat.chain_of_thought (chat_of m')
    = (Chat.chain_of_thought (chat_of m) ++ [ReasoningStep.mk THOUGHT (Text th)])%list.
Proof.
  intros prompt th tool tool_input observation m tools the_tool w e
    Htools Hget Hinvoke.
  eexists. split.
  - run_agent. rewrite Htools, Hget. run_agent. rewrite Hinvoke. run_agent.
    reflexivity.
  - reflexivity.
Qed.

(** The machine that the raising tool leaves. *)
Lemma act_tool_raises_state : forall prompt th tool tool_input observation
    (m : Machine W) tools the_tool w e,
  Agent.tools (self m) = Some tools ->
  dict_get tool tools = Some the_tool ->
  Tool.invoke the_tool tool_input (world m) = (w, Raises e) ->
  act py_str coerce user_turn prompt (Some (LLMToolUse th tool tool_input)) observation m
  = (mkMachine
       (Agent.set_chat (self m)
          (Chat.mk (Chat.messages (chat_of m))
             (Chat.chain_of_thought (chat_of m)
                ++ [ReasoningStep.mk THOUGHT (Text th)])
             (Chat.steps (chat_of m) ++ [("Thought: " ++ th)%string])))
       w (events m ++ [ToolCall tool tool_input (Raises e)]),
     Raise e).
Proof.
  intros prompt th tool tool_input observation m tools the_tool w e
    Htools Hget Hinvoke.
  run_agent. rewrite Htools, Hget. run_agent. rewrite Hinvoke. reflexivity.
Qed.

(** The tool is not registered. *)
Lemma act_tool_missing : forall prompt th tool tool_input observation
    (m : Machine W) tools,
  Agent.tools (self m) = Some tools ->
  dict_get tool tools = None ->
  exists m',
    act py_str coerce user_turn prompt (Some (LLMToolUse th tool tool_input)) observation m
    = (m', Ok Next) /\
    config (self m') = config (self m) /\
    world m' = world m /\
    events m' = events m /\
    Chat.steps (chat_of m')
    = (Chat.steps (chat_of m)
         ++ [("Thought: " ++ th)%string;
             ("Observation: "
                ++ (tool ++ " tool doesn't exist. Try one of these tools: "
                         ++ join ", " (dict_keys tools)))%string])%list /\
    Chat.chain_of_thought (chat_of m')
    = (Chat.chain_of_thought (chat_of m) ++ [ReasoningStep.mk THOUGHT (Text th)])%list /\
    Chat.messages (chat_of m')
    = (Chat.messages (chat_of m)
         ++ [ChatMessage.mk USER (user_turn prompt (Chat.steps (chat_of m')))])%list.
Proof.
  intros prompt th tool tool_input observation m tools Htools Hget.
  eexists. split.
  - run_agent. rewrite Htools, Hget. run_agent. reflexivity.
  - unfold chat_of. cbn. rewrite <- !app_assoc. cbn. repeat split.
Qed.

(** No tools are configured. *)
Lemma act_no_tools : forall prompt th tool tool_input observation (m : Machine W),
  Agent.tools (self m) = None ->
  exists m',
    act py_str coerce user_turn prompt (Some (LLMToolUse th tool tool_input)) observation m
    = (m', Ok Next) /\
    config (self m') = config (self m) /\
    world m' = world m /\
    events m' = events m /\
    Chat.steps (chat_of m')
    = (Chat.steps (chat_of m)
         ++ [("Thought: " ++ th)%string;
             ("Observation: " ++ format_observation observation)%string])%list /\
    Chat.chain_of_thought (chat_of m')
    = (Chat.chain_of_thought (chat_of m) ++ [ReasoningStep.mk THOUGHT (Text th)])%list /\
    Chat.messages (chat_of m')
    = (Chat.messages (chat_of m)
         ++ [ChatMessage.mk USER (user_turn prompt (Chat.steps (chat_of m')))])%list.
Proof.
  intros prompt th tool tool_input observation m Htools.
  eexists. split.
  - run_agent. rewrite Htools. run_agent. reflexivity.
  - unfold chat_of. cbn. rewrite <- !app_assoc. cbn. repeat split.
Qed.
End Dispatch.

(** ** The properties of the passes *)

Lemma caught_kinds : forall error,
  caught error = true <-> exc_kind error = ValueError \/ exc_kind error = TypeError.
Proof.
  intros error. unfold caught.
  destruct (exc_kind error); split; intros H; try reflexivity; auto;
    try discriminate; destruct H; discriminate.
Qed.

Section PassProperties.
Variable W : Type.
Variable encode : string -> outcome (list Z).
Variable py_repr : string -> string.
Variable py_str : PyVal -> string.
Variable str_format : string -> dict PyVal -> outcome string.
Variable coerce : PyVal -> outcome PyVal.
Variable create_model : string -> list string -> outcome unit.
Variable user_turn : string -> list string -> string.

Lemma parsed_machine_tool_calls : forall (m m1 : Machine W) r output w parsed,
  _trim_conversation encode py_repr m = (m1, r) ->
  tool_calls (events (parsed_machine m1 output w parsed)) = tool_calls (events m).
Proof.
  intros m m1 r output w parsed Htrim.
  destruct (@trim_conversation_frame W encode py_repr m m1 r Htrim) as (_ & Hev & _).
  unfold parsed_machine. cbn [events]. rewrite tool_calls_app, Hev. cbn.
  now rewrite app_nil_r.
Qed.

(** C4: a [ValueError] or a [TypeError] of the parser becomes the
    observation of the turn, with no step added to the chain of thought and
    no tool called, and the loop goes on to its next test; an error of any
    other kind is not caught: it leaves the pass and [invoke]. *)
Theorem parse_errors_caught_exactly :
  forall args (m0 ms m m1 : Machine W) prompt iteration w2 output w3 error,
    invoke_start str_format args m0 = (ms, Ok prompt) ->
    reaches encode py_repr py_str coerce user_turn prompt 0 ms iteration m ->
    iteration <= Agent.iterations (self m) ->
    _trim_conversation encode py_repr m = (m1, Ok tt) ->
    OpenAILanguageModel.get_completion (Agent.llm (self m1))
      (Chat.messages (chat_of m1)) (world m1) = (w2, Returns output) ->
    AgentOutputParser.parse (Agent.output_parser (self m1)) output w2
    = (w3, Raises error) ->
    (exc_kind error = ValueError \/ exc_kind error = TypeError ->
     exists m',
       loop_body encode py_repr py_str coerce user_turn prompt m = (m', Ok Next) /\
       Chat.chain_of_thought (chat_of m') = Chat.chain_of_thought (chat_of m) /\
       Chat.steps (chat_of m')
       = (Chat.steps (chat_of m) ++ [("Observation: " ++ exc_str error)%string])%list /\
       Chat.messages (chat_of m')
       = (Chat.messages (chat_of m1)
            ++ [ChatMessage.mk USER (user_turn prompt (Chat.steps (chat_of m')))])%list /\
       tool_calls (events m') = tool_calls (events m) /\
       reaches encode py_repr py_str coerce user_turn prompt 0 ms (iteration + 1) m') /\
    (exc_kind error <> ValueError -> exc_kind error <> TypeError ->
     loop_body encode py_repr py_str coerce user_turn prompt m
     = (parsed_machine m1 output w3 (Raises error), Raise error) /\
     invoke encode py_repr py_str str_format coerce create_model user_turn args m0
     = (parsed_machine m1 output w3 (Raises error), Raise error)).
Proof.
  intros args m0 ms m m1 prompt iteration w2 output w3 error
    Hstart Hreach Hle Htrim Hllm Hparse.
  pose proof (@loop_body_parsed W encode py_repr
      py_str coerce user_turn prompt m m1 w2 output w3 _
                Htrim Hllm Hparse) as Hbody.
  cbv beta iota in Hbody.
  destruct (@trim_conversation_frame W encode py_repr m m1 (Ok tt) Htrim)
    as (_ & _ & _ & Hcot & Hsteps & _).
  split.
  - intros Hkind. apply caught_kinds in Hkind. rewrite Hkind in Hbody.
    unfold act in Hbody. rewrite end_of_turn_next in Hbody.
    eexists. split; [exact Hbody|].
    split; [exact Hcot|]. split; [cbn; now rewrite <- Hsteps|].
    split; [reflexivity|].
    split; [cbn [events]; eapply parsed_machine_tool_calls; eassumption|].
    eapply reaches_snoc; eassumption.
  - intros Hv Ht.
    assert (Hkind : caught error = false).
    { destruct (caught error) eqn:E; [|reflexivity].
      apply caught_kinds in E. tauto. }
    rewrite Hkind in Hbody. split; [exact Hbody|].
    eapply invoke_pass_raises; eassumption.
Qed.


(** C5 (amended): with tools configured, a tool-use output that names a
    registered tool calls it; when the call returns, the observation is
    "Tool Response:\n{result}" and the loop goes on to its next test; when
    the call raises, the exception leaves the pass and [invoke], and the loop
    does not go on.  An output that names no registered tool calls none,
    gives the observation that lists the registered names, and the loop goes
    on to its next test.  Where the loop goes on, the observation is in the
    user turn appended to the log. *)
Theorem tool_dispatch_observation :
  forall args (m0 ms m m1 : Machine W) prompt iteration w2 output w3
         th tool tool_input tools,
    invoke_start str_format args m0 = (ms, Ok prompt) ->
    reaches encode py_repr py_str coerce user_turn prompt 0 ms iteration m ->
    iteration <= Agent.iterations (self m) ->
    _trim_conversation encode py_repr m = (m1, Ok tt) ->
    OpenAILanguageModel.get_completion (Agent.llm (self m1))
      (Chat.messages (chat_of m1)) (world m1) = (w2, Returns output) ->
    AgentOutputParser.parse (Agent.output_parser (self m1)) output w2
    = (w3, Returns (LLMToolUse th tool tool_input)) ->
    Agent.tools (self m) = Some tools ->
    (forall the_tool w4 tool_response,
        dict_get tool tools = Some the_tool ->
        Tool.invoke the_tool tool_input w3 = (w4, Returns tool_response) ->
        exists m',
          loop_body encode py_repr py_str coerce user_turn prompt m = (m', Ok Next) /\
          tool_calls (events m')
          = (tool_calls (events m)
               ++ [ToolCall tool tool_input (Returns tool_response)])%list /\
          Chat.steps (chat_of m')
          = (Chat.steps (chat_of m)
               ++ [("Thought: " ++ th)%string;
                   ("Tool: " ++ Tool.name the_tool)%string;
                   ("Tool Input: " ++ py_str tool_input)%string;
                   ("Observation: "
                      ++ ("Tool Response:" ++ newline ++ tool_response))%string])%list /\
          Chat.messages (chat_of m')
          = (Chat.messages (chat_of m1)
               ++ [ChatMessage.mk USER
                     (user_turn prompt (Chat.steps (chat_of m')))])%list /\
          reaches encode py_repr py_str coerce user_turn prompt 0 ms (iteration + 1) m') /\
    (dict_get tool tools = None ->
     exists m',
       loop_body encode py_repr py_str coerce user_turn prompt m = (m', Ok Next) /\
       tool_calls (events m') = tool_calls (events m) /\
       Chat.steps (chat_of m')
       = (Chat.steps (chat_of m)
            ++ [("Thought: " ++ th)%string;
                ("Observation: "
                   ++ (tool ++ " tool doesn't exist. Try one of these tools: "
                            ++ join ", " (dict_keys tools)))%string])%list /\
       Chat.messages (chat_of m')
       = (Chat.messages (chat_of m1)
            ++ [ChatMessage.mk USER
                  (user_turn prompt (Chat.steps (chat_of m')))])%list /\
       reaches encode py_repr py_str coerce user_turn prompt 0 ms (iteration + 1) m') /\
    (forall the_tool w4 e,
        dict_get tool tools = Some the_tool ->
        Tool.invoke the_tool tool_input w3 = (w4, Raises e) ->
        exists m',
          loop_body encode py_repr py_str coerce user_turn prompt m = (m', Raise e) /\
          invoke encode py_repr py_str str_format coerce create_model user_turn args m0
          = (m', Raise e) /\
          tool_calls (events m')
          = (tool_calls (events m) ++ [ToolCall tool tool_input (Raises e)])%list /\
          Chat.messages (chat_of m') = Chat.messages (chat_of m1)).
Proof.
  intros args m0 ms m m1 prompt iteration w2 output w3 th tool tool_input tools
    Hstart Hreach Hle Htrim Hllm Hparse Htools.
  pose proof (@loop_body_parsed W encode py_repr
      py_str coerce user_turn prompt m m1 w2 output w3 _
                Htrim Hllm Hparse) as Hbody.
  cbv beta iota in Hbody.
  destruct (@trim_conversation_frame W encode py_repr m m1 (Ok tt) Htrim)
    as (_ & _ & _ & Hcot & Hsteps & Ht).
  split; [|split].
  - intros the_tool w4 tool_response Hget Hinvoke.
    destruct (@act_tool_found W py_str coerce user_turn prompt th tool tool_input ObsNone
                (parsed_machine m1 output w3
                   (Returns (LLMToolUse th tool tool_input)))
                tools the_tool w4 tool_response)
      as (m' & Hact & _ & _ & Hev & Hs & _ & Hm); auto.
    { cbn. congruence. }
    rewrite Hact in Hbody. exists m'. split; [exact Hbody|].
    split.
    { rewrite Hev, tool_calls_app.
      erewrite parsed_machine_tool_calls by eassumption. reflexivity. }
    split; [rewrite Hs; cbn; now rewrite <- Hsteps|].
    split; [exact Hm|].
    eapply reaches_snoc; eassumption.
  - intros Hget.
    destruct (@act_tool_missing W py_str coerce user_turn prompt th tool tool_input ObsNone
                (parsed_machine m1 output w3
                   (Returns (LLMToolUse th tool tool_input))) tools)
      as (m' & Hact & _ & _ & Hev & Hs & _ & Hm); auto.
    { cbn. congruence. }
    rewrite Hact in Hbody. exists m'. split; [exact Hbody|].
    split; [rewrite Hev; eapply parsed_machine_tool_calls; eassumption|].
    split; [rewrite Hs; cbn; now rewrite <- Hsteps|].
    split; [exact Hm|].
    eapply reaches_snoc; eassumption.
  - intros the_tool w4 e Hget Hinvoke.
    rewrite (@act_tool_raises_state W py_str coerce user_turn prompt th tool
               tool_input ObsNone
               (parsed_machine m1 output w3 (Returns (LLMToolUse th tool tool_input)))
               tools the_tool w4 e) in Hbody;
      [|cbn; congruence|exact Hget|exact Hinvoke].
    eexists. split; [exact Hbody|].
    split; [eapply invoke_pass_raises; eassumption|].
    split; [|reflexivity].
    cbn [events]. rewrite tool_calls_app.
    erewrite parsed_machine_tool_calls by eassumption. reflexivity.
Qed.
End PassProperties.

(** C5, as the spec states it, fails: a registered tool whose call raises
    is invoked, and the loop does not continue to the next iteration; the
    exception ends [invoke]. *)
Lemma registered_tool_error_ends_invoke :
  Agent.tools (self Edge.broken_tools) = Some [("search", Edge.broken_search)] /\
  snd (Demo.invoke Demo.question Edge.broken_tools) = Raise Edge.bad_input /\
  events (fst (Demo.invoke Demo.question Edge.broken_tools))
  = [CompletionCall
       [Demo.system; ChatMessage.mk USER Demo.asked] (Returns "Tool: search");
     ParseCall "Tool: search"
       (Returns (LLMToolUse "I should search" "search" (PStr "rocq")));
     ToolCall "search" (PStr "rocq") (Raises Edge.bad_input)].
Proof. repeat split; vm_compute; reflexivity. Qed.

(** ** Null-filled dicts *)

Lemma dict_get_set : forall (V : Type) key key' (value : V) (d : dict V),
  dict_get key (dict_set key' value d)
  = if String.eqb key key' then Some value else dict_get key d.
Proof.
  intros V key key' value d. induction d as [|[k v] d IH]; cbn.
  - reflexivity.
  - destruct (String.eqb key' k) eqn:E'; cbn.
    + apply String.eqb_eq in E'. subst k.
      destruct (String.eqb key key'); reflexivity.
    + destruct (String.eqb key k) eqn:E; [|exact IH].
      apply String.eqb_eq in E. subst k.
      destruct (String.eqb key key') eqn:E''; [|reflexivity].
      apply String.eqb_eq in E''. subst key'. rewrite String.eqb_refl in E'.
      discriminate.
Qed.

Lemma dict_set_new : forall (V : Type) key (value : V) (d : dict V),
  ~ In key (dict_keys d) -> dict_set key value d = (d ++ [(key, value)])%list.
Proof.
  intros V key value d. induction d as [|[k v] d IH]; cbn; intros H.
  - reflexivity.
  - destruct (String.eqb key k) eqn:E.
    + apply String.eqb_eq in E. subst k. tauto.
    + f_equal. apply IH. tauto.
Qed.

Lemma null_filled_from : forall keys (d : dict PyVal) key,
  dict_get key (fold_left (fun d key => dict_set key PNone d) keys d)
  = if existsb (String.eqb key) keys then Some PNone else dict_get key d.
Proof.
  induction keys as [|k keys IH]; intros d key; cbn.
  - reflexivity.
  - rewrite IH, dict_get_set.
    destruct (String.eqb key k); cbn; [|reflexivity].
    now destruct (existsb (String.eqb key) keys).
Qed.

Lemma null_filled_nodup_from : forall keys (d : dict PyVal),
  NoDup keys -> (forall key, In key keys -> ~ In key (dict_keys d)) ->
  fold_left (fun d key => dict_set key PNone d) keys d
  = (d ++ map (fun key => (key, PNone)) keys)%list.
Proof.
  induction keys as [|k keys IH]; intros d Hnd Hfresh; cbn.
  - now rewrite app_nil_r.
  - inversion Hnd as [|? ? Hk Hnd']; subst.
    rewrite dict_set_new by (apply Hfresh; now left).
    rewrite IH; [now rewrite <- app_assoc | assumption |].
    intros key Hin. unfold dict_keys. rewrite map_app, in_app_iff. cbn.
    intros [H|[H|[]]].
    + apply (Hfresh key); [now right | exact H].
    + subst key. contradiction.
Qed.

(** [{key: None for key in keys}] holds [None] under each of the keys and
    nothing else; when the keys are distinct, as the keys of a dict are, it is
    the list of the pairs (key, None) in the order of the keys. *)
Lemma null_filled_get : forall keys key,
  dict_get key (null_filled keys)
  = if existsb (String.eqb key) keys then Some PNone else None.
Proof. intros. unfold null_filled, dict_comprehension. now rewrite null_filled_from. Qed.

Lemma null_filled_nodup : forall keys,
  NoDup keys -> null_filled keys = map (fun key => (key, PNone)) keys.
Proof.
  intros keys H. unfold null_filled, dict_comprehension.
  rewrite null_filled_nodup_from; auto.
Qed.

(** ** Whole calls of [invoke] *)

Section Calls.
Variable W : Type.
Variable encode : string -> outcome (list Z).
Variable py_repr : string -> string.
Variable py_str : PyVal -> string.
Variable str_format : string -> dict PyVal -> outcome string.
Variable coerce : PyVal -> outcome PyVal.
Variable create_model : string -> list string -> outcome unit.
Variable user_turn : string -> list string -> string.

(** A returned chain of thought begins with the prompt step, and the
    returned prompt is the formatted template. *)
Lemma invoke_trace_head : forall args (m : Machine W) out,
  snd (invoke encode py_repr py_str str_format coerce create_model user_turn args m) = Ok out ->
  str_format (Agent.prompt (self m))
    (prompt_arguments (Agent.prompt_variables (self m)) args)
  = Returns (AgentOutput.prompt out) /\
  exists rest,
    AgentOutput.chain_of_thought out
    = ReasoningStep.mk PROMPT (Text (AgentOutput.prompt out)) :: rest.
Proof.
  intros args m out. rewrite invoke_eq, invoke_start_eq.
  destruct (str_format (Agent.prompt (self m))
              (prompt_arguments (Agent.prompt_variables (self m)) args))
    as [prompt|e]; [|discriminate].
  set (ms := mkMachine _ (world m) (events m)).
  destruct (@while_loop_within W encode py_repr py_str coerce user_turn
              (invoke_fuel (Agent.iterations (self m))) prompt 0 ms)
    as (_ & (_ & (added & Hadd) & _) & _ & Hout).
  { unfold invoke_fuel. cbn. rewrite Z.sub_0_r. lia. }
  destruct (while_loop encode py_repr py_str coerce user_turn _ prompt 0 ms)
    as [m' [[out'|]|e|]]; cbn [fst snd] in *; try discriminate.
  - intros H. injection H as <-.
    destruct (Hout out' eq_refl) as (Hp & Hc & _).
    rewrite Hc, Hadd, Hp. cbn. split; [reflexivity | now exists added].
  - rewrite invoke_fallback_eq.
    destruct (fallback_answer _ _) as [fa|e|]; cbn [snd]; try discriminate.
    intros H. injection H as <-. cbn. rewrite Hadd. cbn.
    split; [reflexivity | now exists added].
Qed.

(** When the loop reaches its test with the budget spent, [invoke] goes to
    the statements after the loop. *)
Lemma invoke_exhausted : forall args (m0 ms m : Machine W) prompt iteration,
  invoke_start str_format args m0 = (ms, Ok prompt) ->
  reaches encode py_repr py_str coerce user_turn prompt 0 ms iteration m ->
  Agent.iterations (self m) < iteration ->
  invoke encode py_repr py_str str_format
      coerce create_model user_turn args m0 = invoke_fallback coerce create_model prompt m /\
  Agent.output_parser (self m) = Agent.output_parser (self m0).
Proof.
  intros args m0 ms m prompt iteration Hstart Hreach Hlt.
  destruct (@invoke_start_config W str_format args m0 ms (Ok prompt) Hstart)
    as (Hc & _).
  split.
  - rewrite invoke_eq, Hstart.
    pose proof (f_equal (@Agent.iterations W) Hc) as Hit. cbn in Hit.
    destruct (@reaches_while_loop W encode py_repr
        py_str coerce user_turn prompt 0 ms iteration m
                Hreach (invoke_fuel (Agent.iterations (self m0))))
      as (fuel' & Hfuel' & ->).
    { rewrite Hit. unfold invoke_fuel. rewrite Z.sub_0_r. lia. }
    destruct fuel' as [|fuel']; [lia|].
    now rewrite (@while_loop_leave W encode py_repr py_str coerce user_turn fuel' prompt
                   iteration m Hlt).
  - rewrite (extends_parser
               (@reaches_extends W encode py_repr
                   py_str coerce user_turn prompt 0 ms iteration m
                  Hreach)).
    exact (f_equal (@Agent.output_parser W) Hc).
Qed.

(** A call changes the log by appends and deletions at index 1 only. *)
Lemma invoke_log : forall args (m : Machine W),
  log_evolves (Chat.messages (chat_of m))
    (Chat.messages (chat_of (fst (invoke encode py_repr py_str str_format
        coerce create_model user_turn args m)))).
Proof.
  intros args m. rewrite invoke_eq, invoke_start_eq.
  destruct (str_format _ _) as [prompt|e]; [|apply log_same].
  set (ms := mkMachine _ (world m) (events m)).
  destruct (@while_loop_within W encode py_repr py_str coerce user_turn
              (invoke_fuel (Agent.iterations (self m))) prompt 0 ms)
    as (_ & (_ & _ & Hlog) & _).
  { unfold invoke_fuel. cbn. rewrite Z.sub_0_r. lia. }
  eapply log_then; [apply (log_append _ (ChatMessage.mk USER prompt))|].
  destruct (while_loop encode py_repr py_str coerce user_turn _ prompt 0 ms)
    as [m' [[out'|]|e|]]; cbn [fst snd] in *; try exact Hlog.
  rewrite invoke_fallback_eq.
  destruct (fallback_answer _ _); exact Hlog.
Qed.

Lemma invoke_all_log : forall prompts (m : Machine W),
  log_evolves (Chat.messages (chat_of m))
    (Chat.messages
       (chat_of (invoke_all encode py_repr py_str str_format
           coerce create_model user_turn prompts m))).
Proof.
  induction prompts as [|args prompts IH]; intros m; cbn.
  - apply log_same.
  - eapply log_evolves_trans; [apply (invoke_log args m) | apply IH].
Qed.
End Calls.

(** ** The properties of whole calls *)

Section CallProperties.
Variable W : Type.
Variable encode : string -> outcome (list Z).
Variable py_repr : string -> string.
Variable py_str : PyVal -> string.
Variable str_format : string -> dict PyVal -> outcome string.
Variable coerce : PyVal -> outcome PyVal.
Variable create_model : string -> list string -> outcome unit.
Variable user_turn : string -> list string -> string.

(** C6: when the loop ends with the budget spent and no final answer,
    [invoke] returns the fallback: for a single structured object the dict
    that maps every field name of the schema to [None], for a list of
    structured objects the one-element list of that dict, and [None] for the
    plain output types. *)
Theorem fallback_answer_shape :
  forall args (m0 ms m : Machine W) prompt iteration,
    invoke_start str_format args m0 = (ms, Ok prompt) ->
    reaches encode py_repr py_str coerce user_turn prompt 0 ms iteration m ->
    Agent.iterations (self m) < iteration ->
    match AgentOutputParser.output_type (Agent.output_parser (self m0)) with
    | STRUCT =>
        forall schema,
          AgentOutputParser.object_schema (Agent.output_parser (self m0))
          = Some schema ->
          invoke encode py_repr py_str str_format coerce create_model user_turn args m0
          = (m, Ok (AgentOutput.mk prompt
                      (PDict (null_filled
                                (dict_keys (BaseModelClass.properties schema))))
                      (Chat.chain_of_thought (chat_of m))))
    | ARRAY_STRUCT =>
        forall schema,
          AgentOutputParser.object_schema (Agent.output_parser (self m0))
          = Some schema ->
          invoke encode py_repr py_str str_format coerce create_model user_turn args m0
          = (m, Ok (AgentOutput.mk prompt
                      (PList [PDict (null_filled
                                       (dict_keys (BaseModelClass.properties schema)))])
                      (Chat.chain_of_thought (chat_of m))))
    | OBJECT | ARRAY_OBJECT => True
    | DATE | TIMESTAMP | PLAIN _ =>
        invoke encode py_repr py_str str_format coerce create_model user_turn args m0
        = (m, Ok (AgentOutput.mk prompt PNone (Chat.chain_of_thought (chat_of m))))
    end /\
    (forall keys key,
        dict_get key (null_filled keys)
        = if existsb (String.eqb key) keys then Some PNone else None) /\
    (forall keys,
        NoDup keys -> null_filled keys = map (fun key => (key, PNone)) keys).
Proof.
  intros args m0 ms m prompt iteration Hstart Hreach Hlt.
  destruct (@invoke_exhausted W encode py_repr py_str str_format
      coerce create_model user_turn args m0 ms m
              prompt iteration Hstart Hreach Hlt) as (Hinv & Hparser).
  split; [|split; [apply null_filled_get | apply null_filled_nodup]].
  rewrite Hinv, invoke_fallback_eq, Hparser. unfold fallback_answer.
  destruct (AgentOutputParser.output_type (Agent.output_parser (self m0)));
    try reflexivity; try exact I; intros x Hx; rewrite Hx; reflexivity.
Qed.

(** C9: [invoke] starts by appending the formatted user prompt to the log
    and by replacing the chain of thought and the steps; it resets no
    message, so after any earlier calls the log of the next call holds what
    they left, up to the deletions at index 1 of the trims. *)
Theorem invoke_keeps_earlier_messages :
  forall prompts args (m : Machine W),
    let before := invoke_all encode py_repr py_str str_format
        coerce create_model user_turn prompts m in
    log_evolves (Chat.messages (chat_of m)) (Chat.messages (chat_of before)) /\
    (forall ms prompt,
        invoke_start str_format args before = (ms, Ok prompt) ->
        Chat.messages (chat_of ms)
        = (Chat.messages (chat_of before) ++ [ChatMessage.mk USER prompt])%list /\
        Chat.chain_of_thought (chat_of ms) = [ReasoningStep.mk PROMPT (Text prompt)] /\
        Chat.steps (chat_of ms) = []) /\
    (forall ms e, invoke_start str_format args before = (ms, Raise e) -> ms = before) /\
    log_evolves (Chat.messages (chat_of before))
      (Chat.messages
         (chat_of (fst (invoke encode py_repr py_str str_format
             coerce create_model user_turn args before)))).
Proof.
  intros prompts args m before. split; [apply invoke_all_log|].
  split; [|split; [|apply invoke_log]].
  - intros ms prompt. rewrite invoke_start_eq.
    destruct (str_format _ _) as [p|e]; [|discriminate].
    intros H. injection H as <- <-. repeat split.
  - intros ms e. rewrite invoke_start_eq.
    destruct (str_format _ _) as [p|e']; [discriminate|].
    intros H. now injection H as <- _.
Qed.

(** C7 (amended): a returned chain of thought begins with the prompt step,
    which holds the formatted prompt; at a pass of the loop, a tool-use
    output appends one thought step, followed by one tool step when the named
    tool is registered and answers, and by none otherwise, and never returns;
    a final answer appends a thought step and a final-answer step and appends
    the assistant message with the stringified answer, and then [invoke]
    returns at once with the validated answer, or raises when the validation
    of the [AgentOutput] refuses the answer; the pass returns on a final
    answer only. *)
Theorem chain_of_thought_trace :
  forall args (m0 : Machine W),
    (forall out,
        snd (invoke encode py_repr py_str str_format coerce create_model user_turn
               args m0) = Ok out ->
        str_format (Agent.prompt (self m0))
          (prompt_arguments (Agent.prompt_variables (self m0)) args)
        = Returns (AgentOutput.prompt out) /\
        exists rest,
          AgentOutput.chain_of_thought out
          = ReasoningStep.mk PROMPT (Text (AgentOutput.prompt out)) :: rest) /\
    forall (ms m m1 : Machine W) prompt iteration w2 output w3 parsed_output,
      invoke_start str_format args m0 = (ms, Ok prompt) ->
      reaches encode py_repr py_str coerce user_turn prompt 0 ms iteration m ->
      iteration <= Agent.iterations (self m) ->
      _trim_conversation encode py_repr m = (m1, Ok tt) ->
      OpenAILanguageModel.get_completion (Agent.llm (self m1))
        (Chat.messages (chat_of m1)) (world m1) = (w2, Returns output) ->
      AgentOutputParser.parse (Agent.output_parser (self m1)) output w2
      = (w3, Returns parsed_output) ->
      match parsed_output with
      | LLMToolUse th tool tool_input =>
          exists m' r,
            loop_body encode py_repr py_str coerce user_turn prompt m = (m', r) /\
            (forall out, r <> Ok (Return out)) /\
            Chat.chain_of_thought (chat_of m')
            = (Chat.chain_of_thought (chat_of m)
                 ++ ReasoningStep.mk THOUGHT (Text th)
                 :: tool_steps (Agent.tools (self m)) tool tool_input w3)%list
      | LLMFinalAnswer th final_answer =>
          exists m',
            Chat.chain_of_thought (chat_of m')
            = (Chat.chain_of_thought (chat_of m)
                 ++ [ReasoningStep.mk THOUGHT (Text th);
                     ReasoningStep.mk FINAL_ANSWER (Text (py_str final_answer))])%list /\
            Chat.messages (chat_of m')
            = (Chat.messages (chat_of m1)
                 ++ [ChatMessage.mk ASSISTANT (py_str final_answer)])%list /\
            match validate_final_answer coerce final_answer with
            | Returns validated =>
                loop_body encode py_repr py_str coerce user_turn prompt m
                = (m', Ok (Return
                             (AgentOutput.mk prompt validated
                                (Chat.chain_of_thought (chat_of m'))))) /\
                invoke encode py_repr py_str str_format coerce create_model user_turn
                  args m0
                = (m', Ok (AgentOutput.mk prompt validated
                             (Chat.chain_of_thought (chat_of m'))))
            | Raises e =>
                loop_body encode py_repr py_str coerce user_turn prompt m
                = (m', Raise e) /\
                invoke encode py_repr py_str str_format coerce create_model user_turn
                  args m0
                = (m', Raise e)
            end
      end /\
      (forall m' out,
          loop_body encode py_repr py_str coerce user_turn prompt m
          = (m', Ok (Return out)) ->
          exists th final_answer,
            parsed_output = LLMFinalAnswer th final_answer /\
            validate_final_answer coerce final_answer
            = Returns (AgentOutput.final_answer out)).
Proof.
  intros args m0. split; [intros out Hout; eapply invoke_trace_head; eassumption|].
  intros ms m m1 prompt iteration w2 output w3 parsed_output
    Hstart Hreach Hle Htrim Hllm Hparse.
  pose proof (@loop_body_parsed W encode py_repr
      py_str coerce user_turn prompt m m1 w2 output w3 _
                Htrim Hllm Hparse) as Hbody.
  cbv beta iota in Hbody.
  destruct (@trim_conversation_frame W encode py_repr m m1 (Ok tt) Htrim)
    as (_ & _ & _ & Hcot & Hsteps & Ht).
  split.
  - destruct parsed_output as [th tool tool_input|th final_answer].
    + set (m3 := parsed_machine m1 output w3 _) in *.
      assert (Htools : Agent.tools (self m3) = Agent.tools (self m))
        by (cbn; exact Ht).
      assert (Hcot3 : Chat.chain_of_thought (chat_of m3)
                      = Chat.chain_of_thought (chat_of m)) by exact Hcot.
      unfold tool_steps.
      destruct (Agent.tools (self m)) as [tools|] eqn:Etools.
      * destruct (dict_get tool tools) as [the_tool|] eqn:Eget.
        -- destruct (Tool.invoke the_tool tool_input w3) as [w4 [resp|e]] eqn:Einv.
           ++ destruct (@act_tool_found W py_str coerce user_turn prompt th tool tool_input
                          ObsNone m3 tools the_tool w4 resp Htools Eget Einv)
                as (m' & Hact & _ & _ & _ & _ & Hc & _).
              exists m', (Ok Next). rewrite Hbody, Hact.
              split; [reflexivity|]. split; [discriminate|].
              cbn [snd]. now rewrite Hc, Hcot3.
           ++ destruct (@act_tool_raises W py_str coerce user_turn prompt th tool tool_input
                          ObsNone m3 tools the_tool w4 e Htools Eget Einv)
                as (m' & Hact & Hc).
              exists m', (Raise e). rewrite Hbody, Hact.
              split; [reflexivity|]. split; [discriminate|].
              cbn [snd]. now rewrite Hc, Hcot3.
        -- destruct (@act_tool_missing W py_str coerce user_turn prompt th tool tool_input
                       ObsNone m3 tools Htools Eget)
             as (m' & Hact & _ & _ & _ & _ & Hc & _).
           exists m', (Ok Next). rewrite Hbody, Hact.
           split; [reflexivity|]. split; [discriminate|].
           now rewrite Hc, Hcot3.
      * destruct (@act_no_tools W py_str coerce user_turn prompt th tool tool_input
                    ObsNone m3 Htools)
          as (m' & Hact & _ & _ & _ & _ & Hc & _).
        exists m', (Ok Next). rewrite Hbody, Hact.
        split; [reflexivity|]. split; [discriminate|].
        now rewrite Hc, Hcot3.
    + rewrite act_final_answer in Hbody.
      eexists. split; [|split; [|
        destruct (validate_final_answer coerce final_answer) as [validated|e];
        (split; [exact Hbody|]);
        [eapply invoke_pass_returns | eapply invoke_pass_raises]; eassumption]].
      * cbn. rewrite <- app_assoc, <- Hcot. reflexivity.
      * reflexivity.
  - intros m' out H. rewrite Hbody in H.
    apply act_return in H. destruct H as (_ & _ & _ & th & fa & Hth & Hv).
    exists th, fa. split; [now injection Hth | exact Hv].
Qed.
End CallProperties.

(** C7, as the spec states it, fails: the parser gives a tool-use output that
    names a tool that is not registered, and the chain of thought gets the
    thought step with no tool step after it. *)
Lemma unknown_tool_records_no_tool_step :
  nth_error
    (events (fst (Demo.invoke Demo.question
                    (Demo.machine ["Tool: browse"] Demo.tools (PLAIN "string") 10))))
    1
  = Some (ParseCall "Tool: browse"
            (Returns (LLMToolUse "I should browse" "browse" (PStr "rocq")))) /\
  snd (Demo.invoke Demo.question
         (Demo.machine ["Tool: browse"] Demo.tools (PLAIN "string") 10))
  = Ok (AgentOutput.mk Demo.asked (PStr "42")
          [ReasoningStep.mk PROMPT (Text Demo.asked);
           ReasoningStep.mk THOUGHT (Text "I should browse");
           ReasoningStep.mk THOUGHT (Text "I know the answer");
           ReasoningStep.mk FINAL_ANSWER (Text "42")]).
Proof. split; vm_compute; reflexivity. Qed.

(** ** Construction *)

Section CreateProperties.
Variable W : Type.
Variable INSTRUCTIONS_WITHOUT_TOOLS : string.
Variable INSTRUCTIONS_WITH_TOOLS : string.
Variable FINAL_ANSWER_INSTRUCTIONS : OutputType -> outcome string.
Variable format_template : string -> dict PyVal -> string.
Variable tool_str : Tool.t W -> string.
Variable output_type_str : OutputType -> string.
Variable get_example_from_schema : dict PyVal -> outcome PyVal.
Variable new_parser :
  OutputType -> option OutputSchema -> bool -> outcome (AgentOutputParser.t W).

(** C8: a construction that asks for an object-like output type with no
    output schema raises a [ValueError] and gives no agent. *)
Theorem create_requires_schema :
  forall llm system_prompt prompt prompt_variables output_type tools
         prompting_strategy iterations,
    output_type = OBJECT \/ output_type = ARRAY_OBJECT ->
    create INSTRUCTIONS_WITHOUT_TOOLS INSTRUCTIONS_WITH_TOOLS
      FINAL_ANSWER_INSTRUCTIONS format_template tool_str output_type_str
      get_example_from_schema new_parser llm system_prompt prompt
      prompt_variables output_type None tools prompting_strategy iterations
    = Raise (schema_required output_type_str output_type) /\
    exc_kind (schema_required output_type_str output_type) = ValueError.
Proof.
  intros llm system_prompt prompt prompt_variables output_type tools
    prompting_strategy iterations [-> | ->];
    (split; [|reflexivity]); unfold create; destruct tools; reflexivity.
Qed.
End CreateProperties.

Lemma create_requires_schema_witness :
  demo_create OBJECT None (Some [Demo.search])
  = Raise (mkException ValueError
             "When using OutputType.OBJECT as the output type a schema must be provided.").
Proof.
  unfold demo_create.
  refine (proj1 (create_requires_schema _ _ _ _ _ _ _ _ _ _ _ _ (output_type := OBJECT)
                   _ _ _ _)).
  left. reflexivity.
Defined.

(** ** The properties on the small agent *)

Example fallback_two_fields :
  null_filled ["a"; "b"] = [("a", PNone); ("b", PNone)].
Proof. reflexivity. Qed.

Lemma parse_errors_caught_exactly_witness :
  exists m',
    Demo.loop_body Demo.asked
      (Demo.started (Demo.machine ["garbage"] Demo.tools (PLAIN "string") 10))
    = (m', Ok Next) /\
    Chat.steps (chat_of m') = ["Observation: Invalid output format"].
Proof.
  destruct (@parse_errors_caught_exactly nat Demo.encode Demo.py_repr Demo.py_str
              Demo.str_format Demo.coerce Demo.create_model
              Demo.user_turn Demo.question
              (Demo.machine ["garbage"] Demo.tools (PLAIN "string") 10)
              (Demo.started (Demo.machine ["garbage"] Demo.tools (PLAIN "string") 10))
              (Demo.started (Demo.machine ["garbage"] Demo.tools (PLAIN "string") 10))
              (Demo.trimmed
                 (Demo.started (Demo.machine ["garbage"] Demo.tools (PLAIN "string") 10)))
              Demo.asked 0 1%nat "garbage" 1%nat
              (mkException ValueError "Invalid output format"))
    as (Hcaught & _).
  - vm_compute. reflexivity.
  - apply reaches_here.
  - vm_compute. discriminate.
  - vm_compute. reflexivity.
  - vm_compute. reflexivity.
  - vm_compute. reflexivity.
  - destruct (Hcaught (or_introl eq_refl)) as (m' & Hbody & _ & Hsteps & _).
    exists m'. split; [exact Hbody | exact Hsteps].
Defined.

Lemma tool_dispatch_observation_witness :
  exists m',
    Demo.loop_body Demo.asked
      (Demo.started (Demo.machine ["Tool: search"] Demo.tools (PLAIN "string") 10))
    = (m', Ok Next) /\
    Chat.steps (chat_of m')
    = ["Thought: I should search"; "Tool: search"; "Tool Input: rocq";
       ("Observation: Tool Response:" ++ newline ++ "3 results")%string].
Proof.
  destruct (@tool_dispatch_observation nat Demo.encode Demo.py_repr Demo.py_str Demo.str_format
      Demo.coerce Demo.create_model
              Demo.user_turn Demo.question
              (Demo.machine ["Tool: search"] Demo.tools (PLAIN "string") 10)
              (Demo.started (Demo.machine ["Tool: search"] Demo.tools (PLAIN "string") 10))
              (Demo.started (Demo.machine ["Tool: search"] Demo.tools (PLAIN "string") 10))
              (Demo.trimmed
                 (Demo.started
                    (Demo.machine ["Tool: search"] Demo.tools (PLAIN "string") 10)))
              Demo.asked 0 1%nat "Tool: search" 1%nat
              "I should search" "search" (PStr "rocq")
              [("search", Demo.search); ("calculator", Demo.calculator)])
    as (Hfound & _ & _).
  - vm_compute. reflexivity.
  - apply reaches_here.
  - vm_compute. discriminate.
  - vm_compute. reflexivity.
  - vm_compute. reflexivity.
  - vm_compute. reflexivity.
  - reflexivity.
  - destruct (Hfound Demo.search 1%nat "3 results" eq_refl eq_refl)
      as (m' & Hbody & _ & Hsteps & _).
    exists m'. split; [exact Hbody | exact Hsteps].
Defined.


Lemma chain_of_thought_trace_witness :
  exists m',
    Demo.invoke Demo.question (Demo.machine [] Demo.tools (PLAIN "string") 10)
    = (m', Ok (AgentOutput.mk Demo.asked (PStr "42")
                 (Chat.chain_of_thought (chat_of m')))) /\
    Chat.chain_of_thought (chat_of m')
    = [ReasoningStep.mk PROMPT (Text Demo.asked);
       ReasoningStep.mk THOUGHT (Text "I know the answer");
       ReasoningStep.mk FINAL_ANSWER (Text "42")].
Proof.
  destruct (proj2 (@chain_of_thought_trace nat Demo.encode Demo.py_repr Demo.py_str
                     Demo.str_format Demo.coerce Demo.create_model
                     Demo.user_turn Demo.question
                     (Demo.machine [] Demo.tools (PLAIN "string") 10))
              (Demo.started (Demo.machine [] Demo.tools (PLAIN "string") 10))
              (Demo.started (Demo.machine [] Demo.tools (PLAIN "string") 10))
              (Demo.trimmed
                 (Demo.started (Demo.machine [] Demo.tools (PLAIN "string") 10)))
              Demo.asked 0 1%nat "Final Answer: 42" 1%nat
              (LLMFinalAnswer "I know the answer" (PStr "42")))
    as ((m' & Hcot & _ & _ & Hinvoke) & _).
  - vm_compute. reflexivity.
  - apply reaches_here.
  - vm_compute. discriminate.
  - vm_compute. reflexivity.
  - vm_compute. reflexivity.
  - vm_compute. reflexivity.
  - exists m'. split; [exact Hinvoke | exact Hcot].
Defined.

(** A final answer that is of none of the types of the field [final_answer]
    is recorded and then refused when the [AgentOutput] is built: [invoke]
    raises the validation error. *)
Example final_answer_refused_by_validation :
  exists m',
    Demo.invoke Demo.question
      (Demo.machine ["Final Answer: mixed"] Demo.tools (PLAIN "string") 10)
    = (m', Raise Demo.validation_error) /\
    Chat.chain_of_thought (chat_of m')
    = [ReasoningStep.mk PROMPT (Text Demo.asked);
       ReasoningStep.mk THOUGHT (Text "I have two answers");
       ReasoningStep.mk FINAL_ANSWER (Text "...")].
Proof. eexists. split; vm_compute; reflexivity. Qed.

Lemma fallback_answer_shape_witness :
  snd (Demo.invoke Demo.question (Demo.machine ["garbage"] Demo.tools STRUCT 0))
  = Ok (AgentOutput.mk Demo.asked (PDict [("a", PNone); ("b", PNone)])
          [ReasoningStep.mk PROMPT (Text Demo.asked)]).
Proof.
  destruct (@fallback_answer_shape nat Demo.encode Demo.py_repr Demo.py_str Demo.str_format
      Demo.coerce Demo.create_model
              Demo.user_turn Demo.question
              (Demo.machine ["garbage"] Demo.tools STRUCT 0)
              (Demo.started (Demo.machine ["garbage"] Demo.tools STRUCT 0))
              (Demo.passed (Demo.started (Demo.machine ["garbage"] Demo.tools STRUCT 0)))
              Demo.asked 1)
    as (Hshape & _).
  - vm_compute. reflexivity.
  - eapply reaches_next; [| |apply reaches_here].
    + vm_compute. discriminate.
    + vm_compute. reflexivity.
  - vm_compute. reflexivity.
  - unfold Demo.invoke. rewrite (Hshape Demo.schema eq_refl). reflexivity.
Defined.

(** The scenarios of the spec: a parser that fails once and then gives a final
    answer, and a model that is never parsable with one iteration allowed. *)
Example parse_failure_then_final_answer :
  snd (Demo.invoke Demo.question
         (Demo.machine ["garbage"] Demo.tools (PLAIN "string") 10))
  = Ok (AgentOutput.mk Demo.asked (PStr "42")
          [ReasoningStep.mk PROMPT (Text Demo.asked);
           ReasoningStep.mk THOUGHT (Text "I know the answer");
           ReasoningStep.mk FINAL_ANSWER (Text "42")]).
Proof. vm_compute. reflexivity. Qed.

Example never_parsable_with_one_iteration :
  snd (Demo.invoke Demo.question
         (Demo.machine ["garbage"; "garbage"; "garbage"] Demo.tools ARRAY_STRUCT 1))
  = Ok (AgentOutput.mk Demo.asked (PList [PDict [("a", PNone); ("b", PNone)]])
          [ReasoningStep.mk PROMPT (Text Demo.asked)]) /\
  completion_calls
    (events (fst (Demo.invoke Demo.question
                    (Demo.machine ["garbage"; "garbage"; "garbage"] Demo.tools
                       ARRAY_STRUCT 1))))
  = 2%nat.
Proof. split; vm_compute; reflexivity. Qed.

(** * Further properties of the code *)

(** ** Token counting *)

Section TokenCount.
Variable encode : string -> outcome (list Z).

Lemma count_items_closed : forall items n,
  count_items encode items n
  = match first_refusal encode (map snd items) with
    | None => Ok (n + total (map (item_tokens encode) items))
    | Some e => Raise e
    end.
Proof.
  induction items as [|[key value] items IH]; intros n;
    cbn [count_items map first_refusal total fold_right snd].
  - f_equal. lia.
  - unfold item_tokens at 1, tokens_of. cbn [fst snd].
    destruct (encode value) as [tokens|e]; [|reflexivity].
    rewrite IH. destruct (first_refusal encode (map snd items)); [reflexivity|].
    f_equal. unfold total. destruct (String.eqb key "name"); lia.
Qed.

(** X1: The inner loop of [num_tokens_from_messages] adds, for each item, the
    tokens of its value, and one token less for an item under the key
    "name", whatever the items are and in whatever order; when the encoder
    refuses a value, the error of the first value refused leaves the loop. *)
Theorem count_items_total : forall items n,
  count_items encode items n
  = match first_refusal encode (map snd items) with
    | None => Ok (n + total (map (item_tokens encode) items))
    | Some e => Raise e
    end.
Proof. exact count_items_closed. Qed.

Lemma first_refusal_app : forall values values',
  first_refusal encode (values ++ values')
  = match first_refusal encode values with
    | Some e => Some e
    | None => first_refusal encode values'
    end.
Proof.
  induction values as [|value values IH]; intros values'; cbn [app first_refusal].
  - reflexivity.
  - destruct (encode value); [apply IH | reflexivity].
Qed.

Lemma count_messages_closed : forall messages n,
  count_messages encode messages n
  = match first_refusal encode (flat_map dumped_values messages) with
    | None => Ok (n + total (map (message_tokens encode) messages))
    | Some e => Raise e
    end.
Proof.
  induction messages as [|message messages IH]; intros n;
    cbn [count_messages flat_map map total fold_right].
  - cbn. f_equal. lia.
  - rewrite count_items_closed, first_refusal_app.
    fold (dumped_values message).
    destruct (first_refusal encode (dumped_values message)); [reflexivity|].
    rewrite IH.
    destruct (first_refusal encode (flat_map dumped_values messages));
      [reflexivity|].
    f_equal. unfold message_tokens, item_tokens, total, ChatMessage.model_dump.
    cbn [map fold_right fst snd].
    change (String.eqb "role" "name") with false.
    change (String.eqb "content" "name") with false.
    cbv beta iota. lia.
Qed.

Lemma num_tokens_closed : forall messages,
  num_tokens_from_messages encode messages
  = match first_refusal encode (flat_map dumped_values messages) with
    | None => Ok (2 + total (map (message_tokens encode) messages))
    | Some e => Raise e
    end.
Proof.
  intros messages. unfold num_tokens_from_messages.
  rewrite count_messages_closed.
  destruct (first_refusal encode (flat_map dumped_values messages));
    [reflexivity|]. f_equal. lia.
Qed.

Lemma total_app : forall zs zs', total (zs ++ zs') = total zs + total zs'.
Proof.
  unfold total. induction zs as [|z zs IH]; intros zs'; cbn [app fold_right].
  - reflexivity.
  - rewrite IH. lia.
Qed.

(** X2: The count of a log is 2 plus, for each message, 4 and the tokens of its
    role and content, or the error of the first role or content that the
    encoder refuses; so the count of two logs put together is the sum of
    their counts less 2, and a log of n messages counts at least 4n + 2: the
    empty log counts 2. *)
Theorem num_tokens_closed_form : forall messages messages',
  num_tokens_from_messages encode messages
  = match first_refusal encode (flat_map dumped_values messages) with
    | None => Ok (2 + total (map (message_tokens encode) messages))
    | Some e => Raise e
    end /\
  (forall n n',
      num_tokens_from_messages encode messages = Ok n ->
      num_tokens_from_messages encode messages' = Ok n' ->
      num_tokens_from_messages encode (messages ++ messages') = Ok (n + n' - 2)) /\
  (forall n,
      num_tokens_from_messages encode messages = Ok n ->
      4 * Z.of_nat (List.length messages) + 2 <= n) /\
  num_tokens_from_messages encode [] = Ok 2.
Proof.
  intros messages messages'.
  split; [apply num_tokens_closed|]. split; [|split; [|reflexivity]].
  - intros n n'. rewrite !num_tokens_closed, flat_map_app, first_refusal_app.
    destruct (first_refusal encode (flat_map dumped_values messages));
      [discriminate|].
    destruct (first_refusal encode (flat_map dumped_values messages'));
      [discriminate|].
    intros H H'.
    assert (Hn : n = 2 + total (map (message_tokens encode) messages))
      by congruence.
    assert (Hn' : n' = 2 + total (map (message_tokens encode) messages'))
      by congruence.
    subst n n'. rewrite map_app, total_app. f_equal. lia.
  - intros n. rewrite num_tokens_closed.
    destruct (first_refusal encode (flat_map dumped_values messages));
      [discriminate|].
    intros Hn.
    assert (Hn' : n = 2 + total (map (message_tokens encode) messages))
      by congruence.
    subst n. clear Hn.
    assert (H : 4 * Z.of_nat (List.length messages)
                <= total (map (message_tokens encode) messages)).
    { clear messages'. induction messages as [|message messages IH].
      - cbn. lia.
      - cbn [List.length map total fold_right].
        pose proof (message_tokens_lower encode message). unfold total in IH.
        lia. }
    lia.
Qed.
End TokenCount.

(** ** Trimming: when it succeeds, how much it removes *)

Section TrimMore.
Variable encode : string -> outcome (list Z).
Variable py_repr : string -> string.

Lemma over_budget_known : forall model max_tokens messages messages' b,
  over_budget encode model max_tokens messages = Some b ->
  encodable encode messages' = true ->
  exists b', over_budget encode model max_tokens messages' = Some b'.
Proof.
  unfold over_budget. intros model max_tokens messages messages' b H He.
  rewrite (num_tokens_ok _ _ He).
  destruct (num_tokens_from_messages encode messages); try discriminate.
  destruct (dict_get model _MODEL_TOKEN_LIMIT); [eauto | discriminate].
Qed.

Lemma over_budget_counted : forall model max_tokens messages b,
  over_budget encode model max_tokens messages = Some b ->
  exists num_tokens limit,
    num_tokens_from_messages encode messages = Ok num_tokens /\
    dict_get model _MODEL_TOKEN_LIMIT = Some limit /\
    (num_tokens + max_tokens >=? limit) = b.
Proof.
  unfold over_budget. intros model max_tokens messages b H.
  destruct (num_tokens_from_messages encode messages) as [n|e|]; try discriminate.
  destruct (dict_get model _MODEL_TOKEN_LIMIT) as [limit|]; [|discriminate].
  injection H as H. eauto.
Qed.

Lemma encodable_tail : forall system y rest,
  encodable encode (system :: y :: rest) = true ->
  encodable encode (system :: rest) = true.
Proof.
  intros system y rest H. eapply encodable_del; [apply list_del_second | exact H].
Qed.

Lemma encodable_head : forall system rest,
  encodable encode (system :: rest) = true -> encodable encode [system] = true.
Proof.
  intros system rest H. cbn [encodable forallb] in *.
  apply andb_prop in H as [-> _]. reflexivity.
Qed.

Lemma trim_loop_fits : forall rest fuel model max_tokens system num_tokens,
  (List.length rest < fuel)%nat ->
  num_tokens_from_messages encode (system :: rest) = Ok num_tokens ->
  over_budget encode model max_tokens [system] = Some false ->
  snd (trim_loop encode py_repr fuel model max_tokens (system :: rest) num_tokens)
  = Ok tt.
Proof.
  induction rest as [|y rest IH]; intros fuel model max_tokens system n Hlen Hn Hfit;
    (destruct fuel as [|fuel]; [simpl in Hlen; lia|]); cbn [trim_loop].
  - destruct (over_budget_counted _ _ _ Hfit) as (n' & limit & Hn' & -> & Hb).
    rewrite Hn in Hn'. injection Hn' as <-. rewrite Hb. reflexivity.
  - destruct (over_budget_counted _ _ _ Hfit) as (n' & limit & _ & -> & _).
    destruct (n + max_tokens >=? limit); [|reflexivity].
    rewrite list_del_second.
    pose proof (encodable_tail _ _ _ (proj1 (num_tokens_inv _ _ Hn))) as He.
    rewrite (num_tokens_ok _ _ He).
    apply IH; [simpl in Hlen; lia | now apply num_tokens_ok | exact Hfit].
Qed.

(** X3: [_trim_conversation] returns exactly when the encoder accepts every
    message of the log and the system message alone is under the limit of the
    model: among the logs that can be counted, none behind a system message
    that fits makes the trim fail, and none makes it succeed behind one that
    does not. *)
Theorem trim_succeeds_iff_system_fits : forall model max_tokens system rest,
  snd (trim encode py_repr model max_tokens (system :: rest)) = Ok tt
  <-> encodable encode (system :: rest) = true /\
      over_budget encode model max_tokens [system] = Some false.
Proof.
  intros model max_tokens system rest. split.
  - intros Hok.
    assert (He : encodable encode (system :: rest) = true).
    { unfold trim in Hok.
      destruct (num_tokens_from_messages encode (system :: rest)) as [n|e|] eqn:Hn;
        try discriminate.
      exact (proj1 (num_tokens_inv _ _ Hn)). }
    split; [exact He|].
    destruct (trim_run encode py_repr model max_tokens (system :: rest))
      as (k & _ & _ & Hfit).
    specialize (Hfit Hok).
    destruct (over_budget_known _ _ _ [system] Hfit (encodable_head _ _ He))
      as ([|] & Hb); [|exact Hb].
    rewrite (trim_oversized _ py_repr _ _ _ _ He Hb) in Hok. discriminate.
  - intros [He Hfit]. unfold trim. rewrite (num_tokens_ok _ _ He).
    apply trim_loop_fits; [simpl; lia | now apply num_tokens_ok | exact Hfit].
Qed.

Lemma trim_loop_minimal : forall rest fuel model max_tokens system num_tokens messages',
  num_tokens_from_messages encode (system :: rest) = Ok num_tokens ->
  trim_loop encode py_repr fuel model max_tokens (system :: rest) num_tokens
  = (messages', Ok tt) ->
  exists k,
    (k <= List.length rest)%nat /\
    messages' = system :: skipn k rest /\
    forall j, (j < k)%nat ->
      over_budget encode model max_tokens (system :: skipn j rest) = Some true.
Proof.
  induction rest as [|y rest IH]; intros fuel model max_tokens system n messages' Hn H;
    (destruct fuel as [|fuel]; [discriminate|]); cbn [trim_loop] in H.
  - destruct (dict_get model _MODEL_TOKEN_LIMIT) as [limit|]; [|discriminate].
    destruct (n + max_tokens >=? limit); [discriminate|].
    injection H as <-. exists O. split; [simpl; lia|]. split; [reflexivity|].
    intros; lia.
  - destruct (dict_get model _MODEL_TOKEN_LIMIT) as [limit|] eqn:Hlimit;
      [|discriminate].
    destruct (n + max_tokens >=? limit) eqn:Hover.
    + rewrite list_del_second in H.
      destruct (num_tokens_from_messages encode (system :: rest)) as [n'|e|] eqn:Hn';
        try discriminate.
      destruct (IH _ _ _ _ _ _ Hn' H) as (k & Hk & Hm & Hj).
      exists (S k). split; [simpl; lia|]. split; [exact Hm|].
      intros [|j] Hlt; [|cbn [skipn]; apply Hj; lia].
      cbn [skipn]. unfold over_budget. now rewrite Hn, Hlimit, Hover.
    + injection H as <-. exists O. split; [simpl; lia|]. split; [reflexivity|].
      intros; lia.
Qed.

(** X4: When [_trim_conversation] returns, it has removed the fewest messages
    that does: the log is the system message and what is left of the others
    after dropping the k oldest, and dropping fewer than k left the log over
    the limit. *)
Theorem trim_removes_fewest : forall model max_tokens system rest messages',
  trim encode py_repr model max_tokens (system :: rest) = (messages', Ok tt) ->
  exists k,
    (k <= List.length rest)%nat /\
    messages' = system :: skipn k rest /\
    forall j, (j < k)%nat ->
      over_budget encode model max_tokens (system :: skipn j rest) = Some true.
Proof.
  intros model max_tokens system rest messages'. unfold trim.
  destruct (num_tokens_from_messages encode (system :: rest)) as [n|e|] eqn:Hn;
    try discriminate.
  now apply trim_loop_minimal.
Qed.

(** X5: A log that [_trim_conversation] has returned is left as it is by a
    second trim, which returns too. *)
Theorem trim_idempotent : forall model max_tokens messages messages',
  trim encode py_repr model max_tokens messages = (messages', Ok tt) ->
  trim encode py_repr model max_tokens messages' = (messages', Ok tt).
Proof.
  intros model max_tokens messages messages' H.
  destruct (trim_run encode py_repr model max_tokens messages) as (_ & _ & _ & Hfit).
  rewrite H in Hfit. cbn [fst snd] in Hfit. specialize (Hfit eq_refl).
  destruct (over_budget_counted _ _ _ Hfit) as (n & limit & Hn & Hlimit & Hb).
  unfold trim. rewrite Hn. cbn [trim_loop]. rewrite Hlimit, Hb. reflexivity.
Qed.
End TrimMore.

Lemma trim_removes_fewest_witness :
  exists k,
    (k <= 2)%nat /\
    [Demo.system; ChatMessage.mk ASSISTANT "first answer"]
    = Demo.system
        :: skipn k [ChatMessage.mk USER "first question";
                    ChatMessage.mk ASSISTANT "first answer"] /\
    forall j, (j < k)%nat ->
      over_budget Demo.encode "gpt-35-turbo" 4030
        (Demo.system
           :: skipn j [ChatMessage.mk USER "first question";
                       ChatMessage.mk ASSISTANT "first answer"])
      = Some true.
Proof.
  apply (@trim_removes_fewest Demo.encode Demo.py_repr "gpt-35-turbo" 4030 Demo.system
           [ChatMessage.mk USER "first question";
            ChatMessage.mk ASSISTANT "first answer"]).
  vm_compute. reflexivity.
Defined.

Lemma trim_idempotent_witness :
  trim Demo.encode Demo.py_repr "gpt-35-turbo" 4030
    [Demo.system; ChatMessage.mk ASSISTANT "first answer"]
  = ([Demo.system; ChatMessage.mk ASSISTANT "first answer"], Ok tt).
Proof.
  apply (@trim_idempotent Demo.encode Demo.py_repr "gpt-35-turbo" 4030
           [Demo.system; ChatMessage.mk USER "first question";
            ChatMessage.mk ASSISTANT "first answer"]).
  vm_compute. reflexivity.
Defined.

(** ** Edges of [_parse_output] and of the start of [invoke] *)

Lemma dict_comprehension_by_key : forall (V : Type) (f : string -> V) keys (d : dict V) key,
  dict_get key (fold_left (fun d key => dict_set key (f key) d) keys d)
  = if existsb (String.eqb key) keys then Some (f key) else dict_get key d.
Proof.
  intros V f. induction keys as [|k keys IH]; intros d key; cbn.
  - reflexivity.
  - rewrite IH, dict_get_set.
    destruct (String.eqb key k) eqn:E; cbn; [|reflexivity].
    apply String.eqb_eq in E. subst k.
    now destruct (existsb (String.eqb key) keys).
Qed.

(** X6: The arguments that [invoke] formats the prompt with: every declared
    prompt variable is there, with the caller's value or with [None] when the
    caller gave none, and a key of the caller that is not a declared variable
    is dropped. *)
Theorem prompt_arguments_lookup : forall variables prompt key,
  dict_get key (prompt_arguments variables prompt)
  = if existsb (String.eqb key) variables
    then Some (match dict_get key prompt with
               | Some value => value
               | None => PNone
               end)
    else None.
Proof.
  intros variables prompt key. unfold prompt_arguments, dict_comprehension.
  now rewrite (dict_comprehension_by_key
                 (fun variable => match dict_get variable prompt with
                                  | Some value => value
                                  | None => PNone
                                  end)).
Qed.

Section StartEdges.
Variable W : Type.
Variable encode : string -> outcome (list Z).
Variable py_repr : string -> string.
Variable py_str : PyVal -> string.
Variable str_format : string -> dict PyVal -> outcome string.
Variable coerce : PyVal -> outcome PyVal.
Variable create_model : string -> list string -> outcome unit.
Variable user_turn : string -> list string -> string.

(** X7: [_parse_output] gives a parsed output with no observation, or no output
    with the caught error as the observation, never both and never neither;
    it calls the parser once and nothing else; and what it raises is never a
    [ValueError] or a [TypeError]. *)
Theorem parse_output_exclusive : forall output (m : Machine W),
  (forall parsed observation,
      snd (_parse_output output m) = Ok (parsed, observation) ->
      (exists parsed_output, parsed = Some parsed_output /\ observation = ObsNone) \/
      (exists error, parsed = None /\ observation = ObsError error /\
                     (exc_kind error = ValueError \/ exc_kind error = TypeError))) /\
  (forall error,
      snd (_parse_output output m) = Raise error ->
      exc_kind error <> ValueError /\ exc_kind error <> TypeError) /\
  self (fst (_parse_output output m)) = self m /\
  exists answer,
    events (fst (_parse_output output m)) = (events m ++ [ParseCall output answer])%list.
Proof.
  intros output m. unfold _parse_output, call.
  destruct (AgentOutputParser.parse _ output (world m)) as [w [parsed_output|error]];
    cbn [lift].
  - cbn [fst snd self events]. split; [|split; [discriminate|split; eauto]].
    intros parsed observation H. injection H as <- <-. left. eauto.
  - destruct (caught error) eqn:E; cbn [fst snd self events].
    + split; [|split; [discriminate|split; eauto]].
      intros parsed observation H. injection H as <- <-. right.
      exists error. repeat split. now apply caught_kinds.
    + split; [discriminate|]. split; [|split; eauto].
      intros error' H. injection H as <-.
      split; intros Hk;
        assert (caught error = true) by (apply caught_kinds; auto); congruence.
Qed.

(** X8: When formatting the prompt raises, [invoke] raises that error and has
    changed nothing: no message appended, no call made. *)
Theorem invoke_format_error : forall args (m : Machine W) e,
  str_format (Agent.prompt (self m))
    (prompt_arguments (Agent.prompt_variables (self m)) args) = Raises e ->
  invoke encode py_repr py_str str_format coerce create_model user_turn args m = (m, Raise e).
Proof.
  intros args m e H. rewrite invoke_eq, invoke_start_eq, H. reflexivity.
Qed.

(** X9: With a negative [iterations] the loop is not entered: [invoke] calls no
    collaborator, not even for a model that is unknown, and gives the
    fallback with the prompt step alone; the user prompt has been appended to
    the log all the same. *)
Theorem invoke_negative_iterations : forall args (m : Machine W) prompt,
  Agent.iterations (self m) < 0 ->
  str_format (Agent.prompt (self m))
    (prompt_arguments (Agent.prompt_variables (self m)) args) = Returns prompt ->
  invoke encode py_repr py_str str_format coerce create_model user_turn args m
  = (mkMachine
       (Agent.set_chat (self m)
          (Chat.mk (Chat.messages (chat_of m) ++ [ChatMessage.mk USER prompt])
             [ReasoningStep.mk PROMPT (Text prompt)] []))
       (world m) (events m),
     match fallback_answer create_model (Agent.output_parser (self m)) with
     | Ok final_answer =>
         Ok (AgentOutput.mk prompt final_answer [ReasoningStep.mk PROMPT (Text prompt)])
     | Raise e => Raise e
     | Diverge => Diverge
     end).
Proof.
  intros args m prompt Hneg Hformat.
  rewrite invoke_eq, invoke_start_eq, Hformat.
  unfold invoke_fuel. cbn [while_loop].
  unfold bind at 1, get_self. cbn [self Agent.iterations Agent.set_chat].
  apply Z.leb_gt in Hneg. rewrite Hneg. cbn [ret].
  rewrite invoke_fallback_eq. cbn [self Agent.output_parser Agent.set_chat].
  destruct (fallback_answer create_model (Agent.output_parser (self m))); reflexivity.
Qed.

Lemma trim_unknown_model : forall model max_tokens messages,
  dict_get model _MODEL_TOKEN_LIMIT = None ->
  trim encode py_repr model max_tokens messages
  = (messages,
     match num_tokens_from_messages encode messages with
     | Ok _ => Raise (key_error py_repr model)
     | Raise e => Raise e
     | Diverge => Diverge
     end).
Proof.
  intros model max_tokens messages H. unfold trim.
  destruct (num_tokens_from_messages encode messages); try reflexivity.
  cbn [trim_loop]. rewrite H. reflexivity.
Qed.

(** X10: With a model that is not in the table of token limits and a loop that is
    entered, the first trim counts the tokens of the log and then fails on
    the lookup of the limit: [invoke] raises the [KeyError] of the lookup, or
    the error of the encoder when the log cannot be counted; no collaborator
    has been called, and the user prompt stays appended to the log. *)
Theorem invoke_unknown_model : forall args (m : Machine W) prompt,
  dict_get (OpenAILanguageModel.model (Agent.llm (self m))) _MODEL_TOKEN_LIMIT = None ->
  0 <= Agent.iterations (self m) ->
  str_format (Agent.prompt (self m))
    (prompt_arguments (Agent.prompt_variables (self m)) args) = Returns prompt ->
  invoke encode py_repr py_str str_format coerce create_model user_turn args m
  = (mkMachine
       (Agent.set_chat (self m)
          (Chat.mk (Chat.messages (chat_of m) ++ [ChatMessage.mk USER prompt])
             [ReasoningStep.mk PROMPT (Text prompt)] []))
       (world m) (events m),
     match num_tokens_from_messages encode
             (Chat.messages (chat_of m) ++ [ChatMessage.mk USER prompt]) with
     | Ok _ =>
         Raise (key_error py_repr (OpenAILanguageModel.model (Agent.llm (self m))))
     | Raise e => Raise e
     | Diverge => Diverge
     end).
Proof.
  intros args m prompt Hmodel Hit Hformat.
  pose proof (num_tokens_ends encode
                (Chat.messages (chat_of m) ++ [ChatMessage.mk USER prompt])) as Hd.
  assert (Hbody : forall m1 : Machine W,
    m1 = mkMachine
           (Agent.set_chat (self m)
              (Chat.mk (Chat.messages (chat_of m) ++ [ChatMessage.mk USER prompt])
                 [ReasoningStep.mk PROMPT (Text prompt)] []))
           (world m) (events m) ->
    loop_body encode py_repr py_str coerce user_turn prompt m1
    = (m1,
       match num_tokens_from_messages encode
               (Chat.messages (chat_of m) ++ [ChatMessage.mk USER prompt]) with
       | Ok _ =>
           Raise (key_error py_repr (OpenAILanguageModel.model (Agent.llm (self m))))
       | Raise e => Raise e
       | Diverge => Diverge
       end)).
  { intros m1 ->. unfold loop_body. unfold bind at 1. unfold _trim_conversation.
    cbn [self Agent.llm Agent.chat Agent.set_chat Chat.messages world events].
    rewrite trim_unknown_model by exact Hmodel.
    destruct (num_tokens_from_messages encode _); reflexivity. }
  destruct (num_tokens_from_messages encode
              (Chat.messages (chat_of m) ++ [ChatMessage.mk USER prompt]))
    as [n|e|] eqn:Hn; [| |congruence];
    (eapply invoke_pass_raises with (iteration := 0);
     [rewrite invoke_start_eq, Hformat; reflexivity
     | apply reaches_here
     | exact Hit
     | now apply Hbody]).
Qed.
End StartEdges.

Lemma invoke_format_error_witness :
  Demo.invoke Demo.question Edge.undeclared
  = (Edge.undeclared, Raise (key_error Demo.py_repr "question")).
Proof.
  apply (@invoke_format_error nat Demo.encode Demo.py_repr Demo.py_str Demo.str_format
      Demo.coerce Demo.create_model
           Demo.user_turn Demo.question Edge.undeclared).
  reflexivity.
Defined.

Lemma invoke_negative_iterations_witness :
  snd (Demo.invoke Demo.question (Demo.machine [] Demo.tools STRUCT (-1)))
  = Ok (AgentOutput.mk Demo.asked (PDict [("a", PNone); ("b", PNone)])
          [ReasoningStep.mk PROMPT (Text Demo.asked)]).
Proof.
  unfold Demo.invoke.
  rewrite (@invoke_negative_iterations nat Demo.encode Demo.py_repr Demo.py_str Demo.str_format
      Demo.coerce Demo.create_model
             Demo.user_turn Demo.question
             (Demo.machine [] Demo.tools STRUCT (-1)) Demo.asked);
    reflexivity.
Defined.

Lemma invoke_unknown_model_witness :
  snd (Demo.invoke Demo.question Edge.unknown_model)
  = Raise (mkException KeyError "'gpt-5'") /\
  events (fst (Demo.invoke Demo.question Edge.unknown_model)) = [].
Proof.
  unfold Demo.invoke.
  rewrite (@invoke_unknown_model nat Demo.encode Demo.py_repr Demo.py_str Demo.str_format
      Demo.coerce Demo.create_model
             Demo.user_turn Demo.question Edge.unknown_model Demo.asked).
  - split; reflexivity.
  - reflexivity.
  - vm_compute. discriminate.
  - reflexivity.
Defined.

(** ** Errors of the model and of a tool *)

Section CollaboratorErrors.
Variable W : Type.
Variable encode : string -> outcome (list Z).
Variable py_repr : string -> string.
Variable py_str : PyVal -> string.
Variable str_format : string -> dict PyVal -> outcome string.
Variable coerce : PyVal -> outcome PyVal.
Variable create_model : string -> list string -> outcome unit.
Variable user_turn : string -> list string -> string.

Lemma parse_calls_app : forall evs evs',
  parse_calls (evs ++ evs') = (parse_calls evs + parse_calls evs')%nat.
Proof. intros. unfold parse_calls. now rewrite filter_app, length_app. Qed.

Lemma loop_body_completion_raises : forall prompt (m m1 : Machine W) w2 e,
  _trim_conversation encode py_repr m = (m1, Ok tt) ->
  OpenAILanguageModel.get_completion (Agent.llm (self m1))
    (Chat.messages (chat_of m1)) (world m1) = (w2, Raises e) ->
  loop_body encode py_repr py_str coerce user_turn prompt m
  = (mkMachine (self m1) w2
       (events m1 ++ [CompletionCall (Chat.messages (chat_of m1)) (Raises e)]),
     Raise e).
Proof.
  intros prompt m m1 w2 e Htrim Hllm.
  unfold loop_body. unfold bind at 1. rewrite Htrim.
  unfold bind at 1. unfold get_completion, bind, get_self, call.
  unfold chat_of in Hllm. rewrite Hllm. reflexivity.
Qed.

(** X11: An exception of the model-completion call is not caught: it leaves the
    pass and [invoke] as it is, whatever its kind; the parser is not called,
    and the log keeps the user prompt, trimmed. *)
Theorem completion_error_propagates :
  forall args (m0 ms m m1 : Machine W) prompt iteration w2 e,
    invoke_start str_format args m0 = (ms, Ok prompt) ->
    reaches encode py_repr py_str coerce user_turn prompt 0 ms iteration m ->
    iteration <= Agent.iterations (self m) ->
    _trim_conversation encode py_repr m = (m1, Ok tt) ->
    OpenAILanguageModel.get_completion (Agent.llm (self m1))
      (Chat.messages (chat_of m1)) (world m1) = (w2, Raises e) ->
    invoke encode py_repr py_str str_format coerce create_model user_turn args m0
    = (mkMachine (self m1) w2
         (events m1 ++ [CompletionCall (Chat.messages (chat_of m1)) (Raises e)]),
       Raise e) /\
    parse_calls
      (events m1 ++ [CompletionCall (Chat.messages (chat_of m1)) (Raises e)])
    = parse_calls (events m).
Proof.
  intros args m0 ms m m1 prompt iteration w2 e Hstart Hreach Hle Htrim Hllm.
  split.
  - eapply invoke_pass_raises; try eassumption.
    now apply loop_body_completion_raises.
  - destruct (@trim_conversation_frame W encode py_repr m m1 (Ok tt) Htrim) as (_ & -> & _).
    rewrite parse_calls_app. cbn. lia.
Qed.

(** X12: An exception of a registered tool is not caught either, not even a
    [ValueError] or a [TypeError]: it leaves the pass and [invoke]; the
    thought step and its summary stay recorded, no tool step is, and no user
    turn is appended to the log. *)
Theorem tool_error_propagates :
  forall args (m0 ms m m1 : Machine W) prompt iteration w2 output w3
         th tool tool_input tools the_tool w4 e,
    invoke_start str_format args m0 = (ms, Ok prompt) ->
    reaches encode py_repr py_str coerce user_turn prompt 0 ms iteration m ->
    iteration <= Agent.iterations (self m) ->
    _trim_conversation encode py_repr m = (m1, Ok tt) ->
    OpenAILanguageModel.get_completion (Agent.llm (self m1))
      (Chat.messages (chat_of m1)) (world m1) = (w2, Returns output) ->
    AgentOutputParser.parse (Agent.output_parser (self m1)) output w2
    = (w3, Returns (LLMToolUse th tool tool_input)) ->
    Agent.tools (self m) = Some tools ->
    dict_get tool tools = Some the_tool ->
    Tool.invoke the_tool tool_input w3 = (w4, Raises e) ->
    exists m',
      invoke encode py_repr py_str str_format
          coerce create_model user_turn args m0 = (m', Raise e) /\
      Chat.chain_of_thought (chat_of m')
      = (Chat.chain_of_thought (chat_of m)
           ++ [ReasoningStep.mk THOUGHT (Text th)])%list /\
      Chat.steps (chat_of m')
      = (Chat.steps (chat_of m) ++ [("Thought: " ++ th)%string])%list /\
      Chat.messages (chat_of m') = Chat.messages (chat_of m1).
Proof.
  intros args m0 ms m m1 prompt iteration w2 output w3 th tool tool_input tools
    the_tool w4 e Hstart Hreach Hle Htrim Hllm Hparse Htools Hget Hinvoke.
  pose proof (@loop_body_parsed W encode py_repr
      py_str coerce user_turn prompt m m1 w2 output w3 _
                Htrim Hllm Hparse) as Hbody.
  cbv beta iota in Hbody.
  destruct (@trim_conversation_frame W encode py_repr m m1 (Ok tt) Htrim)
    as (_ & _ & _ & Hcot & Hsteps & Ht).
  rewrite (@act_tool_raises_state W py_str coerce user_turn prompt th tool tool_input ObsNone
             (parsed_machine m1 output w3 (Returns (LLMToolUse th tool tool_input)))
             tools the_tool w4 e) in Hbody;
    [|cbn; congruence|exact Hget|exact Hinvoke].
  eexists. split; [eapply invoke_pass_raises; eassumption|].
  cbn. rewrite <- Hcot, <- Hsteps. repeat split.
Qed.
End CollaboratorErrors.

Lemma completion_error_propagates_witness :
  snd (Demo.invoke Demo.question Edge.offline) = Raise Edge.timeout.
Proof.
  unfold Demo.invoke.
  rewrite (proj1 (@completion_error_propagates nat Demo.encode Demo.py_repr Demo.py_str
                    Demo.str_format
                        Demo.coerce Demo.create_model Demo.user_turn Demo.question Edge.offline
                    (Demo.started Edge.offline) (Demo.started Edge.offline)
                    (Demo.trimmed (Demo.started Edge.offline))
                    Demo.asked 0 1%nat Edge.timeout
                    ltac:(vm_compute; reflexivity) (reaches_here _ _ _ _ _ _ _ _)
                    ltac:(vm_compute; discriminate) ltac:(vm_compute; reflexivity)
                    ltac:(vm_compute; reflexivity))).
  reflexivity.
Defined.

Lemma tool_error_propagates_witness :
  exists m',
    Demo.invoke Demo.question Edge.broken_tools = (m', Raise Edge.bad_input) /\
    Chat.chain_of_thought (chat_of m')
    = [ReasoningStep.mk PROMPT (Text Demo.asked);
       ReasoningStep.mk THOUGHT (Text "I should search")].
Proof.
  destruct (@tool_error_propagates nat Demo.encode Demo.py_repr Demo.py_str Demo.str_format
      Demo.coerce Demo.create_model
              Demo.user_turn Demo.question Edge.broken_tools
              (Demo.started Edge.broken_tools) (Demo.started Edge.broken_tools)
              (Demo.trimmed (Demo.started Edge.broken_tools))
              Demo.asked 0 1%nat "Tool: search" 1%nat
              "I should search" "search" (PStr "rocq")
              [("search", Edge.broken_search)] Edge.broken_search 1%nat Edge.bad_input)
    as (m' & Hinvoke & Hcot & _).
  - vm_compute. reflexivity.
  - apply reaches_here.
  - vm_compute. discriminate.
  - vm_compute. reflexivity.
  - vm_compute. reflexivity.
  - vm_compute. reflexivity.
  - reflexivity.
  - reflexivity.
  - reflexivity.
  - exists m'. split; [exact Hinvoke | exact Hcot].
Defined.

(** ** The calls of a run *)

Lemma tool_events_counts : forall encode model max_tokens evs,
  Forall (fun ev => is_tool_call ev = true) evs ->
  completion_calls evs = O /\ parse_calls evs = O /\
  Forall (sent_within_budget encode model max_tokens) evs.
Proof.
  intros encode model max_tokens evs H. induction H as [|ev evs Hev _ IH].
  - repeat split. constructor.
  - destruct IH as (Hc & Hp & Hs). destruct ev; try discriminate.
    unfold completion_calls, parse_calls in *. cbn. repeat split; auto.
    constructor; [exact I | exact Hs].
Qed.

Section RunCalls.
Variable W : Type.
Variable encode : string -> outcome (list Z).
Variable py_repr : string -> string.
Variable py_str : PyVal -> string.
Variable str_format : string -> dict PyVal -> outcome string.
Variable coerce : PyVal -> outcome PyVal.
Variable create_model : string -> list string -> outcome unit.
Variable user_turn : string -> list string -> string.

(** After the parse, a pass calls at most one collaborator: a tool. *)
Lemma act_events : forall prompt output observation (m m' : Machine W) r,
  act py_str coerce user_turn prompt output observation m = (m', r) ->
  exists evs,
    events m' = (events m ++ evs)%list /\
    Forall (fun ev => is_tool_call ev = true) evs.
Proof.
  intros prompt [[th tool tool_input|th final_answer]|] observation m m' r.
  - run_agent. destruct (Agent.tools (self m)) as [tools|]; cbn.
    + destruct (dict_get tool tools) as [the_tool|]; cbn.
      * destruct (Tool.invoke the_tool tool_input (world m)) as [w [resp|e]]; cbn;
          intros H; injection H as <- _; cbn;
          (eexists; split; [reflexivity|]); repeat constructor.
      * intros H; injection H as <- _; cbn. exists []. now rewrite app_nil_r.
    + intros H; injection H as <- _; cbn. exists []. now rewrite app_nil_r.
  - rewrite act_final_answer. intros H; injection H as <- _; cbn.
    exists []. now rewrite app_nil_r.
  - unfold act. rewrite end_of_turn_next. intros H; injection H as <- _; cbn.
    exists []. now rewrite app_nil_r.
Qed.

(** A trim that returns leaves the log under the limit. *)
Lemma trim_conversation_fits : forall (m m1 : Machine W),
  _trim_conversation encode py_repr m = (m1, Ok tt) ->
  over_budget encode (OpenAILanguageModel.model (Agent.llm (self m)))
    (OpenAILanguageModel.max_tokens (Agent.llm (self m)))
    (Chat.messages (chat_of m1)) = Some false.
Proof.
  intros m m1. unfold _trim_conversation.
  destruct (trim_run encode py_repr
              (OpenAILanguageModel.model (Agent.llm (self m)))
              (OpenAILanguageModel.max_tokens (Agent.llm (self m)))
              (Chat.messages (Agent.chat (self m)))) as (_ & _ & _ & Hfit).
  destruct (trim encode py_repr _ _ _) as [messages r]. cbn [fst snd] in Hfit.
  intros H. injection H as <- ->. cbn. now apply Hfit.
Qed.

(** The calls of a pass: the model at most once and on a log under the
    limit, and exactly once, with one parse, in a pass that goes on. *)
Lemma loop_body_events : forall prompt (m m' : Machine W) r,
  loop_body encode py_repr py_str coerce user_turn prompt m = (m', r) ->
  exists evs,
    events m' = (events m ++ evs)%list /\
    Forall (sent_within_budget encode
              (OpenAILanguageModel.model (Agent.llm (self m)))
              (OpenAILanguageModel.max_tokens (Agent.llm (self m)))) evs /\
    (r = Ok Next -> completion_calls evs = 1%nat /\ parse_calls evs = 1%nat).
Proof.
  intros prompt m m' r. unfold loop_body. unfold bind at 1.
  destruct (_trim_conversation encode py_repr m) as [m1 [[]|e|]] eqn:Htrim.
  2,3: intros H; injection H as <- <-;
       destruct (@trim_conversation_frame W encode py_repr m m1 _ Htrim) as (_ & -> & _);
       exists []; rewrite app_nil_r; repeat split; try constructor; discriminate.
  pose proof (trim_conversation_fits _ Htrim) as Hfit.
  destruct (@trim_conversation_frame W encode py_repr m m1 _ Htrim) as (_ & Hev & _).
  unfold bind at 1. unfold get_completion, bind, get_self, call.
  destruct (OpenAILanguageModel.get_completion _ _ (world m1)) as [w2 [output|e]];
    cbn [lift fst snd self world events].
  2:{ intros H; injection H as <- <-. cbn [events]. rewrite Hev.
      eexists. split; [reflexivity|]. split; [|discriminate].
      constructor; [exact Hfit | constructor]. }
  unfold _parse_output, call. cbn [self world events].
  destruct (AgentOutputParser.parse _ output w2) as [w3 [parsed|error]]; cbn [lift].
  - intros H. destruct (act_events _ _ _ _ H) as (evs & Hevs & Htool).
    destruct (tool_events_counts encode
                (OpenAILanguageModel.model (Agent.llm (self m)))
                (OpenAILanguageModel.max_tokens (Agent.llm (self m))) Htool)
      as (Hc & Hp & Hs).
    cbn [events] in Hevs. rewrite Hevs, Hev, <- !app_assoc. cbn [app].
    eexists. split; [reflexivity|]. split.
    + constructor; [exact Hfit|]. constructor; [exact I | exact Hs].
    + intros _. unfold completion_calls, parse_calls in *. cbn. lia.
  - destruct (caught error).
    + intros H. destruct (act_events _ _ _ _ H) as (evs & Hevs & Htool).
      destruct (tool_events_counts encode
                  (OpenAILanguageModel.model (Agent.llm (self m)))
                  (OpenAILanguageModel.max_tokens (Agent.llm (self m))) Htool)
        as (Hc & Hp & Hs).
      cbn [events] in Hevs. rewrite Hevs, Hev, <- !app_assoc. cbn [app].
      eexists. split; [reflexivity|]. split.
      * constructor; [exact Hfit|]. constructor; [exact I | exact Hs].
      * intros _. unfold completion_calls, parse_calls in *. cbn. lia.
    + intros H; injection H as <- <-. cbn [events]. rewrite Hev, <- app_assoc.
      cbn [app]. eexists. split; [reflexivity|]. split; [|discriminate].
      constructor; [exact Hfit|]. constructor; [exact I | constructor].
Qed.

Lemma extends_llm : forall m m' : Machine W,
  extends m m' -> Agent.llm (self m') = Agent.llm (self m).
Proof. intros m m' (Hc & _). exact (f_equal (@Agent.llm W) Hc). Qed.

Lemma reaches_events : forall prompt iteration (m : Machine W) iteration' m',
  reaches encode py_repr py_str coerce user_turn prompt iteration m iteration' m' ->
  exists evs,
    events m' = (events m ++ evs)%list /\
    Forall (sent_within_budget encode
              (OpenAILanguageModel.model (Agent.llm (self m)))
              (OpenAILanguageModel.max_tokens (Agent.llm (self m)))) evs /\
    Z.of_nat (completion_calls evs) = iteration' - iteration /\
    Z.of_nat (parse_calls evs) = iteration' - iteration /\
    (iteration' = iteration \/ iteration' <= Agent.iterations (self m) + 1).
Proof.
  induction 1 as [iteration m|iteration m m1 iteration' m' Hle Hbody Hreach IH].
  - exists []. rewrite app_nil_r. repeat split; try constructor; cbn; lia.
  - destruct (loop_body_events _ _ Hbody) as (evs1 & Hev1 & Hs1 & Hn1).
    destruct (Hn1 eq_refl) as (Hc1 & Hp1).
    destruct IH as (evs & Hev & Hs & Hc & Hp & Hbound).
    pose proof (@loop_body_extends W encode py_repr py_str coerce user_turn prompt m m1 _ Hbody)
      as Hext.
    rewrite (extends_llm Hext) in Hs. rewrite (extends_iterations Hext) in Hbound.
    exists (evs1 ++ evs)%list. rewrite Hev, Hev1, app_assoc.
    split; [reflexivity|]. split; [apply Forall_app; now split|].
    rewrite completion_calls_app, parse_calls_app.
    split; [lia|]. split; [lia|]. right.
    destruct Hbound as [-> | Hb]; lia.
Qed.

Lemma while_loop_events : forall fuel prompt iteration (m : Machine W),
  exists evs,
    events (fst (while_loop encode py_repr py_str coerce user_turn fuel prompt iteration m))
    = (events m ++ evs)%list /\
    Forall (sent_within_budget encode
              (OpenAILanguageModel.model (Agent.llm (self m)))
              (OpenAILanguageModel.max_tokens (Agent.llm (self m)))) evs.
Proof.
  induction fuel as [|fuel IH]; intros prompt iteration m.
  - exists []. cbn. rewrite app_nil_r. split; [reflexivity | constructor].
  - destruct (Z.leb_spec iteration (Agent.iterations (self m))) as [Hle|Hgt].
    + rewrite (@while_loop_enter W encode py_repr
        py_str coerce user_turn fuel prompt iteration m Hle).
      destruct (loop_body encode py_repr py_str coerce user_turn prompt m) as [m1 r] eqn:Hbody.
      destruct (loop_body_events _ _ Hbody) as (evs1 & Hev1 & Hs1 & _).
      destruct r as [[|output]|e|]; cbn [fst];
        try (exists evs1; split; assumption).
      destruct (IH prompt (iteration + 1) m1) as (evs & Hev & Hs).
      rewrite (extends_llm
                 (@loop_body_extends W encode py_repr
                     py_str coerce user_turn prompt m m1 _ Hbody))
        in Hs.
      exists (evs1 ++ evs)%list. rewrite Hev, Hev1, app_assoc.
      split; [reflexivity | apply Forall_app; now split].
    + rewrite (@while_loop_leave W encode py_repr
        py_str coerce user_turn fuel prompt iteration m Hgt).
      exists []. cbn. rewrite app_nil_r. split; [reflexivity | constructor].
Qed.

(** X13: Whatever happens in a call of [invoke], every log that it sends to the
    model is under the token limit of the model: the model is never called on
    a log that the trim has not brought under the limit. *)
Theorem invoke_sends_trimmed_logs : forall args (m : Machine W),
  exists evs,
    events (fst (invoke encode py_repr py_str str_format coerce create_model user_turn args m))
    = (events m ++ evs)%list /\
    Forall (sent_within_budget encode
              (OpenAILanguageModel.model (Agent.llm (self m)))
              (OpenAILanguageModel.max_tokens (Agent.llm (self m)))) evs.
Proof.
  intros args m. rewrite invoke_eq, invoke_start_eq.
  destruct (str_format _ _) as [prompt|e].
  2:{ exists []. cbn. rewrite app_nil_r. split; [reflexivity | constructor]. }
  set (ms := mkMachine _ (world m) (events m)).
  destruct (while_loop_events (invoke_fuel (Agent.iterations (self m))) prompt 0 ms)
    as (evs & Hev & Hs).
  exists evs. split; [|exact Hs].
  destruct (while_loop encode py_repr py_str coerce user_turn _ prompt 0 ms)
    as [m' [[out|]|e|]]; cbn [fst] in *; try exact Hev.
  rewrite invoke_fallback_eq. destruct (fallback_answer _ _); exact Hev.
Qed.

(** X14: When the loop ends with the budget spent, it has called the model and
    the parser max(0, iterations + 1) times each, no fewer: every pass that
    goes on makes one call of each, and [invoke] makes no call after the
    loop. *)
Theorem exhaustion_uses_every_call :
  forall args (m0 ms m : Machine W) prompt iteration,
    invoke_start str_format args m0 = (ms, Ok prompt) ->
    reaches encode py_repr py_str coerce user_turn prompt 0 ms iteration m ->
    Agent.iterations (self m) < iteration ->
    fst (invoke encode py_repr py_str str_format coerce create_model user_turn args m0) = m /\
    completion_calls (events m)
    = (completion_calls (events m0) + Z.to_nat (Agent.iterations (self m0) + 1))%nat /\
    parse_calls (events m)
    = (parse_calls (events m0) + Z.to_nat (Agent.iterations (self m0) + 1))%nat.
Proof.
  intros args m0 ms m prompt iteration Hstart Hreach Hlt.
  destruct (@invoke_exhausted W encode py_repr py_str str_format
      coerce create_model user_turn args m0 ms m
              prompt iteration Hstart Hreach Hlt) as (Hinv & _).
  split.
  - rewrite Hinv, invoke_fallback_eq. now destruct (fallback_answer _ _).
  - destruct (@invoke_start_config W str_format args m0 ms (Ok prompt) Hstart)
      as (Hc & Hev0 & _).
    pose proof (f_equal (@Agent.iterations W) Hc) as Hit. cbn in Hit.
    destruct (reaches_events Hreach) as (evs & Hev & _ & Hcalls & Hparses & Hbound).
    rewrite (extends_iterations
               (@reaches_extends W encode py_repr
                   py_str coerce user_turn prompt 0 ms iteration m
                  Hreach)) in Hlt.
    rewrite Hev, completion_calls_app, parse_calls_app, Hev0.
    split; destruct Hbound as [-> | Hb]; lia.
Qed.
End RunCalls.

Lemma exhaustion_uses_every_call_witness :
  completion_calls
    (events (Demo.passed (Demo.started (Demo.machine ["garbage"] Demo.tools STRUCT 0))))
  = 1%nat.
Proof.
  destruct (@exhaustion_uses_every_call nat Demo.encode Demo.py_repr Demo.py_str
              Demo.str_format Demo.coerce Demo.create_model
              Demo.user_turn Demo.question
              (Demo.machine ["garbage"] Demo.tools STRUCT 0)
              (Demo.started (Demo.machine ["garbage"] Demo.tools STRUCT 0))
              (Demo.passed (Demo.started (Demo.machine ["garbage"] Demo.tools STRUCT 0)))
              Demo.asked 1)
    as (_ & Hcalls & _).
  - vm_compute. reflexivity.
  - eapply reaches_next; [| |apply reaches_here].
    + vm_compute. discriminate.
    + vm_compute. reflexivity.
  - vm_compute. reflexivity.
  - exact Hcalls.
Defined.

(** ** The fallback for the object types *)

Section FallbackEdges.
Variable W : Type.
Variable encode : string -> outcome (list Z).
Variable py_repr : string -> string.
Variable py_str : PyVal -> string.
Variable str_format : string -> dict PyVal -> outcome string.
Variable coerce : PyVal -> outcome PyVal.
Variable create_model : string -> list string -> outcome unit.
Variable user_turn : string -> list string -> string.

(** X15: When the budget is spent for an object-like output type and the output
    schema of the parser is [None] or a string, the fallback cannot be built:
    [invoke] raises the [AttributeError] of reading [__annotations__], after
    all the calls of the loop. *)
Theorem fallback_without_schema_class :
  forall args (m0 ms m : Machine W) prompt iteration,
    invoke_start str_format args m0 = (ms, Ok prompt) ->
    reaches encode py_repr py_str coerce user_turn prompt 0 ms iteration m ->
    Agent.iterations (self m) < iteration ->
    AgentOutputParser.output_type (Agent.output_parser (self m0)) = OBJECT \/
    AgentOutputParser.output_type (Agent.output_parser (self m0)) = ARRAY_OBJECT ->
    (forall cls,
        AgentOutputParser.output_schema (Agent.output_parser (self m0))
        <> Some (SchemaClass cls)) ->
    exists e,
      invoke encode py_repr py_str str_format
          coerce create_model user_turn args m0 = (m, Raise e) /\
      exc_kind e = AttributeError.
Proof.
  intros args m0 ms m prompt iteration Hstart Hreach Hlt Htype Hschema.
  destruct (@invoke_exhausted W encode py_repr py_str str_format
      coerce create_model user_turn args m0 ms m
              prompt iteration Hstart Hreach Hlt) as (-> & Hparser).
  rewrite invoke_fallback_eq, Hparser. unfold fallback_answer.
  destruct Htype as [-> | ->];
    destruct (AgentOutputParser.output_schema (Agent.output_parser (self m0)))
      as [[cls|s]|] eqn:E;
    try (exfalso; now apply (Hschema cls));
    eexists; split; reflexivity.
Qed.

Lemma optional_fields_closed : forall fields,
  optional_fields fields
  = if forallb (fun field => typed (snd field)) fields
    then Ok (dict_keys fields)
    else Raise union_type_error.
Proof.
  induction fields as [|[field [name|text]] fields IH];
    cbn [optional_fields forallb snd typed andb]; try reflexivity.
  rewrite IH. now destruct (forallb _ fields).
Qed.

(** X19: When the budget is spent for an object-like output type and the
    output schema of the parser is a model class, the fallback is an instance
    of the model that [create_model] gives for the name and the fields of the
    class, with [None] in every field (in a one-element list for the list
    type); when an annotation of the class is kept as a string,
    [data_type | None] raises a [TypeError] and [invoke] raises it instead
    of returning; and an error of [create_model] leaves [invoke] too. *)
Theorem fallback_with_schema_class :
  forall args (m0 ms m : Machine W) prompt iteration cls,
    invoke_start str_format args m0 = (ms, Ok prompt) ->
    reaches encode py_repr py_str coerce user_turn prompt 0 ms iteration m ->
    Agent.iterations (self m) < iteration ->
    AgentOutputParser.output_type (Agent.output_parser (self m0)) = OBJECT \/
    AgentOutputParser.output_type (Agent.output_parser (self m0)) = ARRAY_OBJECT ->
    AgentOutputParser.output_schema (Agent.output_parser (self m0))
    = Some (SchemaClass cls) ->
    let fields := BaseModelClass.__annotations__ cls in
    let instance :=
      PModel (BaseModelClass.__name__ cls) (null_filled (dict_keys fields)) in
    invoke encode py_repr py_str str_format coerce create_model user_turn args m0
    = (m,
       if forallb (fun field => typed (snd field)) fields then
         match create_model (BaseModelClass.__name__ cls) (dict_keys fields) with
         | Returns _ =>
             Ok (AgentOutput.mk prompt
                   match AgentOutputParser.output_type
                           (Agent.output_parser (self m0)) with
                   | OBJECT => instance
                   | _ => PList [instance]
                   end
                   (Chat.chain_of_thought (chat_of m)))
         | Raises e => Raise e
         end
       else Raise union_type_error) /\
    exc_kind union_type_error = TypeError.
Proof.
  intros args m0 ms m prompt iteration cls Hstart Hreach Hlt Htype Hschema
    fields instance.
  split; [|reflexivity].
  destruct (@invoke_exhausted W encode py_repr py_str str_format
      coerce create_model user_turn args m0 ms m
              prompt iteration Hstart Hreach Hlt) as (-> & Hparser).
  rewrite invoke_fallback_eq, Hparser. unfold fallback_answer.
  destruct Htype as [-> | ->]; rewrite Hschema; unfold fallback_model;
    rewrite optional_fields_closed; fold fields;
    destruct (forallb (fun field => typed (snd field)) fields); try reflexivity;
    destruct (create_model (BaseModelClass.__name__ cls) (dict_keys fields));
    reflexivity.
Qed.
End FallbackEdges.

Lemma fallback_without_schema_class_witness :
  exists e,
    Demo.invoke Demo.question (Demo.machine ["garbage"] Demo.tools OBJECT 0)
    = (Demo.passed (Demo.started (Demo.machine ["garbage"] Demo.tools OBJECT 0)),
       Raise e) /\
    exc_kind e = AttributeError.
Proof.
  apply (@fallback_without_schema_class nat Demo.encode Demo.py_repr Demo.py_str
              Demo.str_format Demo.coerce Demo.create_model
           Demo.user_turn Demo.question
           (Demo.machine ["garbage"] Demo.tools OBJECT 0)
           (Demo.started (Demo.machine ["garbage"] Demo.tools OBJECT 0))
           (Demo.passed (Demo.started (Demo.machine ["garbage"] Demo.tools OBJECT 0)))
           Demo.asked 1).
  - vm_compute. reflexivity.
  - eapply reaches_next; [| |apply reaches_here].
    + vm_compute. discriminate.
    + vm_compute. reflexivity.
  - vm_compute. reflexivity.
  - left. reflexivity.
  - intros cls. discriminate.
Defined.

Lemma fallback_with_schema_class_witness :
  snd (Demo.invoke Demo.question (Edge.object_machine Demo.schema 0))
  = Ok (AgentOutput.mk Demo.asked (PModel "Answer" [("a", PNone); ("b", PNone)])
          [ReasoningStep.mk PROMPT (Text Demo.asked)]).
Proof.
  unfold Demo.invoke.
  rewrite (proj1 (@fallback_with_schema_class nat Demo.encode Demo.py_repr Demo.py_str
                    Demo.str_format Demo.coerce Demo.create_model Demo.user_turn
                    Demo.question (Edge.object_machine Demo.schema 0)
                    (Demo.started (Edge.object_machine Demo.schema 0))
                    (Demo.passed (Demo.started (Edge.object_machine Demo.schema 0)))
                    Demo.asked 1 Demo.schema
                    ltac:(vm_compute; reflexivity)
                    ltac:(eapply reaches_next;
                          [vm_compute; discriminate
                          | vm_compute; reflexivity
                          | apply reaches_here])
                    ltac:(vm_compute; reflexivity)
                    (or_introl eq_refl) eq_refl)).
  reflexivity.
Defined.

(** The same agent with a model class whose annotations are kept as strings:
    the fallback cannot be built. *)
Example fallback_with_postponed_annotations :
  snd (Demo.invoke Demo.question (Edge.object_machine Edge.postponed 0))
  = Raise union_type_error.
Proof. vm_compute. reflexivity. Qed.

(** ** What [create] builds *)

Lemma find_app_last : forall (A : Type) (p : A -> bool) (l : list A) (x : A),
  find p (l ++ [x])
  = match find p l with
    | Some y => Some y
    | None => if p x then Some x else None
    end.
Proof.
  intros A p l x. induction l as [|y l IH]; cbn.
  - reflexivity.
  - destruct (p y); [reflexivity | exact IH].
Qed.

Lemma dict_comprehension_from : forall (A V : Type) (key_of : A -> string)
    (value_of : A -> V) (xs : list A) (d : dict V) key,
  dict_get key (fold_left (fun d x => dict_set (key_of x) (value_of x) d) xs d)
  = match find (fun x => String.eqb key (key_of x)) (rev xs) with
    | Some x => Some (value_of x)
    | None => dict_get key d
    end.
Proof.
  intros A V key_of value_of. induction xs as [|x xs IH]; intros d key; cbn.
  - reflexivity.
  - rewrite IH, find_app_last, dict_get_set.
    destruct (find _ (rev xs)); [reflexivity|].
    destruct (String.eqb key (key_of x)); reflexivity.
Qed.

(** A dict comprehension holds, under a key, the value of the last element
    that has this key. *)
Lemma dict_comprehension_get : forall (A V : Type) (key_of : A -> string)
    (value_of : A -> V) (xs : list A) key,
  dict_get key (dict_comprehension key_of value_of xs)
  = option_map value_of (find (fun x => String.eqb key (key_of x)) (rev xs)).
Proof.
  intros. unfold dict_comprehension. rewrite dict_comprehension_from.
  now destruct (find _ (rev xs)).
Qed.

Lemma dict_set_keys : forall (V : Type) key (value : V) (d : dict V),
  dict_keys (dict_set key value d)
  = if existsb (String.eqb key) (dict_keys d) then dict_keys d
    else (dict_keys d ++ [key])%list.
Proof.
  intros V key value d. unfold dict_keys.
  induction d as [|[k v] d IH]; cbn [dict_set map fst existsb].
  - reflexivity.
  - destruct (String.eqb key k) eqn:E; cbn [map fst orb]; [reflexivity|].
    rewrite IH. now destruct (existsb (String.eqb key) (map fst d)).
Qed.

Lemma dict_set_nodup : forall (V : Type) key (value : V) (d : dict V),
  NoDup (dict_keys d) -> NoDup (dict_keys (dict_set key value d)).
Proof.
  intros V key value d H. rewrite dict_set_keys.
  destruct (existsb (String.eqb key) (dict_keys d)) eqn:E; [exact H|].
  apply NoDup_rev in H. rewrite <- (rev_involutive (dict_keys d ++ [key])).
  apply NoDup_rev. rewrite rev_app_distr. cbn. constructor; [|exact H].
  rewrite <- in_rev. intros Hin.
  assert (existsb (String.eqb key) (dict_keys d) = true); [|congruence].
  apply existsb_exists. exists key. split; [exact Hin | apply String.eqb_refl].
Qed.

Lemma dict_comprehension_nodup : forall (A V : Type) (key_of : A -> string)
    (value_of : A -> V) (xs : list A),
  NoDup (dict_keys (dict_comprehension key_of value_of xs)).
Proof.
  intros A V key_of value_of xs. unfold dict_comprehension.
  assert (H : forall d : dict V, NoDup (dict_keys d) ->
              NoDup (dict_keys
                       (fold_left (fun d x => dict_set (key_of x) (value_of x) d) xs d))).
  { induction xs as [|x xs IH]; intros d Hd; cbn; [exact Hd|].
    apply IH. now apply dict_set_nodup. }
  apply H. constructor.
Qed.

Section CreateMore.
Variable W : Type.
Variable INSTRUCTIONS_WITHOUT_TOOLS : string.
Variable INSTRUCTIONS_WITH_TOOLS : string.
Variable FINAL_ANSWER_INSTRUCTIONS : OutputType -> outcome string.
Variable format_template : string -> dict PyVal -> string.
Variable tool_str : Tool.t W -> string.
Variable output_type_str : OutputType -> string.
Variable get_example_from_schema : dict PyVal -> outcome PyVal.
Variable new_parser :
  OutputType -> option OutputSchema -> bool -> outcome (AgentOutputParser.t W).

(** X16: The agent that [create] returns has no tools when none were given;
    given a list of tools, it has them in a dict with one entry per name:
    under a name is the last tool of the list that has this name, so a tool
    is always found under its own name, and an earlier tool of the same name
    is dropped without an error. *)
Theorem create_registers_tools_by_name :
  forall llm system_prompt prompt prompt_variables output_type output_schema tools
         prompting_strategy iterations agent,
    create INSTRUCTIONS_WITHOUT_TOOLS INSTRUCTIONS_WITH_TOOLS
      FINAL_ANSWER_INSTRUCTIONS format_template tool_str output_type_str
      get_example_from_schema new_parser llm system_prompt prompt
      prompt_variables output_type output_schema tools prompting_strategy iterations
    = Ok agent ->
    match tools with
    | None => Agent.tools agent = None
    | Some given =>
        exists registry,
          Agent.tools agent = Some registry /\
          NoDup (dict_keys registry) /\
          (forall name,
              dict_get name registry
              = find (fun tool => String.eqb name (Tool.name tool)) (rev given)) /\
          (forall name tool,
              dict_get name registry = Some tool -> Tool.name tool = name)
    end.
Proof.
  intros llm system_prompt prompt prompt_variables output_type output_schema tools
    prompting_strategy iterations agent.
  unfold create. destruct tools as [given|]; cbv zeta beta iota;
    destruct (final_answer_instructions _ _ _ _ _ _) as [fai|e|]; cbn [and_then];
    try discriminate;
    destruct (new_parser _ _ _) as [parser|e]; cbn [lift and_then];
    try discriminate; intros H; injection H as <-; cbn [Agent.tools];
    [|reflexivity].
  assert (Hget : forall name,
             dict_get name (dict_comprehension (@Tool.name W) (fun tool => tool) given)
             = find (fun tool => String.eqb name (Tool.name tool)) (rev given)).
  { intros name. rewrite dict_comprehension_get.
    now destruct (find _ (rev given)). }
  eexists. split; [reflexivity|]. split; [apply dict_comprehension_nodup|].
  split; [exact Hget|].
  intros name tool Hfound. rewrite Hget in Hfound.
  apply find_some in Hfound. destruct Hfound as (_ & Heq).
  apply String.eqb_eq in Heq. now symmetry.
Qed.

(** X17: The agent that [create] returns starts with a log of one message, the
    system message, whose content is the system prompt, the instructions and
    the final-answer instructions joined by blank lines; the instructions are
    [INSTRUCTIONS_WITHOUT_TOOLS] without tools, and [INSTRUCTIONS_WITH_TOOLS]
    formatted with the texts of the tools joined by blank lines otherwise;
    the final-answer instructions are the entry of the output type in
    [FINAL_ANSWER_INSTRUCTIONS], formatted with the schema for the object
    and date types; its parser is the one constructed with [tool_use] set
    exactly when a list of tools was given, an empty list included. *)
Theorem create_starts_with_system_message :
  forall llm system_prompt prompt prompt_variables output_type output_schema tools
         prompting_strategy iterations agent,
    create INSTRUCTIONS_WITHOUT_TOOLS INSTRUCTIONS_WITH_TOOLS
      FINAL_ANSWER_INSTRUCTIONS format_template tool_str output_type_str
      get_example_from_schema new_parser llm system_prompt prompt
      prompt_variables output_type output_schema tools prompting_strategy iterations
    = Ok agent ->
    exists template final,
      FINAL_ANSWER_INSTRUCTIONS output_type = Returns template /\
      (forall cls example,
          object_like output_type = true ->
          output_schema = Some (SchemaClass cls) ->
          get_example_from_schema (BaseModelClass.properties cls) = Returns example ->
          final
          = format_template template
              [("output_schema", PDict (BaseModelClass.properties cls));
               ("example", example)]) /\
      (date_like output_type = true ->
       final
       = format_template template [("output_schema", schema_value output_schema)]) /\
      (object_like output_type = false -> date_like output_type = false ->
       final = template) /\
      Chat.messages (Agent.chat agent)
      = [ChatMessage.mk SYSTEM
           (system_prompt ++ (newline ++ newline)
              ++ match tools with
                 | None => INSTRUCTIONS_WITHOUT_TOOLS
                 | Some given =>
                     format_template INSTRUCTIONS_WITH_TOOLS
                       [("tools",
                         PStr (join (newline ++ newline) (map tool_str given)))]
                 end
              ++ (newline ++ newline) ++ final)%string] /\
      new_parser output_type output_schema
        (match tools with Some _ => true | None => false end)
      = Returns (Agent.output_parser agent) /\
      Agent.iterations agent = iterations /\
      Agent.llm agent = llm.
Proof.
  intros llm system_prompt prompt prompt_variables output_type output_schema tools
    prompting_strategy iterations agent.
  assert (Hfai : forall fai,
             final_answer_instructions FINAL_ANSWER_INSTRUCTIONS format_template
               output_type_str get_example_from_schema output_type output_schema
             = Ok fai ->
             exists template,
               FINAL_ANSWER_INSTRUCTIONS output_type = Returns template /\
               (forall cls example,
                   object_like output_type = true ->
                   output_schema = Some (SchemaClass cls) ->
                   get_example_from_schema (BaseModelClass.properties cls)
                   = Returns example ->
                   fai
                   = format_template template
                       [("output_schema", PDict (BaseModelClass.properties cls));
                        ("example", example)]) /\
               (date_like output_type = true ->
                fai
                = format_template template
                    [("output_schema", schema_value output_schema)]) /\
               (object_like output_type = false -> date_like output_type = false ->
                fai = template)).
  { intros fai. unfold final_answer_instructions, instructions_for.
    destruct (object_like output_type) eqn:Hobject.
    - destruct output_schema as [[cls|text]|]; try discriminate.
      destruct (FINAL_ANSWER_INSTRUCTIONS output_type) as [template|e];
        cbn [lift and_then]; [|discriminate].
      destruct (get_example_from_schema _) as [example|e] eqn:Hexample;
        cbn [lift and_then]; [|discriminate].
      intros H. injection H as <-. exists template.
      split; [reflexivity|]. split; [|split].
      + intros cls' example' _ Hcls Hexample'. injection Hcls as <-.
        rewrite Hexample in Hexample'. now injection Hexample' as <-.
      + destruct output_type; discriminate.
      + discriminate.
    - destruct (date_like output_type);
        destruct (FINAL_ANSWER_INSTRUCTIONS output_type) as [template|e];
        cbn [lift and_then]; try discriminate;
        intros H; injection H as <-; exists template;
        (split; [reflexivity|]); (split; [discriminate|]);
        split; try discriminate; auto. }
  unfold create. destruct tools as [given|]; cbv zeta beta iota;
    destruct (final_answer_instructions _ _ _ _ _ _) as [fai|e|] eqn:Hfinal;
    cbn [and_then]; try discriminate;
    destruct (new_parser _ _ _) as [parser|e] eqn:Hparser; cbn [lift and_then];
    try discriminate; intros H; injection H as <-;
    cbn [Agent.chat Agent.output_parser Agent.iterations Agent.llm Chat.messages];
    destruct (Hfai fai eq_refl) as (template & Htemplate & Hobj & Hdate & Hplain);
    exists template, fai; repeat split; auto.
Qed.

(** X18: For an object-like output type, [create] returns an agent only when the
    output schema is a model class: with no schema and with a string as
    schema it raises. *)
Theorem create_object_needs_class :
  forall llm system_prompt prompt prompt_variables output_type output_schema tools
         prompting_strategy iterations agent,
    output_type = OBJECT \/ output_type = ARRAY_OBJECT ->
    create INSTRUCTIONS_WITHOUT_TOOLS INSTRUCTIONS_WITH_TOOLS
      FINAL_ANSWER_INSTRUCTIONS format_template tool_str output_type_str
      get_example_from_schema new_parser llm system_prompt prompt
      prompt_variables output_type output_schema tools prompting_strategy iterations
    = Ok agent ->
    exists cls, output_schema = Some (SchemaClass cls).
Proof.
  intros llm system_prompt prompt prompt_variables output_type output_schema tools
    prompting_strategy iterations agent Htype.
  unfold create.
  assert (Hfai : forall fai,
             final_answer_instructions FINAL_ANSWER_INSTRUCTIONS format_template
               output_type_str get_example_from_schema output_type output_schema
             = Ok fai ->
             exists cls, output_schema = Some (SchemaClass cls)).
  { intros fai. unfold final_answer_instructions.
    destruct Htype as [-> | ->]; cbn [object_like];
      destruct output_schema as [[cls|s]|]; try discriminate; eauto. }
  destruct tools as [given|]; cbv zeta beta iota;
    destruct (final_answer_instructions _ _ _ _ _ _) as [fai|e|]; cbn [and_then];
    try discriminate; intros _; now apply (Hfai fai).
Qed.
End CreateMore.

Lemma create_registers_tools_by_name_witness :
  exists registry,
    NoDup (dict_keys registry) /\
    dict_get "search" registry = Some Edge.second_search /\
    dict_get "browse" registry = None.
Proof.
  edestruct (fun agent =>
               @create_registers_tools_by_name nat
                 "You have no tools." "You have these tools: {tools}"
                 (fun _ => Returns "Give the final answer as {output_schema}.")
                 (fun template _ => template)
                 (@Tool.name nat)
                 (fun output_type =>
                    match output_type with
                    | OBJECT => "OutputType.OBJECT"
                    | ARRAY_OBJECT => "OutputType.ARRAY_OBJECT"
                    | _ => "OutputType"
                    end)
                 (fun _ => Returns PNone)
                 (fun output_type _ _ => Returns (Demo.parser output_type None))
                 (Demo.llm "gpt-4" 256 []) "You are an agent." "Question: "
                 ["question"] (PLAIN "string") None
                 (Some [Demo.search; Demo.calculator; Edge.second_search])
                 CHAIN_OF_THOUGHT 10 agent)
    as (registry & _ & Hnodup & Hget & _).
  - reflexivity.
  - exists registry. split; [exact Hnodup|]. rewrite !Hget. split; reflexivity.
Defined.

Lemma create_starts_with_system_message_witness :
  exists agent,
    demo_create DATE (Some (SchemaStr "%Y-%m-%d"))
      (Some [Demo.search; Demo.calculator])
    = Ok agent /\
    Chat.messages (Agent.chat agent)
    = [ChatMessage.mk SYSTEM
         ("You are an agent." ++ newline ++ newline
            ++ "You have these tools: search" ++ newline ++ newline ++ "calculator"
            ++ newline ++ newline
            ++ "Give the final answer as %Y-%m-%d.")%string] /\
    AgentOutputParser.tool_use (Agent.output_parser agent) = true.
Proof.
  eexists. split; [reflexivity|].
  destruct (@create_starts_with_system_message nat
              "You have no tools." "You have these tools: {tools}"
              (fun _ => Returns "Give the final answer as {output_schema}.")
              Demo.format_template
              (@Tool.name nat)
              (fun output_type =>
                 match output_type with
                 | OBJECT => "OutputType.OBJECT"
                 | ARRAY_OBJECT => "OutputType.ARRAY_OBJECT"
                 | _ => "OutputType"
                 end)
              (fun _ => Returns PNone)
              (fun output_type output_schema tool_use =>
                 Returns (AgentOutputParser.mk output_type output_schema None
                            tool_use Demo.parse))
              (Demo.llm "gpt-4" 256 []) "You are an agent." "Question: "
              ["question"] DATE (Some (SchemaStr "%Y-%m-%d"))
              (Some [Demo.search; Demo.calculator])
              CHAIN_OF_THOUGHT 10 _ eq_refl)
    as (template & final & Htemplate & _ & Hdate & _ & Hlog & _).
  injection Htemplate as <-. rewrite Hlog, (Hdate eq_refl).
  split; reflexivity.
Defined.

Lemma create_object_needs_class_witness :
  exists cls, Some (SchemaClass Demo.schema) = Some (SchemaClass cls).
Proof.
  edestruct (fun agent =>
               @create_object_needs_class nat
                 "You have no tools." "You have these tools: {tools}"
                 (fun _ => Returns "Give the final answer as {output_schema}.")
                 (fun template _ => template)
                 (@Tool.name nat)
                 (fun output_type =>
                    match output_type with
                    | OBJECT => "OutputType.OBJECT"
                    | ARRAY_OBJECT => "OutputType.ARRAY_OBJECT"
                    | _ => "OutputType"
                    end)
                 (fun _ => Returns PNone)
                 (fun output_type _ _ => Returns (Demo.parser output_type None))
                 (Demo.llm "gpt-4" 256 []) "You are an agent." "Question: "
                 ["question"] OBJECT (Some (SchemaClass Demo.schema)) None
                 CHAIN_OF_THOUGHT 10 agent)
    as (cls & Hcls).
  - left. reflexivity.
  - reflexivity.
  - exists cls. exact Hcls.
Defined.
